(** * FTE Agent: the analysis-and-action orchestration pipeline

    A shallow embedding of the orchestration code of the FTE_Project
    repository and the properties proved about it:

    - [skills/*.py]   : the five heuristic analyzers ([Module RealSkills]);
    - [agent/tools.py]: the tool registry and [execute_tool] ([Module Tools]);
    - [agent/brain.py]: [analyze_message], [_structure_output],
                        [_determine_actions] ([Module Agent]);
    - [main.py]       : [analyze_with_skills], [extract_sender],
                        [approval_flow], [execute_actions], [log_execution],
                        [process_message_file] ([Module Main]).

    Modelling conventions.
    - Python [str] is a Rocq [string]; on ASCII text the string methods of
      [Module Py] ([lower], [strip], [split], [in], [count], ...) act as
      Python's do.
    - A Python exception of class [Exception] is a value of type [exn]
      carrying what [str(e)] returns; a computation that may raise has type
      [result A = exn + A], and [try ... except Exception] is [try_except]
      (in the world, [try_io]).
    - Python floats are the kernel's binary64 floats; a count is converted
      as [float(n)] is, exactly below 2^53.
    - The analyzers are called with [return_structured=True] throughout the
      orchestrator; only that mode is modelled. Their results, and the
      action dicts, are tagged unions with the keys of the source.
    - Library code that the repository calls but does not contain ([json],
      [re], [datetime], the iteration order of a [set], the OpenAI client)
      is an interface (a type class) the embedding is parametric in; so is
      the analyzer set, which the orchestrator imports.
    - [print] calls, and [display_analysis] which only prints, are not part
      of the model; [input], file writes and file renames are events of an
      explicit [World], in which any write or rename may raise. *)

From Stdlib Require Import ZArith String Ascii List Bool PrimFloat Uint63.
From stdpp Require Import base option list gmap strings pretty.
Set Warnings "-inexact-float".
Import ListNotations.

Local Open Scope string_scope.
Local Open Scope list_scope.

(** ** Python values, exceptions, results *)

(** The values [json.loads] can return; tool-call arguments are such values. *)
#[local] Unset Elimination Schemes.
Inductive pyval : Type :=
| PNone
| PBool (b : bool)
| PInt (z : Z)
| PFloat (f : float)
| PStr (s : string)
| PList (l : list pyval)
| PDict (d : list (string * pyval)).
#[local] Set Elimination Schemes.

(** [type(v).__name__] *)
Definition py_type_name (v : pyval) : string :=
  match v with
  | PNone => "NoneType"
  | PBool _ => "bool"
  | PInt _ => "int"
  | PFloat _ => "float"
  | PStr _ => "str"
  | PList _ => "list"
  | PDict _ => "dict"
  end.

(** An exception object: its class name and [str(e)]. *)
Record exn : Type := Exn { exn_class : string; exn_msg : string }.

Abbreviation result := (sum exn).

Definition raise {A} (e : exn) : result A := inl e.

#[global] Instance result_ret : MRet result := fun A a => inr a.
#[global] Instance result_bind : MBind result := fun A B k m =>
  match m with
  | inl e => inl e
  | inr a => k a
  end.

(** [try: body except Exception as e: handler(e)] for a body that returns. *)
Definition try_except {A} (body : result A) (handler : exn -> A) : A :=
  match body with
  | inl e => handler e
  | inr a => a
  end.

(** CPython's wording of the two errors the code can provoke on a value of
    the wrong type. *)
Definition AttributeError (v : pyval) (attr : string) : exn :=
  Exn "AttributeError"
      ("'" ++ py_type_name v ++ "' object has no attribute '" ++ attr ++ "'").

Definition TypeError (msg : string) : exn := Exn "TypeError" msg.

(** ** Python string methods *)

Module Py.

Definition is_upper (c : ascii) : bool :=
  let n := nat_of_ascii c in (65 <=? n)%nat && (n <=? 90)%nat.
Definition is_lower (c : ascii) : bool :=
  let n := nat_of_ascii c in (97 <=? n)%nat && (n <=? 122)%nat.
Definition is_alpha (c : ascii) : bool := is_upper c || is_lower c.

Definition lower_char (c : ascii) : ascii :=
  if is_upper c then ascii_of_nat (nat_of_ascii c + 32) else c.
Definition upper_char (c : ascii) : ascii :=
  if is_lower c then ascii_of_nat (nat_of_ascii c - 32) else c.

(** [s.lower()] *)
Fixpoint lower (s : string) : string :=
  match s with
  | EmptyString => EmptyString
  | String c s' => String (lower_char c) (lower s')
  end.

(** [c.isspace()] on ASCII: TAB LF VT FF CR, FS GS RS US, space. *)
Definition is_space (c : ascii) : bool :=
  let n := nat_of_ascii c in
  ((9 <=? n)%nat && (n <=? 13)%nat) || ((28 <=? n)%nat && (n <=? 32)%nat).

(** [s.startswith(p)] *)
Fixpoint startswith (s p : string) {struct p} : bool :=
  match p, s with
  | EmptyString, _ => true
  | String _ _, EmptyString => false
  | String a p', String b s' => Ascii.eqb a b && startswith s' p'
  end.

(** [sub in s] *)
Fixpoint contains (sub s : string) : bool :=
  startswith s sub ||
  match s with
  | EmptyString => false
  | String _ s' => contains sub s'
  end.

(** [s.count(sub)] for a non-empty [sub]: occurrences that do not overlap,
    from the left ([skip] characters of the last match are still to pass). *)
Fixpoint count_from (sub s : string) (skip : nat) : nat :=
  match s with
  | EmptyString => 0
  | String _ s' =>
      match skip with
      | S k => count_from sub s' k
      | O => if startswith s sub
             then S (count_from sub s' (String.length sub - 1))
             else count_from sub s' 0
      end
  end.
Definition count (s sub : string) : nat := count_from sub s 0.

(** [s.lstrip()], [s.rstrip()], [s.strip()] *)
Fixpoint lstrip (s : string) : string :=
  match s with
  | EmptyString => EmptyString
  | String c s' => if is_space c then lstrip s' else s
  end.
Fixpoint rstrip (s : string) : string :=
  match s with
  | EmptyString => EmptyString
  | String c s' =>
      match rstrip s' with
      | EmptyString => if is_space c then EmptyString else String c EmptyString
      | r => String c r
      end
  end.
Definition strip (s : string) : string := rstrip (lstrip s).

(** [s.split()]: maximal runs of non-space characters. [cur] is the word
    being read, reversed. *)
Fixpoint split_ws_go (cur : option string) (s : string) : list string :=
  match s with
  | EmptyString => option_list (String.rev <$> cur)
  | String c s' =>
      if is_space c
      then option_list (String.rev <$> cur) ++ split_ws_go None s'
      else split_ws_go (Some (String c (default EmptyString cur))) s'
  end.
Definition split_ws (s : string) : list string := split_ws_go None s.

Fixpoint string_drop (n : nat) (s : string) : string :=
  match n, s with
  | S k, String _ s' => string_drop k s'
  | _, _ => s
  end.

(** The one-character string ["\n"]. *)
Definition LF : string := String (ascii_of_nat 10) EmptyString.

(** [s.split(sep)] for a non-empty separator: always at least one piece.
    [cur] is the piece being read, reversed; [skip] counts the characters
    of a separator just matched that are still to pass. *)
Fixpoint split_go (sep : string) (cur : string) (s : string) (skip : nat)
  : list string :=
  match s with
  | EmptyString => [String.rev cur]
  | String c s' =>
      match skip with
      | S k => split_go sep cur s' k
      | O => if startswith s sep
             then String.rev cur ::
                  split_go sep EmptyString s' (String.length sep - 1)
             else split_go sep (String c cur) s' 0
      end
  end.
Definition split (s sep : string) : list string := split_go sep EmptyString s 0.

(** [s.split(sep, 1)]: cut at the first occurrence of [sep] only. *)
Fixpoint split1_go (sep : string) (cur : string) (s : string) : list string :=
  match s with
  | EmptyString => [String.rev cur]
  | String c s' =>
      if startswith s sep
      then [String.rev cur; string_drop (String.length sep) s]
      else split1_go sep (String c cur) s'
  end.
Definition split1 (s sep : string) : list string := split1_go sep EmptyString s.

(** [s.replace(old, new)] for a non-empty [old]. *)
Fixpoint replace_go (old new : string) (s : string) (skip : nat) : string :=
  match s with
  | EmptyString => EmptyString
  | String c s' =>
      match skip with
      | S k => replace_go old new s' k
      | O => if startswith s old
             then new ++ replace_go old new s' (String.length old - 1)
             else String c (replace_go old new s' 0)
      end
  end.
Definition replace (s old new : string) : string := replace_go old new s 0.

(** [s[:n]] *)
Fixpoint slice_to (n : nat) (s : string) : string :=
  match n, s with
  | S k, String c s' => String c (slice_to k s')
  | _, _ => EmptyString
  end.

(** [sep.join(l)] *)
Fixpoint join (sep : string) (l : list string) : string :=
  match l with
  | [] => EmptyString
  | [x] => x
  | x :: rest => x ++ sep ++ join sep rest
  end.

(** [s.title()]: the first letter of every run of letters in upper case,
    the others in lower case. *)
Fixpoint title_go (in_word : bool) (s : string) : string :=
  match s with
  | EmptyString => EmptyString
  | String c s' =>
      if is_alpha c
      then String (if in_word then lower_char c else upper_char c)
                  (title_go true s')
      else String c (title_go false s')
  end.
Definition title (s : string) : string := title_go false s.

End Py.

(** ** Analyzer results

    Every analyzer, called with [return_structured=True] as the orchestrator
    always does, returns a dict with a fixed set of keys; [execute_tool] adds
    the error dict [{"error": ...}]. *)

(** A task descriptor, [{'title', 'description', 'priority', 'index'}]. *)
Record TaskDescriptor : Type := {
  td_title : string;
  td_description : string;
  td_priority : string;
  td_index : nat
}.

(** An entry of a task list: a plain string or a descriptor
    ([isinstance(task, str)] tells them apart). *)
Inductive Task : Type :=
| TaskText (s : string)
| TaskDesc (d : TaskDescriptor).

Inductive AnalyzerResult : Type :=
| SummaryResult (summary : string) (key_points keywords : list string)
| ReplyResult (message_type : string) (suggestions : list string)
              (sender : pyval) (raw_suggestions : list string)
| TasksResult (tasks : list Task) (count : nat) (raw_tasks : list string)
| PriorityResult (priority : string) (confidence : float) (reasoning : string)
| CategoryResult (category : string) (confidence : float) (reasoning : string)
| ErrorResult (error : string).

(** [d.get(key)] for the keys the orchestrator reads: [None] when the dict
    has no such key. *)
Definition get_summary (d : AnalyzerResult) : option string :=
  match d with SummaryResult s _ _ => Some s | _ => None end.
Definition get_priority (d : AnalyzerResult) : option string :=
  match d with PriorityResult p _ _ => Some p | _ => None end.
Definition get_category (d : AnalyzerResult) : option string :=
  match d with CategoryResult c _ _ => Some c | _ => None end.
Definition get_suggestions (d : AnalyzerResult) : option (list string) :=
  match d with ReplyResult _ l _ _ => Some l | _ => None end.
Definition get_tasks (d : AnalyzerResult) : option (list Task) :=
  match d with TasksResult l _ _ => Some l | _ => None end.

(** The analyzer set: five functions from message text (any object at run
    time) to a structured result, each of which may raise. *)
Class Skills : Type := {
  summarize_content : pyval -> result AnalyzerResult;
  detect_priority : pyval -> result AnalyzerResult;
  categorize_content : pyval -> result AnalyzerResult;
  suggest_reply : pyval -> pyval -> result AnalyzerResult;
  extract_tasks : pyval -> result AnalyzerResult
}.

(** What the analyzers use of Python's library: [re] (always with
    [re.IGNORECASE] where [re_search] is used) and the iteration order of a
    [set] of strings. *)
Class TextLib : Type := {
  re_search : string -> string -> bool;          (* pattern, text *)
  re_sub : string -> string -> string -> string; (* pattern, repl, text *)
  re_split : string -> string -> list string;    (* pattern, text *)
  set_order : list string -> list string         (* list(set(l)) *)
}.

(** ** skills/*.py *)

Module RealSkills.

(** Python numbers: [float(n)] for a count [n] (exact below 2^53),
    [min] and [max] of two floats as the builtins compute them. *)
Definition float_of_nat (n : nat) : float :=
  PrimFloat.of_uint63 (Uint63.of_Z (Z.of_nat n)).
Definition fmin (a b : float) : float := if PrimFloat.ltb b a then b else a.
Definition fmax (a b : float) : float := if PrimFloat.ltb a b then b else a.

(** [sum(x in text for x in l)] *)
Definition count_present (l : list string) (text : string) : nat :=
  length (filter (fun x => Py.contains x text = true) l).

(** [any(x in text for x in l)] *)
Definition any_in (l : list string) (text : string) : bool :=
  existsb (fun x => Py.contains x text) l.

(** *** priority_detector.py *)

Definition urgent_indicators : list string :=
  ["urgent"; "asap"; "immediately"; "right now"; "today"; "within hours";
   "crucial"; "critical"; "emergency"; "deadline"; "cannot wait";
   "high priority"; "top priority"; "priority 1"; "time sensitive"].

Definition low_indicators : list string :=
  ["whenever"; "whenever convenient"; "take your time"; "optional";
   "nice to have"; "eventually"; "someday"; "not urgent"; "whenever possible"].

Definition time_sensitive_words : list string :=
  ["tomorrow"; "meeting"; "due"; "report"; "review"].

(** [priority_map.get(priority, "MEDIUM")] *)
Definition priority_map (priority : string) : string :=
  if String.eqb priority "urgent" then "HIGH"
  else if String.eqb priority "normal_urgent" then "MEDIUM"
  else if String.eqb priority "normal" then "MEDIUM"
  else if String.eqb priority "low" then "LOW"
  else "MEDIUM".

Definition detect_priority_str (content : string) : AnalyzerResult :=
  let content_lower := Py.lower content in
  let urgent_count := count_present urgent_indicators content_lower in
  let low_count := count_present low_indicators content_lower in
  let '(priority, confidence) :=
    if (low_count <? urgent_count)%nat then
      ("urgent",
       fmin (0.8 + float_of_nat urgent_count * 0.05)%float 1.0%float)
    else if (urgent_count <? low_count)%nat then
      ("low", fmin (0.6 + float_of_nat low_count * 0.05)%float 0.9%float)
    else ("normal", 0.6%float) in
  let words := Py.split_ws content in
  let time_sensitive_count :=
    length (filter (fun word => Py.lower word ∈ time_sensitive_words) words) in
  let '(priority, confidence) :=
    if (2 <? time_sensitive_count)%nat && String.eqb priority "normal"
    then ("normal_urgent", 0.7%float)
    else (priority, confidence) in
  PriorityResult
    (priority_map priority)
    confidence
    ("Found " ++ pretty urgent_count ++ " urgent indicators, " ++
     pretty low_count ++ " low priority indicators, " ++
     pretty time_sensitive_count ++ " time-sensitive terms").

Definition detect_priority_impl (content : pyval) : result AnalyzerResult :=
  match content with
  | PStr s => mret (detect_priority_str s)
  | v => raise (AttributeError v "lower")
  end.

(** *** categorizer.py *)

(** The [categories] dict, in insertion order. *)
Definition categories : list (string * list string) :=
  [("work",
    ["meeting"; "colleague"; "boss"; "company"; "project"; "client"; "deadline";
     "report"; "presentation"; "office"; "team"; "department"; "employee"; "employer";
     "schedule"; "calendar"; "work"; "business"; "corporate"; "professional";
     "performance"; "review"; "task"; "assignment"; "agenda"; "conference"]);
   ("personal",
    ["family"; "friend"; "parent"; "child"; "wife"; "husband"; "spouse"; "relative";
     "birthday"; "celebration"; "vacation"; "holiday"; "weekend"; "dinner"; "party";
     "social"; "personal"; "relationship"; "home"; "hobby"; "leisure"; "fun"]);
   ("study",
    ["lecture"; "professor"; "student"; "assignment"; "homework"; "exam"; "test";
     "course"; "class"; "school"; "university"; "college"; "education"; "learning";
     "research"; "thesis"; "paper"; "study"; "academic"; "grade"; "degree"; "campus"]);
   ("finance",
    ["money"; "payment"; "bill"; "invoice"; "bank"; "account"; "credit"; "debit";
     "budget"; "expense"; "investment"; "loan"; "tax"; "refund"; "fee"; "cost";
     "price"; "financial"; "finances"; "cash"; "salary"; "income"; "revenue"])].

(** [sum(l)] *)
Definition sum_nat (l : list nat) : nat := foldr Nat.add 0 l.

(** The [scores] dict: for each category the number of keyword
    occurrences in the lowered content. *)
Definition category_scores (content_lower : string) : list (string * nat) :=
  map (fun '(category, keywords) =>
         (category, sum_nat (map (Py.count content_lower) keywords)))
      categories.

(** [max(scores, key=scores.get)]: the first key whose score is maximal.
    [best] is the best entry so far. *)
Fixpoint max_by_score (best : string * nat) (rest : list (string * nat))
  : string * nat :=
  match rest with
  | [] => best
  | (c, n) :: rest' =>
      if (snd best <? n)%nat then max_by_score (c, n) rest'
      else max_by_score best rest'
  end.

Definition categorize_content_str (content : string) : AnalyzerResult :=
  let content_lower := Py.lower content in
  let scores := category_scores content_lower in
  let '(max_category, max_score) :=
    match scores with
    | [] => ("other", 0)   (* [categories] is not empty *)
    | first :: rest => max_by_score first rest
    end in
  let total_words := length (Py.split_ws content) in
  let confidence :=
    if (0 <? total_words)%nat then
      fmin (float_of_nat max_score
            / fmax (float_of_nat total_words * 0.1) 1.0)%float 1.0%float
    else 0.5%float in
  let '(max_category, confidence) :=
    if (max_score =? 0)%nat then ("other", 0.3%float)
    else if PrimFloat.ltb confidence 0.2%float then
      let other_score :=
        (float_of_nat (sum_nat (map snd scores)) /
         float_of_nat (length scores))%float in
      if PrimFloat.ltb (float_of_nat max_score) (other_score * 1.5)%float
      then ("other", 0.4%float)
      else (max_category, confidence)
    else (max_category, confidence) in
  let scores_str :=
    Py.join ", " (map (fun '(cat, score) => cat +:+ ": " +:+ pretty score) scores) in
  CategoryResult
    max_category
    confidence
    ("Found " ++ pretty max_score ++ " category-specific keywords. Scores: "
     ++ scores_str).

Definition categorize_content_impl (content : pyval) : result AnalyzerResult :=
  match content with
  | PStr s => mret (categorize_content_str s)
  | v => raise (AttributeError v "lower")
  end.

(** *** reply_suggester.py *)

Definition reply_message_type (content_lower : string) : string :=
  if any_in ["hi"; "hello"; "hey"; "good morning"; "good afternoon"; "good evening"]
            content_lower then "greeting"
  else if any_in ["can you"; "could you"; "please"; "need you to"; "would you"; "request"]
                 content_lower then "request"
  else if any_in ["issue"; "problem"; "error"; "bug"; "broken"; "not working"; "fix"]
                 content_lower then "problem"
  else if any_in ["urgent"; "asap"; "immediately"; "now"] content_lower then "urgent"
  else if any_in ["question"; "ask"; "wonder"; "?"] content_lower then "question"
  else if any_in ["meeting"; "appointment"; "schedule"; "when"; "time"] content_lower
       then "meeting"
  else if any_in ["thank"; "thanks"; "appreciate"] content_lower then "appreciation"
  else if any_in ["congrat"; "well done"; "great job"] content_lower then "compliment"
  else "general".

Definition reply_suggestions (message_type : string) : list string :=
  if String.eqb message_type "greeting" then
    ["Hello! How can I help you today?";
     "Hi! Thanks for reaching out. What can I assist you with?";
     "Hey! Good to hear from you. What do you need?"]
  else if String.eqb message_type "problem" then
    ["I understand you're experiencing an issue. Let me look into this and help you resolve it.";
     "Thanks for reporting this problem. I'll investigate and get back to you with a solution.";
     "I see there's an issue. Can you provide more details so I can help fix it?"]
  else if String.eqb message_type "request" then
    ["I'd be happy to help with that. Let me take care of it for you.";
     "Sure, I can assist with this request. I'll get started right away.";
     "Absolutely, I'll handle this for you. Give me a moment to process it."]
  else if String.eqb message_type "urgent" then
    ["I acknowledge receipt of your urgent message. I will prioritize addressing this and get back to you shortly.";
     "Understood. I'm looking into this matter right away and will provide an update within the next hour.";
     "I've received your urgent request and am treating it with the highest priority."]
  else if String.eqb message_type "question" then
    ["Thank you for your question. Let me look into this and get back to you with a detailed response.";
     "I understand you have a question. I'll review the details and provide an answer soon.";
     "Thanks for reaching out with this question. I need to gather some information before responding."]
  else if String.eqb message_type "meeting" then
    ["I've noted the meeting request. I'll check my calendar and confirm my availability.";
     "Thank you for the meeting invitation. I'll review my schedule and respond shortly.";
     "I acknowledge the meeting request. I'll confirm my attendance once I've checked my availability."]
  else if String.eqb message_type "appreciation" then
    ["Thank you for your kind words. I appreciate the recognition.";
     "I'm grateful for your appreciation. Thank you for taking the time to share this feedback.";
     "Your appreciation means a lot. Thank you for the positive feedback."]
  else if String.eqb message_type "compliment" then
    ["Thank you for the compliment. I appreciate the recognition.";
     "I'm honored by your kind words. Thank you for taking the time to acknowledge this.";
     "Your feedback is much appreciated. Thank you for the encouraging words."]
  else
    ["Thank you for your message. I have received it and will respond shortly.";
     "I acknowledge receipt of your message. I'm reviewing the details and will get back to you soon.";
     "Thank you for sharing this information. I'll process it and provide a response.";
     "I've received your message and understand the request. I'll address this as soon as possible.";
     "Thanks for the update. I'm reviewing the information and will follow up shortly."].

Definition suggest_reply_str (content : string) (sender : pyval) : AnalyzerResult :=
  let content_lower := Py.lower content in
  let message_type := reply_message_type content_lower in
  let suggestions := reply_suggestions message_type in
  ReplyResult message_type (take 3 suggestions) sender suggestions.

Definition suggest_reply_impl (content sender : pyval) : result AnalyzerResult :=
  match content with
  | PStr s => mret (suggest_reply_str s sender)
  | v => raise (AttributeError v "lower")
  end.

(** *** summarizer.py, task_extractor.py: these use [re] and [set] *)

Section WithTextLib.
Context {TL : TextLib}.

(** The first loop of [generate_summary]: the stripped non-empty lines
    that are long or start like a bullet or a header, and the key points. *)
Definition summary_important (line : string) : bool :=
  (* the third prefix is the source's, byte for byte; no ASCII line has it *)
  (50 <? String.length line)%nat
  || existsb (Py.startswith line) ["-"; "*"; "â€¢"; "#"].

Definition summary_loop (lines : list string) : list string * list string :=
  foldl (fun '(key_points, summary_lines) line =>
           let line := Py.strip line in
           if String.eqb line "" then (key_points, summary_lines)
           else
             let summary_lines :=
               if summary_important line then summary_lines ++ [line]
               else summary_lines in
             let key_points :=
               if any_in ["important"; "urgent"; "key"; "critical"; "main"]
                         (Py.lower line)
               then key_points ++ ["- " +:+ line]
               else key_points in
             (key_points, summary_lines))
        ([], []) lines.

(** [sorted(l, key=len, reverse=True)]: stable, longest first. *)
Fixpoint insert_by_len (x : string) (l : list string) : list string :=
  match l with
  | [] => [x]
  | y :: l' =>
      if (String.length x <? String.length y)%nat
      then y :: insert_by_len x l'
      else x :: l
  end.
Definition sorted_by_len_desc (l : list string) : list string :=
  foldr insert_by_len [] l.

Definition common_words : list string :=
  ["the"; "a"; "an"; "and"; "or"; "but"; "in"; "on"; "at"; "to"; "for";
   "of"; "with"; "by"].

Definition generate_summary_str (content : string) : AnalyzerResult :=
  let lines := Py.split content Py.LF in
  let '(key_points, summary_lines) := summary_loop lines in
  let key_points :=
    match key_points with
    | [] => map (fun line => "- " +:+ line)
                (take (Nat.min 3 (length summary_lines))
                      (sorted_by_len_desc summary_lines))
    | _ => key_points
    end in
  let summary_text :=
    match summary_lines with
    | [] =>
        let words := Py.split_ws content in
        Py.join " " (take (Nat.min 50 (length words)) words)
        +:+ (if (50 <? length words)%nat then "..." else "")
    | _ => Py.join " " (take (Nat.min 3 (length summary_lines)) summary_lines)
    end in
  let words := Py.split_ws (Py.lower content) in
  let keywords :=
    take 5 (filter (fun w => (4 < String.length w)%nat ∧ w ∉ common_words)
                   (set_order words)) in
  SummaryResult summary_text
                (map (fun kp => Py.replace kp "- " "") key_points)
                keywords.

(** [summarize_content] only forwards to [generate_summary]. *)
Definition summarize_content_impl (content : pyval) : result AnalyzerResult :=
  match content with
  | PStr s => mret (generate_summary_str s)
  | v => raise (AttributeError v "split")
  end.

(** *** task_extractor.py *)

Definition task_patterns : list string :=
  ["\b(please|need to|must|have to|should|could)\s+(do|complete|finish|send|review|check|prepare|submit|attend)\b";
   "\b(to do|todo|to-do|action item|next step|task|assignment)\b";
   "\b(by\s+\w+\s+\d{1,2}(?:st|nd|rd|th)?|before|after|when|tomorrow|today|later|ASAP|urgent)\b";
   "(call|email|contact|reach out|respond|reply|follow up|remind|inform|notify)";
   "(buy|purchase|order|get|obtain|arrange|schedule|book|setup|configure|install|update|change)"].

Definition task_indicators : list string :=
  ["action"; "todo"; "task"; "complete"; "finish"; "do"; "perform"; "execute";
   "attend"; "review"; "read"; "watch"; "learn"; "study"; "practice";
   "buy"; "get"; "purchase"; "order"; "request"; "apply"; "register";
   "make"; "create"; "draft"; "write"; "edit"; "proofread"; "submit";
   "organize"; "arrange"; "prepare"; "plan"; "think about"; "decide"].

(** The loop over the lines of the content. *)
Definition task_lines (lines : list string) : list string :=
  foldl (fun potential_tasks line =>
           let line_clean := Py.strip line in
           if negb (String.eqb line_clean "")
              && negb (Py.startswith line_clean "#") then
             let matches_pattern :=
               existsb (fun pattern => re_search pattern line_clean) task_patterns in
             let has_indicator := any_in task_indicators (Py.lower line_clean) in
             let has_deadline :=
               re_search "(by|before|until|due|tomorrow|today|tonight|week|month|ASAP)"
                         line_clean in
             if matches_pattern || has_indicator || has_deadline then
               let cleaned_line := re_sub "^[-*•]\s*" "" line_clean in
               let cleaned_line := re_sub "^\d+\.\s*" "" cleaned_line in
               potential_tasks ++ [cleaned_line]
             else potential_tasks
           else potential_tasks)
        [] lines.

(** The loop over the sentences of the content. *)
Definition task_sentences (potential_tasks sentences : list string) : list string :=
  foldl (fun potential_tasks sentence =>
           let sentence := Py.strip sentence in
           if (10 <? String.length sentence)%nat then
             let has_indicator := any_in task_indicators (Py.lower sentence) in
             let has_deadline := re_search "(by|before|tomorrow|today|due)" sentence in
             if has_indicator && has_deadline then
               let cleaned_sentence := re_sub "^[-*•]\s*" "" sentence in
               if bool_decide (cleaned_sentence ∈ potential_tasks)
               then potential_tasks
               else potential_tasks ++ [cleaned_sentence]
             else potential_tasks
           else potential_tasks)
        potential_tasks sentences.

(** One entry of [structured_tasks]. *)
Definition structure_task (i : nat) (task : string) : Task :=
  let task_lower := Py.lower task in
  let priority :=
    if any_in ["urgent"; "asap"; "immediately"; "critical"] task_lower then "urgent"
    else if any_in ["important"; "priority"; "must"] task_lower then "high"
    else "normal" in
  TaskDesc {| td_title := Py.slice_to 100 task;
              td_description := task;
              td_priority := priority;
              td_index := i |}.

Definition extract_tasks_str (content : string) : AnalyzerResult :=
  let lines := Py.split content Py.LF in
  let potential_tasks := task_lines lines in
  let sentences := re_split "[.!?]+" content in
  let potential_tasks := task_sentences potential_tasks sentences in
  let structured_tasks := imap structure_task potential_tasks in
  TasksResult structured_tasks (length structured_tasks) potential_tasks.

Definition extract_tasks_impl (content : pyval) : result AnalyzerResult :=
  match content with
  | PStr s => mret (extract_tasks_str s)
  | v => raise (AttributeError v "split")
  end.

(** The analyzers of the repository as the analyzer set. *)
Definition real_skills : Skills := {|
  summarize_content := summarize_content_impl;
  detect_priority := detect_priority_impl;
  categorize_content := categorize_content_impl;
  suggest_reply := suggest_reply_impl;
  extract_tasks := extract_tasks_impl
|}.

End WithTextLib.

End RealSkills.

(** ** agent/tools.py *)

Module Tools.

(** Calling a function with [arguments] as its keyword arguments.
    [params] are the parameters of the function, each with its default
    ([None] for a required one). *)
Definition has_param (params : list (string * option pyval)) (k : string) : bool :=
  existsb (fun p => String.eqb (fst p) k) params.

Fixpoint dict_get (d : list (string * pyval)) (k : string) : option pyval :=
  match d with
  | [] => None
  | (k', v) :: d' => if String.eqb k' k then Some v else dict_get d' k
  end.

Fixpoint bind_params (fname : string) (params : list (string * option pyval))
         (d : list (string * pyval)) : result (list pyval) :=
  match params with
  | [] => mret []
  | (name, dflt) :: params' =>
      v ← match dict_get d name, dflt with
          | Some v, _ => mret v
          | None, Some v => mret v
          | None, None =>
              raise (TypeError (fname +:+ "() missing 1 required positional argument: '"
                                +:+ name +:+ "'"))
          end;
      vs ← bind_params fname params' d;
      mret (v :: vs)
  end.

(** The values bound to the parameters, in order. CPython raises
    [TypeError] when [arguments] is not a mapping, when it names a parameter
    the function does not have, and when it leaves a required one out (the
    wording is CPython's, which names the function with its module,
    [agent.tools], in the first of the three; the proofs rely on its not
    being empty only). *)
Definition call_kwargs (fname : string) (params : list (string * option pyval))
           (arguments : pyval) : result (list pyval) :=
  match arguments with
  | PDict d =>
      match filter (fun kv => has_param params (fst kv) = false) d with
      | (k, _) :: _ =>
          raise (TypeError (fname +:+ "() got an unexpected keyword argument '"
                            +:+ k +:+ "'"))
      | [] => bind_params fname params d
      end
  | v => raise (TypeError ("agent.tools." +:+ fname
                           +:+ "() argument after ** must be a mapping, not "
                           +:+ py_type_name v))
  end.

(** A property of a tool's parameter schema: name, type, description. *)
Record ToolProperty : Type := {
  prop_name : string;
  prop_type : string;
  prop_description : string
}.

(** An entry of the [TOOLS] registry. *)
Record ToolSpec : Type := {
  tool_function : pyval -> result AnalyzerResult;
  tool_description : string;
  tool_properties : list ToolProperty;
  tool_required : list string
}.

(** An OpenAI-compatible tool definition. *)
Record ToolDefinition : Type := {
  def_name : string;
  def_description : string;
  def_properties : list ToolProperty;
  def_required : list string
}.

Section WithSkills.
Context {SK : Skills}.

(** The five wrappers, each applied to the keyword arguments. *)
Definition summarizer_tool (arguments : pyval) : result AnalyzerResult :=
  args ← call_kwargs "summarizer_tool" [("content", None)] arguments;
  match args with
  | [content] => summarize_content content
  | _ => raise (TypeError "summarizer_tool()")
  end.

Definition reply_suggester_tool (arguments : pyval) : result AnalyzerResult :=
  args ← call_kwargs "reply_suggester_tool"
                     [("content", None); ("sender", Some PNone)] arguments;
  match args with
  | [content; sender] => suggest_reply content sender
  | _ => raise (TypeError "reply_suggester_tool()")
  end.

Definition task_extractor_tool (arguments : pyval) : result AnalyzerResult :=
  args ← call_kwargs "task_extractor_tool" [("content", None)] arguments;
  match args with
  | [content] => extract_tasks content
  | _ => raise (TypeError "task_extractor_tool()")
  end.

Definition priority_detector_tool (arguments : pyval) : result AnalyzerResult :=
  args ← call_kwargs "priority_detector_tool" [("content", None)] arguments;
  match args with
  | [content] => detect_priority content
  | _ => raise (TypeError "priority_detector_tool()")
  end.

Definition categorizer_tool (arguments : pyval) : result AnalyzerResult :=
  args ← call_kwargs "categorizer_tool" [("content", None)] arguments;
  match args with
  | [content] => categorize_content content
  | _ => raise (TypeError "categorizer_tool()")
  end.

Definition content_property (description : string) : ToolProperty :=
  {| prop_name := "content"; prop_type := "string"; prop_description := description |}.

(** The registry, in the order of the source. *)
Definition TOOLS : list (string * ToolSpec) :=
  [("summarizer",
    {| tool_function := summarizer_tool;
       tool_description := "Summarize message content into key points";
       tool_properties := [content_property "The message text to summarize"];
       tool_required := ["content"] |});
   ("reply_suggester",
    {| tool_function := reply_suggester_tool;
       tool_description := "Suggest appropriate replies to the message";
       tool_properties :=
         [content_property "The message text";
          {| prop_name := "sender"; prop_type := "string";
             prop_description := "Optional sender name" |}];
       tool_required := ["content"] |});
   ("task_extractor",
    {| tool_function := task_extractor_tool;
       tool_description := "Extract actionable tasks from the message";
       tool_properties := [content_property "The message text"];
       tool_required := ["content"] |});
   ("priority_detector",
    {| tool_function := priority_detector_tool;
       tool_description := "Detect the priority level (HIGH/MEDIUM/LOW) of the message";
       tool_properties := [content_property "The message text"];
       tool_required := ["content"] |});
   ("categorizer",
    {| tool_function := categorizer_tool;
       tool_description := "Categorize the message type (work/personal/study/finance/other)";
       tool_properties := [content_property "The message text"];
       tool_required := ["content"] |})].

(** [TOOLS[tool_name]], [None] when [tool_name not in TOOLS]. *)
Fixpoint registry_get (tools : list (string * ToolSpec)) (tool_name : string)
  : option ToolSpec :=
  match tools with
  | [] => None
  | (name, spec) :: tools' =>
      if String.eqb name tool_name then Some spec else registry_get tools' tool_name
  end.

Definition get_tool_definitions : list ToolDefinition :=
  foldl (fun tools '(name, spec) =>
           tools ++ [{| def_name := name;
                        def_description := tool_description spec;
                        def_properties := tool_properties spec;
                        def_required := tool_required spec |}])
        [] TOOLS.

(** [execute_tool(tool_name, arguments)] *)
Definition execute_tool (tool_name : string) (arguments : pyval) : AnalyzerResult :=
  match registry_get TOOLS tool_name with
  | None => ErrorResult ("Unknown tool: " +:+ tool_name)
  | Some spec =>
      try_except
        (let tool_func := tool_function spec in
         result ← tool_func arguments;
         mret result)
        (fun e => ErrorResult (exn_msg e))
  end.

End WithSkills.

End Tools.

(** ** The analysis record and its actions *)

(** An action: the dict [{"type", "description", "data"}], whose [data] has
    the keys [reply], [recipient] for type [send_reply] and [task],
    [priority] for type [create_task]. *)
Inductive Action : Type :=
| SendReply (description : string) (reply recipient : string)
| CreateTask (description : string) (task : Task) (priority : string).

(** [action['type']], [action['description']] *)
Definition a_type (a : Action) : string :=
  match a with
  | SendReply _ _ _ => "send_reply"
  | CreateTask _ _ _ => "create_task"
  end.
Definition a_description (a : Action) : string :=
  match a with
  | SendReply d _ _ => d
  | CreateTask d _ _ => d
  end.

(** The result dict of an analysis. [ar_analysis = None] stands both for a
    [None] value and for the missing key of the direct path (every reader
    uses [result.get('analysis')]). *)
Record AnalysisRecord : Type := {
  ar_message : string;
  ar_sender : string;
  ar_analysis : option string;
  ar_summary : option string;
  ar_priority : string;
  ar_category : string;
  ar_suggested_reply : option string;
  ar_tasks : list Task;
  ar_actions : list Action
}.

(** [output["actions"] = actions] *)
Definition set_actions (output : AnalysisRecord) (actions : list Action) : AnalysisRecord :=
  {| ar_message := ar_message output;
     ar_sender := ar_sender output;
     ar_analysis := ar_analysis output;
     ar_summary := ar_summary output;
     ar_priority := ar_priority output;
     ar_category := ar_category output;
     ar_suggested_reply := ar_suggested_reply output;
     ar_tasks := ar_tasks output;
     ar_actions := actions |}.

(** What [analyze_message] returns: the record, or the error payload
    [{"error", "message", "sender"}]. *)
Inductive AnalysisOutcome : Type :=
| Analysed (r : AnalysisRecord)
| AnalysisError (error : string) (message : string) (sender : option string).

(** Truth values of a [str] and of an optional [str]. *)
Definition str_truthy (s : string) : bool := negb (String.eqb s "").
Definition opt_truthy (o : option string) : bool :=
  match o with
  | Some s => str_truthy s
  | None => false
  end.

(** [repr(s)] of a [str]: single quotes unless the text has a single quote
    and no double quote; backslash, the quote and control characters escaped. *)
Module Repr.

Definition hex_digit (n : nat) : ascii :=
  ascii_of_nat (if (n <? 10)%nat then 48 + n else 87 + n).

Definition dquote : ascii := ascii_of_nat 34.
Definition squote : ascii := ascii_of_nat 39.
Definition backslash : ascii := ascii_of_nat 92.

Definition has_char (c : ascii) (s : string) : bool :=
  existsb (Ascii.eqb c) (list_ascii_of_string s).

Definition escape_char (quote : ascii) (c : ascii) : string :=
  let n := nat_of_ascii c in
  if Ascii.eqb c quote || Ascii.eqb c backslash then String backslash (String c "")
  else if (n =? 9)%nat then String backslash "t"
  else if (n =? 10)%nat then String backslash "n"
  else if (n =? 13)%nat then String backslash "r"
  else if (n <? 32)%nat || (n =? 127)%nat then
    String backslash (String "x" (String (hex_digit (n / 16))
                                         (String (hex_digit (n mod 16)) "")))
  else String c "".

Fixpoint escape (quote : ascii) (s : string) : string :=
  match s with
  | EmptyString => EmptyString
  | String c s' => escape_char quote c +:+ escape quote s'
  end.

Definition repr (s : string) : string :=
  let quote := if has_char squote s && negb (has_char dquote s)
               then dquote else squote in
  String quote (escape quote s +:+ String quote "").

End Repr.

(** [str(task)], as an f-string formats a task. *)
Definition str_of_task (task : Task) : string :=
  match task with
  | TaskText s => s
  | TaskDesc d =>
      "{'title': " +:+ Repr.repr (td_title d) +:+
      ", 'description': " +:+ Repr.repr (td_description d) +:+
      ", 'priority': " +:+ Repr.repr (td_priority d) +:+
      ", 'index': " +:+ pretty (td_index d) +:+ "}"
  end.

(** ** agent/brain.py *)

(** The chat-completion boundary. *)
Record ToolCall : Type := {
  tc_id : string;
  tc_name : string;          (* tool_call.function.name *)
  tc_arguments : string      (* tool_call.function.arguments, JSON text *)
}.

(** [response.choices[i].message] *)
Record ChatCompletionMessage : Type := {
  cm_content : option string;
  cm_tool_calls : option (list ToolCall)
}.

Record ChatCompletion : Type := { choices : list ChatCompletionMessage }.

(** The entries of the conversation transcript. *)
Inductive ChatMessage : Type :=
| MsgSystem (content : string)
| MsgUser (content : string)
| MsgAssistant (tool_calls : list ToolCall)       (* content None *)
| MsgTool (tool_call_id : string) (content : string).

Record ChatRequest : Type := {
  req_model : string;
  req_messages : list ChatMessage;
  req_tools : option (list Tools.ToolDefinition);
  req_tool_choice : option string;
  req_temperature : float;
  req_max_tokens : nat
}.

(** The OpenAI client and the model name it was configured with. *)
Class ChatClient : Type := {
  client_model : string;
  chat_completions_create : ChatRequest -> result ChatCompletion
}.

(** The [json] module, as far as the agent uses it. *)
Class JsonLib : Type := {
  json_loads : string -> result pyval;
  json_dumps : AnalyzerResult -> string
}.

Module Agent.

Definition AGENT_TEMPERATURE : float := 0.7%float.
Definition AGENT_MAX_TOKENS : nat := 2000.

(** agent/prompts.py *)
Definition SYSTEM_PROMPT : string :=
"You are a Personal AI Employee (FTE Agent) that helps analyze messages and suggest actions.

Your role:
1. Analyze incoming messages thoroughly
2. Use available tools to extract information
3. Provide clear, actionable insights
4. Suggest appropriate responses and actions

Available tools:
- summarizer: Create concise summaries of messages
- reply_suggester: Suggest appropriate replies
- task_extractor: Extract actionable tasks
- priority_detector: Determine message priority
- categorizer: Categorize message type

Always:
- Be concise and clear
- Focus on actionable insights
- Prioritize user's time and attention
- Suggest only relevant actions

Output format:
Provide a structured analysis with:
- Summary of the message
- Priority level (HIGH/MEDIUM/LOW)
- Category (work/personal/study/finance/other)
- Suggested reply (if appropriate)
- Extracted tasks (if any)
- Recommended actions
".

(** [ANALYSIS_PROMPT.format(message=message)] *)
Definition ANALYSIS_PROMPT_format (message : string) : string :=
"Analyze this message and provide a comprehensive assessment:

Message:
" +:+ message +:+ "

Use the available tools to:
1. Summarize the key points
2. Detect the priority level
3. Categorize the message
4. Suggest an appropriate reply
5. Extract any actionable tasks

Provide a structured response that helps the user quickly understand and act on this message.
".

(** [_determine_actions(analysis)] *)
Definition _determine_actions (analysis : AnalysisRecord) : list Action :=
  let actions := [] in
  let actions :=
    match ar_suggested_reply analysis with
    | Some reply =>
        if str_truthy reply
        then actions ++ [SendReply "Send suggested reply" reply (ar_sender analysis)]
        else actions
    | None => actions
    end in
  let actions :=
    match ar_tasks analysis with
    | [] => actions
    | tasks =>
        foldl (fun actions task =>
                 actions ++ [CreateTask ("Create task: " +:+ str_of_task task)
                                        task (ar_priority analysis)])
              actions tasks
    end in
  actions.

(** [_structure_output(message, sender, tool_results, synthesis)] *)
Definition _structure_output (message : string) (sender : option string)
           (tool_results : gmap string AnalyzerResult) (synthesis : option string)
  : AnalysisRecord :=
  let summary :=
    match tool_results !! "summarizer" with
    | Some summary_data => Some (default "" (get_summary summary_data))
    | None => None
    end in
  let priority :=
    match tool_results !! "priority_detector" with
    | Some priority_data => default "MEDIUM" (get_priority priority_data)
    | None => "MEDIUM"
    end in
  let category :=
    match tool_results !! "categorizer" with
    | Some category_data => default "other" (get_category category_data)
    | None => "other"
    end in
  let suggested_reply :=
    match tool_results !! "reply_suggester" with
    | Some reply_data =>
        match default [] (get_suggestions reply_data) with
        | first :: _ => Some first
        | [] => None
        end
    | None => None
    end in
  let tasks :=
    match tool_results !! "task_extractor" with
    | Some task_data => default [] (get_tasks task_data)
    | None => []
    end in
  let output :=
    {| ar_message := message;
       ar_sender := match sender with          (* sender or "Unknown" *)
                    | Some s => if str_truthy s then s else "Unknown"
                    | None => "Unknown"
                    end;
       ar_analysis := synthesis;
       ar_summary := summary;
       ar_priority := priority;
       ar_category := category;
       ar_suggested_reply := suggested_reply;
       ar_tasks := tasks;
       ar_actions := [] |} in
  set_actions output (_determine_actions output).

Section WithAgent.
Context {SK : Skills} {CL : ChatClient} {JS : JsonLib}.

(** [response.choices[0].message] *)
Definition first_choice (response : ChatCompletion) : result ChatCompletionMessage :=
  match choices response with
  | m :: _ => mret m
  | [] => raise (Exn "IndexError" "list index out of range")
  end.

(** The loop over [message_obj.tool_calls]: the state is the
    [tool_results] dict and the transcript [messages]. *)
Fixpoint tool_call_loop (tool_calls : list ToolCall)
         (tool_results : gmap string AnalyzerResult) (messages : list ChatMessage)
  : result (gmap string AnalyzerResult * list ChatMessage) :=
  match tool_calls with
  | [] => mret (tool_results, messages)
  | tool_call :: rest =>
      let tool_name := tc_name tool_call in
      tool_args ← json_loads (tc_arguments tool_call);
      let result := Tools.execute_tool tool_name tool_args in
      let tool_results := <[tool_name := result]> tool_results in
      let messages := messages ++ [MsgAssistant [tool_call]] in
      let messages := messages ++ [MsgTool (tc_id tool_call) (json_dumps result)] in
      tool_call_loop rest tool_results messages
  end.

(** The two requests: the planning call, with the tool catalogue, and the
    synthesis call, without. *)
Definition planning_request (messages : list ChatMessage) : ChatRequest :=
  {| req_model := client_model;
     req_messages := messages;
     req_tools := Some Tools.get_tool_definitions;
     req_tool_choice := Some "auto";
     req_temperature := AGENT_TEMPERATURE;
     req_max_tokens := AGENT_MAX_TOKENS |}.

Definition synthesis_request (messages : list ChatMessage) : ChatRequest :=
  {| req_model := client_model;
     req_messages := messages;
     req_tools := None;
     req_tool_choice := None;
     req_temperature := AGENT_TEMPERATURE;
     req_max_tokens := AGENT_MAX_TOKENS |}.

(** The transcript the planning call is made with. *)
Definition initial_messages (message : string) : list ChatMessage :=
  let user_prompt := ANALYSIS_PROMPT_format message in
  [MsgSystem SYSTEM_PROMPT; MsgUser user_prompt].

(** The body of the [try] block of [analyze_message]. *)
Definition analyze_message_body (message : string) (sender : option string)
  : result AnalysisRecord :=
  let messages := initial_messages message in
  response ← chat_completions_create (planning_request messages);
  message_obj ← first_choice response;
  match cm_tool_calls message_obj with
  | Some ((_ :: _) as tool_calls) =>
      '(tool_results, messages) ← tool_call_loop tool_calls ∅ messages;
      final_response ← chat_completions_create (synthesis_request messages);
      final_message ← first_choice final_response;
      let synthesis := cm_content final_message in
      mret (_structure_output message sender tool_results synthesis)
  | _ =>
      let synthesis := cm_content message_obj in
      mret (_structure_output message sender ∅ synthesis)
  end.

(** [analyze_message(message, sender)] *)
Definition analyze_message (message : string) (sender : option string)
  : AnalysisOutcome :=
  try_except
    (r ← analyze_message_body message sender; mret (Analysed r))
    (fun e => AnalysisError (exn_msg e) message sender).

End WithAgent.

End Agent.

(** ** main.py: the world the orchestrator acts on *)

(** The [datetime] module, as far as the orchestrator uses it. *)
Class DateTimeLib : Type := {
  DateTime : Type;
  strftime : DateTime -> string -> string;
  isoformat : DateTime -> string
}.

(** The audit log entry, the dict that [json.dump] writes. *)
Record LogAction : Type := { la_type : string; la_description : string }.

Record LogEntry : Type := {
  log_timestamp : string;
  log_sender : option string;
  log_priority : option string;
  log_category : option string;
  log_actions_executed : nat;
  log_actions : list LogAction
}.

Inductive FileContent : Type :=
| TextFile (text : string)
| JsonFile (entry : LogEntry).

(** What the orchestrator does to its environment, in order. *)
Inductive Event : Type :=
| EvPrompt (prompt : string)                       (* input(prompt) *)
| EvWrite (path : string) (content : FileContent)  (* open(path, 'w') and write *)
| EvWriteFailed (path : string)                    (* the same, raising *)
| EvRename (src dst : string)
| EvRenameFailed (src dst : string).

(** The environment: the lines still to come on standard input, the clock
    (the value of the k-th call of [datetime.now()]), the file system (what
    reading a path gives, and whether the k-th write or rename fails), and
    the trace of events so far. *)
Record World {DT : DateTimeLib} : Type := {
  w_stdin : list string;
  w_clock : nat -> DateTime;
  w_ticks : nat;
  w_read : string -> result string;
  w_fault : nat -> option exn;
  w_ops : nat;
  w_trace : list Event
}.

(** A computation on the world that may raise; the world keeps the effects
    that happened before the exception. *)
Definition IO {DT : DateTimeLib} (A : Type) : Type := World -> result A * World.

#[global] Instance io_ret {DT : DateTimeLib} : MRet IO := fun A a w => (inr a, w).
#[global] Instance io_bind {DT : DateTimeLib} : MBind IO := fun A B k m w =>
  match m w with
  | (inl e, w') => (inl e, w')
  | (inr a, w') => k a w'
  end.

Module IOPrim.
Section WithDateTime.
Context {DT : DateTimeLib}.

(** A pure computation that may raise, run in the world. *)
Definition lift {A} (m : result A) : IO A := fun w => (m, w).

(** [try: body except Exception as e: handler(e)] *)
Definition try_io {A} (body : IO A) (handler : exn -> IO A) : IO A := fun w =>
  match body w with
  | (inl e, w') => handler e w'
  | (inr a, w') => (inr a, w')
  end.

Definition log_event (ev : Event) (w : World) : World :=
  {| w_stdin := w_stdin w; w_clock := w_clock w; w_ticks := w_ticks w;
     w_read := w_read w; w_fault := w_fault w; w_ops := w_ops w;
     w_trace := w_trace w ++ [ev] |}.

(** [datetime.now()] *)
Definition now : IO DateTime := fun w =>
  (inr (w_clock w (w_ticks w)),
   {| w_stdin := w_stdin w; w_clock := w_clock w; w_ticks := S (w_ticks w);
      w_read := w_read w; w_fault := w_fault w; w_ops := w_ops w;
      w_trace := w_trace w |}).

(** [input(prompt)]: [EOFError] when standard input is exhausted. *)
Definition input (prompt : string) : IO string := fun w =>
  let w := log_event (EvPrompt prompt) w in
  match w_stdin w with
  | [] => (inl (Exn "EOFError" "EOF when reading a line"), w)
  | line :: rest =>
      (inr line,
       {| w_stdin := rest; w_clock := w_clock w; w_ticks := w_ticks w;
          w_read := w_read w; w_fault := w_fault w; w_ops := w_ops w;
          w_trace := w_trace w |})
  end.

(** One more file-system operation has been attempted. *)
Definition next_op (w : World) : World :=
  {| w_stdin := w_stdin w; w_clock := w_clock w; w_ticks := w_ticks w;
     w_read := w_read w; w_fault := w_fault w; w_ops := S (w_ops w);
     w_trace := w_trace w |}.

(** [with open(path, 'w') as f: f.write(content)] (or [json.dump]) *)
Definition write_file (path : string) (content : FileContent) : IO unit := fun w =>
  match w_fault w (w_ops w) with
  | Some e => (inl e, log_event (EvWriteFailed path) (next_op w))
  | None => (inr tt, log_event (EvWrite path content) (next_op w))
  end.

(** [src.rename(dst)] *)
Definition rename (src dst : string) : IO unit := fun w =>
  match w_fault w (w_ops w) with
  | Some e => (inl e, log_event (EvRenameFailed src dst) (next_op w))
  | None => (inr tt, log_event (EvRename src dst) (next_op w))
  end.

(** [with open(path, 'r') as f: f.read()] *)
Definition read_file (path : string) : IO string := fun w => (w_read w path, w).

End WithDateTime.
End IOPrim.

(** ** main.py: FTEOrchestrator *)

Module Main.
Import IOPrim.

(** config/settings.py: the vault directories, relative to [BASE_DIR]. *)
Definition VAULT_PROCESSED : string := "vault/processed".
Definition VAULT_ACTIONS : string := "vault/actions".
Definition VAULT_LOGS : string := "vault/logs".

(** [directory / name] *)
Definition path_join (directory name : string) : string := directory +:+ "/" +:+ name.

(** [Path(p).name]: the last component. *)
Definition path_name (p : string) : string := default p (last (Py.split p "/")).

(** [result.get(key)] on what an analysis returns. *)
Definition outcome_actions (result : AnalysisOutcome) : option (list Action) :=
  match result with
  | Analysed r => Some (ar_actions r)
  | AnalysisError _ _ _ => None
  end.
Definition outcome_sender (result : AnalysisOutcome) : option string :=
  match result with
  | Analysed r => Some (ar_sender r)
  | AnalysisError _ _ sender => sender
  end.
(** [result.get('sender', 'Unknown')] inside an f-string: the key is always
    there, and a [None] value prints as [None]. *)
Definition outcome_sender_text (result : AnalysisOutcome) : string :=
  default "None" (outcome_sender result).
Definition outcome_priority (result : AnalysisOutcome) : option string :=
  match result with
  | Analysed r => Some (ar_priority r)
  | AnalysisError _ _ _ => None
  end.
Definition outcome_category (result : AnalysisOutcome) : option string :=
  match result with
  | Analysed r => Some (ar_category r)
  | AnalysisError _ _ _ => None
  end.

(** [task if isinstance(task, str) else task.get('title', str(task))]; a
    descriptor always has its title. *)
Definition task_title (task : Task) : string :=
  match task with
  | TaskText s => s
  | TaskDesc d => td_title d
  end.

(** [extract_sender(filename, content)] *)
Definition extract_sender (filename content : string) : string :=
  if Py.contains "_from_" filename then
    match Py.split filename "_from_" with
    | _ :: second :: _ =>
        Py.title (Py.replace (Py.replace second ".txt" "") "_" " ")
    | _ => "Unknown"   (* not reached: the separator occurs *)
    end
  else
    let lines := Py.split content Py.LF in
    match filter (fun line => Py.startswith (Py.lower line) "from:") (take 5 lines) with
    | line :: _ =>
        match Py.split1 line ":" with
        | [_; rest] => Py.strip rest
        | _ => "Unknown"   (* not reached: the line has a colon *)
        end
    | [] => "Unknown"
    end.

(** The answers the gate takes for a yes. *)
Definition approves (response : string) : bool :=
  bool_decide (response ∈ ["y"; "yes"; ""]).

Definition approval_prompt : string := Py.LF +:+ "  Approve this action? [Y/n]: ".

Section WithOrchestrator.
Context {SK : Skills} {DT : DateTimeLib}.

(** [analyze_with_skills(message, sender)] *)
Definition analyze_with_skills (message : string) (sender : string)
  : result AnalysisRecord :=
  summary_result ← summarize_content (PStr message);
  priority_result ← detect_priority (PStr message);
  category_result ← categorize_content (PStr message);
  reply_result ← suggest_reply (PStr message) (PStr sender);
  tasks_result ← extract_tasks (PStr message);
  let result :=
    {| ar_sender := sender;
       ar_message := message;
       ar_analysis := None;
       ar_summary := Some (default "" (get_summary summary_result));
       ar_priority := default "MEDIUM" (get_priority priority_result);
       ar_category := default "other" (get_category category_result);
       ar_suggested_reply :=
         match get_suggestions reply_result with
         | Some (first :: _) => Some first
         | _ => None
         end;
       ar_tasks := default [] (get_tasks tasks_result);
       ar_actions := [] |} in
  let actions := ar_actions result in
  let actions :=
    match ar_suggested_reply result with
    | Some reply =>
        if str_truthy reply
        then actions ++ [SendReply "Send suggested reply" reply sender]
        else actions
    | None => actions
    end in
  let actions :=
    foldl (fun actions task =>
             let task_title := task_title task in
             actions ++ [CreateTask ("Create task: " +:+ task_title)
                                    (TaskText task_title) (ar_priority result)])
          actions (ar_tasks result) in
  mret (set_actions result actions).

(** The loop of [approval_flow]. *)
Fixpoint approval_loop (actions : list Action) (approved : list Action)
  : IO (list Action) :=
  match actions with
  | [] => mret approved
  | action :: rest =>
      line ← input approval_prompt;
      let response := Py.lower (Py.strip line) in
      let approved := if approves response then approved ++ [action] else approved in
      approval_loop rest approved
  end.

(** [approval_flow(result)] *)
Definition approval_flow (result : AnalysisOutcome) : IO (list Action) :=
  let actions := default [] (outcome_actions result) in
  match actions with
  | [] => mret []
  | _ => approval_loop actions []
  end.

(** [execute_send_reply(action, result)]; the arguments are the [data] of
    a [send_reply] action. *)
Definition execute_send_reply (reply recipient : string) (result : AnalysisOutcome)
  : IO unit :=
  t ← now;
  let timestamp := strftime t "%Y%m%d_%H%M%S" in
  let filename := "reply_draft_" +:+ timestamp +:+ ".txt" in
  let output_path := path_join VAULT_ACTIONS filename in
  t ← now;
  let content :=
"Reply Draft
Generated: " +:+ strftime t "%Y-%m-%d %H:%M:%S" +:+ "
To: " +:+ recipient +:+ "
Priority: " +:+ default "MEDIUM" (outcome_priority result) +:+ "

---

" +:+ reply +:+ "

---

Note: This is a draft. Review and send manually.
" in
  write_file output_path (TextFile content).

(** [execute_create_task(action, result)]; the arguments are the [data]
    of a [create_task] action. *)
Definition execute_create_task (task : Task) (priority : string)
           (result : AnalysisOutcome) : IO unit :=
  t ← now;
  let timestamp := strftime t "%Y%m%d_%H%M%S" in
  let filename := "task_" +:+ timestamp +:+ ".txt" in
  let output_path := path_join VAULT_ACTIONS filename in
  t ← now;
  let content :=
"Task
Created: " +:+ strftime t "%Y-%m-%d %H:%M:%S" +:+ "
Priority: " +:+ priority +:+ "

---

" +:+ str_of_task task +:+ "

---

Source: " +:+ outcome_sender_text result +:+ "
Category: " +:+ default "other" (outcome_category result) +:+ "
" in
  write_file output_path (TextFile content).

(** [log_execution(actions, result)] *)
Definition log_execution (actions : list Action) (result : AnalysisOutcome)
  : IO unit :=
  t ← now;
  let timestamp := strftime t "%Y%m%d_%H%M%S" in
  let log_file := path_join VAULT_LOGS ("execution_" +:+ timestamp +:+ ".json") in
  t ← now;
  let log_entry :=
    {| log_timestamp := isoformat t;
       log_sender := outcome_sender result;
       log_priority := outcome_priority result;
       log_category := outcome_category result;
       log_actions_executed := length actions;
       log_actions :=
         map (fun action => {| la_type := a_type action;
                               la_description := a_description action |})
             actions |} in
  write_file log_file (JsonFile log_entry).

(** The body of the loop of [execute_actions]: one action, its failure
    caught. *)
Definition execute_one (action : Action) (result : AnalysisOutcome) : IO unit :=
  try_io
    (match action with
     | SendReply _ reply recipient => execute_send_reply reply recipient result
     | CreateTask _ task priority => execute_create_task task priority result
     end)
    (fun e => mret tt).

Fixpoint execute_loop (actions : list Action) (result : AnalysisOutcome) : IO unit :=
  match actions with
  | [] => mret tt
  | action :: rest =>
      _ ← execute_one action result;
      execute_loop rest result
  end.

(** [execute_actions(actions, result)] *)
Definition execute_actions (actions : list Action) (result : AnalysisOutcome)
  : IO unit :=
  _ ← execute_loop actions result;
  log_execution actions result.

(** The approval step shared by [process_message_file] and
    [run_interactive]:
    [if result.get("actions"): approved = approval_flow(result);
     if approved: execute_actions(approved, result)]. *)
Definition approve_and_execute (result : AnalysisOutcome) : IO unit :=
  match outcome_actions result with
  | Some (_ :: _) =>
      approved_actions ← approval_flow result;
      match approved_actions with
      | _ :: _ => execute_actions approved_actions result
      | [] => mret tt
      end
  | _ => mret tt
  end.

(** [process_message_file(file_path)] *)
Definition process_message_file (file_path : string) : IO unit :=
  try_io
    (message ← read_file file_path;
     let sender := extract_sender (path_name file_path) message in
     result ← lift (analyze_with_skills message sender);
     _ ← approve_and_execute (Analysed result);
     let processed_path := path_join VAULT_PROCESSED (path_name file_path) in
     rename file_path processed_path)
    (fun e => mret tt).

End WithOrchestrator.

End Main.


(** ** main.py: the folder watcher *)

Module Watcher.
Import IOPrim.

Section WithOrchestrator.
Context {SK : Skills} {DT : DateTimeLib}.

(** The [for file_path in inbox_files] loop of [watch_folder]: a file that
    is not in [processed_files] is processed and added to the set. *)
Fixpoint watch_poll (inbox_files : list string) (processed_files : gset string)
  : IO (gset string) :=
  match inbox_files with
  | [] => mret processed_files
  | file_path :: rest =>
      if bool_decide (file_path ∉ processed_files) then
        _ ← Main.process_message_file file_path;
        watch_poll rest (processed_files ∪ {[file_path]})
      else watch_poll rest processed_files
  end.

(** The [while self.running] loop, for as many rounds as [listings] has
    entries: the k-th entry is what the two globs on the inbox give in the
    k-th round. *)
Fixpoint watch_rounds (listings : list (list string)) (processed_files : gset string)
  : IO (gset string) :=
  match listings with
  | [] => mret processed_files
  | inbox_files :: later =>
      processed_files ← watch_poll inbox_files processed_files;
      watch_rounds later processed_files
  end.

(** [watch_folder()], stopped after the given rounds. *)
Definition watch_folder (listings : list (list string)) : IO (gset string) :=
  let processed_files := ∅ in
  watch_rounds listings processed_files.

End WithOrchestrator.

End Watcher.

(** ** watchers/whatsapp_watcher.py: the file written for a message *)

Module WhatsApp.

(** [output_filename]; [time] is [int(time.time())]. *)
Definition output_filename (sender : string) (time : N) : string :=
  "whatsapp_" +:+
  Py.replace (Py.replace (Py.replace (Py.replace (Py.replace
    sender " " "_") "/" "_") ":" "_") "|" "_") (String Repr.backslash "") "_"
  +:+ "_" +:+ pretty time +:+ ".md".

(** The text written to the file, one [f.write] after the other. *)
Definition file_text (sender detailed_timestamp message_text : string) : string :=
  "# WhatsApp Message" +:+ Py.LF +:+ Py.LF +:+
  "**Source**: WhatsApp" +:+ Py.LF +:+ Py.LF +:+
  "**Sender**: " +:+ sender +:+ Py.LF +:+ Py.LF +:+
  "**Timestamp**: " +:+ detailed_timestamp +:+ Py.LF +:+ Py.LF +:+
  "**Message**:" +:+ Py.LF +:+
  "```" +:+ Py.LF +:+
  message_text +:+
  Py.LF +:+ "```" +:+ Py.LF.

End WhatsApp.

(** ** skills/utils.py *)

Module Utils.

Definition invalid_chars : string := "<>:" +:+ String Repr.dquote "/\|?*".

(** [safe_filename(filename)] *)
Definition safe_filename (filename : string) : string :=
  let filename :=
    foldl (fun filename char => Py.replace filename (String char "") "_")
          filename (list_ascii_of_string invalid_chars) in
  if (200 <? String.length filename)%nat
  then Py.slice_to 197 filename +:+ "..."
  else filename.

End Utils.

(** ** config/settings.py and [FTEAgent.__init__] *)

Module Config.

Definition OPENROUTER_BASE_URL : string := "https://openrouter.ai/api/v1".

(** The agent object: what [__init__] stores (the client by the two values
    it is built from). *)
Record FTEAgent : Type := {
  agent_api_key : string;
  agent_model : string;
  client_base_url : string;
  client_api_key : string;
  agent_tools : list Tools.ToolDefinition
}.

(** [x or y] for an optional string [x]. *)
Definition or_else (x : option string) (y : string) : string :=
  match x with
  | Some s => if str_truthy s then s else y
  | None => y
  end.

Section WithEnvironment.
(** The two settings read from the environment when the module loads. *)
Variables OPENROUTER_API_KEY OPENROUTER_MODEL : string.
Context {SK : Skills}.

(** [validate_config()] *)
Definition validate_config : result bool :=
  if negb (str_truthy OPENROUTER_API_KEY) then
    raise (Exn "ValueError"
               ("OPENROUTER_API_KEY not found. " +:+
                "Please copy .env.example to .env and add your API key."))
  else mret true.

(** [FTEAgent(api_key, model)] *)
Definition FTEAgent_init (api_key model : option string) : result FTEAgent :=
  let api_key := or_else api_key OPENROUTER_API_KEY in
  let model := or_else model OPENROUTER_MODEL in
  _ ← (if negb (str_truthy api_key) then validate_config else mret true);
  mret {| agent_api_key := api_key;
          agent_model := model;
          client_base_url := OPENROUTER_BASE_URL;
          client_api_key := api_key;
          agent_tools := Tools.get_tool_definitions |}.

End WithEnvironment.

End Config.
(** * Specification vocabulary

    The notions the properties below are stated with. *)

Module Spec.

(** The enumerated values of the two classified fields. *)
Definition PRIORITIES : list string := ["HIGH"; "MEDIUM"; "LOW"].
Definition CATEGORIES : list string := ["work"; "personal"; "study"; "finance"; "other"].

(** The names of the tool registry. *)
Definition TOOL_NAMES : list string :=
  ["summarizer"; "reply_suggester"; "task_extractor"; "priority_detector"; "categorizer"].

Definition valid_record (r : AnalysisRecord) : Prop :=
  ar_priority r ∈ PRIORITIES ∧ ar_category r ∈ CATEGORIES.

(** What a result says about priority and category is within the
    enumerated values. *)
Definition result_ok (d : AnalyzerResult) : Prop :=
  (forall p, get_priority d = Some p -> p ∈ PRIORITIES) /\
  (forall c, get_category d = Some c -> c ∈ CATEGORIES).

(** The derivation of actions as the specification words it: at most one
    reply, then one task action per task, in order. [describe] and [carry]
    say what a task action shows and holds of its task. *)
Definition reply_actions (r : AnalysisRecord) : list Action :=
  match ar_suggested_reply r with
  | Some reply =>
      if str_truthy reply
      then [SendReply "Send suggested reply" reply (ar_sender r)]
      else []
  | None => []
  end.

Definition task_action (describe : Task -> string) (carry : Task -> Task)
           (r : AnalysisRecord) (task : Task) : Action :=
  CreateTask ("Create task: " +:+ describe task) (carry task) (ar_priority r).

Definition derived_actions (describe : Task -> string) (carry : Task -> Task)
           (r : AnalysisRecord) : list Action :=
  reply_actions r ++ map (task_action describe carry r) (ar_tasks r).


(** The approval gate. *)

(** An input line the gate takes for a yes. *)
Definition gate_accepts (line : string) : bool :=
  Main.approves (Py.lower (Py.strip line)).

(** The world once the gate has asked [n] times and [rest] is what is left
    of standard input. *)
Definition answered {DT : DateTimeLib} (n : nat) (rest : list string) (w : World) : World :=
  {| w_stdin := rest; w_clock := w_clock w; w_ticks := w_ticks w;
     w_read := w_read w; w_fault := w_fault w; w_ops := w_ops w;
     w_trace := w_trace w ++ replicate n (EvPrompt Main.approval_prompt) |}.

(** Execution and audit. *)

(** The prefix of the file an action is executed into. *)
Definition artifact_prefix (a : Action) : string :=
  match a with
  | SendReply _ _ _ => "vault/actions/reply_draft_"
  | CreateTask _ _ _ => "vault/actions/task_"
  end.

(** [ev] is the one attempt to write the artifact of [a]: done or failed. *)
Definition is_action_attempt (a : Action) (ev : Event) : Prop :=
  exists path, Py.startswith path (artifact_prefix a) = true /\
    ((exists text, ev = EvWrite path (TextFile text)) \/ ev = EvWriteFailed path).

(** The audit entry of a batch, but for its timestamp. *)
Definition audit_entry (timestamp : string) (actions : list Action)
           (result : AnalysisOutcome) : LogEntry :=
  {| log_timestamp := timestamp;
     log_sender := Main.outcome_sender result;
     log_priority := Main.outcome_priority result;
     log_category := Main.outcome_category result;
     log_actions_executed := length actions;
     log_actions := map (fun a => {| la_type := a_type a;
                                     la_description := a_description a |}) actions |}.

(** [ev] is a write, done or failed, into the logs directory. *)
Definition is_log_event (ev : Event) : bool :=
  match ev with
  | EvWrite path _ | EvWriteFailed path => Py.startswith path "vault/logs/"
  | _ => false
  end.

(** [ev] is the attempt to write the audit entry of the batch. *)
Definition is_audit_attempt (actions : list Action) (result : AnalysisOutcome)
           (ev : Event) : Prop :=
  exists path, Py.startswith path "vault/logs/execution_" = true /\
    ((exists timestamp, ev = EvWrite path (JsonFile (audit_entry timestamp actions result)))
     \/ ev = EvWriteFailed path).

End Spec.

(** Membership in a list written out. *)
Ltac in_list := rewrite ?elem_of_cons, ?elem_of_nil in *; intuition (subst; auto).

(** * Scenarios

    Concrete collaborators and inputs, for the examples that instantiate the
    theorems and for the inputs on which a statement of the specification
    fails. *)

Module Scenario.

(** A stand-in for [re] and for the order of a [set]: nothing matches,
    nothing is replaced, a text is one sentence, and a set is iterated in
    the order of the list. It agrees with [re] on the texts in which no
    pattern of the analyzers matches and no sentence ends; on others it
    may find fewer tasks than the program. The theorems hold for every
    [TextLib]; the stand-in serves the scenarios only. *)
Definition no_regex : TextLib := {|
  re_search := fun _ _ => false;
  re_sub := fun _ _ text => text;
  re_split := fun _ text => [text];
  set_order := fun words => words
|}.

(** The JSON text [{"content": "<text>"}]. *)
Definition content_json (text : string) : string :=
  "{" +:+ String Repr.dquote "content" +:+ String Repr.dquote ": "
  +:+ String Repr.dquote text +:+ String Repr.dquote "}".

(** [json.loads] on the texts of the scenarios: the object with the one
    key [content] for [content_json text], and, for anything else, the
    error [json.loads] raises on a text that starts no JSON value.
    [json.dumps] is a stand-in, its text is not looked at. *)
Definition scenario_json_loads (known : list string) (s : string) : result pyval :=
  match filter (fun text => content_json text = s) known with
  | text :: _ => inr (PDict [("content", PStr text)])
  | [] => inl (Exn "JSONDecodeError" "Expecting value: line 1 column 1 (char 0)")
  end.

Definition urgent_text : string := "URGENT: the server is down, fix it asap".

Definition scenario_json : JsonLib := {|
  json_loads := scenario_json_loads [urgent_text];
  json_dumps := fun _ => "{}"
|}.

(** A client whose planning answer requests [tool_calls] and whose
    synthesis answer is a fixed text. *)
Definition scripted_client (tool_calls : list ToolCall) : ChatClient := {|
  client_model := "meta-llama/llama-3.1-8b-instruct:free";
  chat_completions_create := fun request =>
    match req_tools request with
    | Some _ => inr {| choices := [{| cm_content := None;
                                      cm_tool_calls := Some tool_calls |}] |}
    | None => inr {| choices := [{| cm_content := Some "Handled.";
                                    cm_tool_calls := None |}] |}
    end
|}.

(** A client whose every call fails in transport. *)
Definition offline_client : ChatClient := {|
  client_model := "meta-llama/llama-3.1-8b-instruct:free";
  chat_completions_create := fun _ => inl (Exn "APIConnectionError" "Connection error.")
|}.

(** A client whose planning call succeeds and whose synthesis call fails. *)
Definition half_client (tool_calls : list ToolCall) : ChatClient := {|
  client_model := "meta-llama/llama-3.1-8b-instruct:free";
  chat_completions_create := fun request =>
    match req_tools request with
    | Some _ => inr {| choices := [{| cm_content := None;
                                      cm_tool_calls := Some tool_calls |}] |}
    | None => inl (Exn "APITimeoutError" "Request timed out.")
    end
|}.

Definition call_priority : ToolCall :=
  {| tc_id := "call_1"; tc_name := "priority_detector";
     tc_arguments := content_json urgent_text |}.
Definition call_broken : ToolCall :=
  {| tc_id := "call_2"; tc_name := "categorizer"; tc_arguments := "not json" |}.
Definition call_category : ToolCall :=
  {| tc_id := "call_3"; tc_name := "categorizer";
     tc_arguments := content_json urgent_text |}.

(** An analyzer set whose summarizer raises. *)
Definition failing_skills : Skills := {|
  summarize_content := fun _ => inl (Exn "RuntimeError" "summarizer unavailable");
  detect_priority := RealSkills.detect_priority_impl;
  categorize_content := RealSkills.categorize_content_impl;
  suggest_reply := RealSkills.suggest_reply_impl;
  extract_tasks := fun _ => inr (TasksResult [] 0 [])
|}.

(** The analyzers of the repository, over the stand-in. *)
Definition skills : Skills := RealSkills.real_skills (TL := no_regex).

(** The agent's view of three scripted rounds. *)
Definition analyze (tool_calls : list ToolCall) (message : string)
           (sender : option string) : AnalysisOutcome :=
  Agent.analyze_message (SK := skills) (CL := scripted_client tool_calls)
                        (JS := scenario_json) message sender.

(** A clock that counts calls, printed as the count. *)
Definition counting_clock : DateTimeLib := {|
  DateTime := nat;
  strftime := fun t _ => pretty t;
  isoformat := fun t => pretty t
|}.

(** A world with the given input lines, in which every file operation but
    those numbered in [faults] succeeds. *)
Definition world (stdin : list string) (faults : list nat) : World (DT := counting_clock) :=
  @Build_World counting_clock
    stdin
    (fun k => k)
    0
    (fun path =>
       if String.eqb path "vault/inbox/note_from_jane_doe.txt"
       then inr "Please review the report by tomorrow."
       else inl (Exn "FileNotFoundError" "No such file or directory"))
    (fun k => if bool_decide (k ∈ faults)
              then Some (Exn "OSError" "No space left on device")
              else None)
    0
    [].

Definition reply_action : Action :=
  SendReply "Send suggested reply" "I'd be happy to help with that." "Jane Doe".
Definition task_action1 : Action :=
  CreateTask "Create task: review the report" (TaskText "review the report") "HIGH".
Definition task_action2 : Action :=
  CreateTask "Create task: send approval" (TaskText "send approval") "HIGH".

Definition record (actions : list Action) : AnalysisRecord :=
  {| ar_message := "Please review the report and send approval.";
     ar_sender := "Jane Doe";
     ar_analysis := None;
     ar_summary := Some "Please review the report and send approval.";
     ar_priority := "HIGH";
     ar_category := "work";
     ar_suggested_reply := Some "I'd be happy to help with that.";
     ar_tasks := [TaskText "review the report"; TaskText "send approval"];
     ar_actions := actions |}.

End Scenario.


(** * Further vocabulary *)

Module Spec2.

(** The keyword arguments a tool accepts. *)
Definition allowed_keys (tool_name : string) : list string :=
  if String.eqb tool_name "reply_suggester" then ["content"; "sender"] else ["content"].

(** A call the tools of the repository can run: a JSON object with the
    accepted keys only, whose [content] is a string. *)
Definition well_formed_call (tool_name : string) (arguments : pyval) : bool :=
  match arguments with
  | PDict d =>
      forallb (fun kv => bool_decide (fst kv ∈ allowed_keys tool_name)) d
      && match Tools.dict_get d "content" with
         | Some (PStr _) => true
         | _ => false
         end
  | _ => false
  end.

(** What the analyzer behind a tool returns for a content and a sender. *)
Definition analyzer_result {TL : TextLib} (tool_name : string) (content : string)
           (sender : pyval) : AnalyzerResult :=
  if String.eqb tool_name "summarizer" then RealSkills.generate_summary_str content
  else if String.eqb tool_name "reply_suggester"
       then RealSkills.suggest_reply_str content sender
  else if String.eqb tool_name "task_extractor" then RealSkills.extract_tasks_str content
  else if String.eqb tool_name "priority_detector"
       then RealSkills.detect_priority_str content
  else RealSkills.categorize_content_str content.

(** [d] is an error dict. *)
Definition is_error (d : AnalyzerResult) : bool :=
  match d with
  | ErrorResult _ => true
  | _ => false
  end.

(** One round of tool calls, each with its parsed arguments: the results
    by tool name, and what the round adds to the transcript. *)
Definition round_results {SK : Skills} (calls : list (ToolCall * pyval))
           (tool_results : gmap string AnalyzerResult) : gmap string AnalyzerResult :=
  foldl (fun m '(tc, arguments) =>
           <[tc_name tc := Tools.execute_tool (tc_name tc) arguments]> m)
        tool_results calls.

Definition round_transcript {SK : Skills} {JS : JsonLib} (calls : list (ToolCall * pyval))
  : list ChatMessage :=
  concat (map (fun '(tc, arguments) =>
                 [MsgAssistant [tc];
                  MsgTool (tc_id tc)
                          (json_dumps (Tools.execute_tool (tc_name tc) arguments))])
              calls).

(** [ev] moves a file, or fails to. *)
Definition is_move (ev : Event) : bool :=
  match ev with
  | EvRename _ _ | EvRenameFailed _ _ => true
  | _ => false
  end.

(** The files the events move or try to move, in order. *)
Definition moved (events : list Event) : list string :=
  omap (fun ev => match ev with
                  | EvRename src _ | EvRenameFailed src _ => Some src
                  | _ => None
                  end) events.

(** [ev] is a write that failed. *)
Definition is_failed_write (ev : Event) : bool :=
  match ev with
  | EvWriteFailed _ => true
  | _ => false
  end.

(** The world after [ticks] more readings of the clock and [ops] more file
    operations, which left [events] in the trace. *)
Definition advanced {DT : DateTimeLib} (ticks ops : nat) (events : list Event)
           (w : World) : World :=
  {| w_stdin := w_stdin w; w_clock := w_clock w; w_ticks := w_ticks w + ticks;
     w_read := w_read w; w_fault := w_fault w; w_ops := w_ops w + ops;
     w_trace := w_trace w ++ events |}.

(** The file of an action that is executed when the clock has been read
    [t] times. *)
Definition artifact_path {DT : DateTimeLib} (w : World) (t : nat) (a : Action) : string :=
  Spec.artifact_prefix a +:+ strftime (w_clock w t) "%Y%m%d_%H%M%S" +:+ ".txt".

(** [ev] is what the k-th action of a batch started in [w] leaves in the
    trace: the write of its file, which is done unless the file system
    fails at that operation. *)
Definition is_artifact_event {DT : DateTimeLib} (w : World) (k : nat) (a : Action)
           (ev : Event) : Prop :=
  match w_fault w (w_ops w + k) with
  | None => exists text,
      ev = EvWrite (artifact_path w (w_ticks w + 2 * k) a) (TextFile text)
  | Some _ => ev = EvWriteFailed (artifact_path w (w_ticks w + 2 * k) a)
  end.

(** The audit file written when the clock has been read [t] times, and its
    entry, whose timestamp is the next reading. *)
Definition audit_path {DT : DateTimeLib} (w : World) (t : nat) : string :=
  "vault/logs/execution_" +:+ strftime (w_clock w t) "%Y%m%d_%H%M%S" +:+ ".json".

Definition audit_entry_at {DT : DateTimeLib} (actions : list Action)
           (result : AnalysisOutcome) (w : World) (t : nat) : LogEntry :=
  Spec.audit_entry (isoformat (w_clock w (S t))) actions result.

(** The write of the audit entry as the file operation numbered [o]: done
    unless the file system fails there. *)
Definition audit_event_at {DT : DateTimeLib} (actions : list Action)
           (result : AnalysisOutcome) (w : World) (t o : nat) : Event :=
  match w_fault w o with
  | None => EvWrite (audit_path w t) (JsonFile (audit_entry_at actions result w t))
  | Some _ => EvWriteFailed (audit_path w t)
  end.

(** The audit of a batch started in [w]: every action reads the clock
    twice and makes one file operation. *)
Definition batch_entry {DT : DateTimeLib} (actions : list Action)
           (result : AnalysisOutcome) (w : World) : LogEntry :=
  audit_entry_at actions result w (w_ticks w + 2 * length actions).

Definition audit_event {DT : DateTimeLib} (actions : list Action)
           (result : AnalysisOutcome) (w : World) : Event :=
  audit_event_at actions result w (w_ticks w + 2 * length actions)
                 (w_ops w + length actions).

(** The audit entries the events put into the logs directory, each with
    its file. *)
Definition logged (events : list Event) : list (string * LogEntry) :=
  omap (fun ev => match ev with
                  | EvWrite path (JsonFile entry) =>
                      if Py.startswith path "vault/logs/" then Some (path, entry) else None
                  | _ => None
                  end) events.

(** No character of [s] is one of [chars]. *)
Definition free_of (chars : string) (s : string) : Prop :=
  Forall (fun c => c ∉ list_ascii_of_string chars) (list_ascii_of_string s).

End Spec2.

Module Scenario2.

(** A clock that stands still. *)
Definition frozen_clock : DateTimeLib := {|
  DateTime := unit;
  strftime := fun _ format =>
    if String.eqb format "%Y%m%d_%H%M%S" then "20240305_101500" else "2024-03-05 10:15:00";
  isoformat := fun _ => "2024-03-05T10:15:00"
|}.

(** A world under the frozen clock, with the given input lines, in which
    every file operation succeeds. *)
Definition frozen_world (stdin : list string) : World (DT := frozen_clock) :=
  @Build_World frozen_clock stdin (fun _ => tt) 0
    (fun path =>
       if String.eqb path "vault/inbox/note_from_jane_doe.txt"
       then inr "Please review the report by tomorrow."
       else inl (Exn "FileNotFoundError" "No such file or directory"))
    (fun _ => None) 0 [].

(** The parsed arguments of the tool calls of the scenarios, and a round
    of two calls. *)
Definition urgent_arguments : pyval := PDict [("content", PStr Scenario.urgent_text)].

Definition round_calls : list (ToolCall * pyval) :=
  [(Scenario.call_priority, urgent_arguments); (Scenario.call_category, urgent_arguments)].

(** A message file on which the stand-in agrees with [re]: its text has
    none of the words the patterns of the task extractor look for but
    "please" and "review", which the list of indicators finds as well; it
    starts with no bullet and no number, and it has no full stop, question
    mark or exclamation mark, so it is one sentence. The program finds one
    task in it, the line itself. *)
Definition request_path : string := "vault/inbox/request_from_jane_doe.txt".
Definition request_text : string := "Please review the report".

Definition request_world (stdin : list string) (faults : list nat)
  : World (DT := Scenario.counting_clock) :=
  @Build_World Scenario.counting_clock
    stdin
    (fun k => k)
    0
    (fun path =>
       if String.eqb path request_path
       then inr request_text
       else inl (Exn "FileNotFoundError" "No such file or directory"))
    (fun k => if bool_decide (k ∈ faults)
              then Some (Exn "OSError" "No space left on device")
              else None)
    0
    [].

End Scenario2.
(** * Properties *)

(** ** The string methods and the analyzers on concrete inputs *)

Example strip_lower_answer : Py.lower (Py.strip "  Yes ") = "yes".
Proof. reflexivity. Qed.

Example split_words : Py.split_ws " review  the report " = ["review"; "the"; "report"].
Proof. reflexivity. Qed.

Example count_does_not_overlap : Py.count "aaaa" "aa" = 2.
Proof. reflexivity. Qed.

Example extract_sender_from_filename :
  Main.extract_sender "message_from_john_smith.txt" "" = "John Smith".
Proof. reflexivity. Qed.

Example extract_sender_from_header :
  Main.extract_sender "note.txt" ("Hi" +:+ Py.LF +:+ "From: Ann Lee " +:+ Py.LF +:+ "Hello")
  = "Ann Lee".
Proof. reflexivity. Qed.

Example extract_sender_default : Main.extract_sender "note.txt" "Hello" = "Unknown".
Proof. reflexivity. Qed.

Example repr_with_apostrophe :
  Repr.repr "it's" = String Repr.dquote ("it's" +:+ String Repr.dquote "").
Proof. reflexivity. Qed.

Example str_of_descriptor :
  str_of_task (TaskDesc {| td_title := "call Bob"; td_description := "call Bob";
                           td_priority := "normal"; td_index := 0 |})
  = "{'title': 'call Bob', 'description': 'call Bob', 'priority': 'normal', 'index': 0}".
Proof. reflexivity. Qed.

Example detect_priority_urgent :
  RealSkills.detect_priority_str
    "URGENT: please review the attached report by 5pm today and send me your approval."
  = PriorityResult "HIGH" 0.9%float
      "Found 2 urgent indicators, 0 low priority indicators, 2 time-sensitive terms".
Proof. by vm_compute. Qed.

Example detect_priority_low :
  get_priority (RealSkills.detect_priority_str "Take your time, this is optional.")
  = Some "LOW".
Proof. by vm_compute. Qed.

Example categorize_budget_meeting :
  RealSkills.categorize_content_str
    "Hi team, we need to prepare for the quarterly budget meeting scheduled for Friday. Please review your department's expenses and come with proposals for next quarter's allocations."
  = CategoryResult "work" 1.0%float
      "Found 5 category-specific keywords. Scores: work: 5, personal: 0, study: 0, finance: 2".
Proof. by vm_compute. Qed.

Example suggest_reply_request :
  get_suggestions (RealSkills.suggest_reply_str "Could you send the file?" PNone)
  = Some ["I'd be happy to help with that. Let me take care of it for you.";
          "Sure, I can assist with this request. I'll get started right away.";
          "Absolutely, I'll handle this for you. Give me a moment to process it."].
Proof. by vm_compute. Qed.


(** ** Action derivation *)

Section ActionDerivation.
Import Spec.

(** A loop that appends one element per entry builds the [map]. *)
Lemma foldl_append_map {A B} (f : A -> B) (l : list A) (acc : list B) :
  foldl (fun acc x => acc ++ [f x]) acc l = acc ++ map f l.
Proof.
  revert acc. induction l as [|x l IH]; intros acc; simpl.
  - by rewrite app_nil_r.
  - rewrite IH. by rewrite <- app_assoc.
Qed.

Lemma determine_actions_derived (r : AnalysisRecord) :
  Agent._determine_actions r = derived_actions str_of_task id r.
Proof.
  unfold Agent._determine_actions, derived_actions, reply_actions.
  pose proof (foldl_append_map (task_action str_of_task id r)) as Hloop.
  unfold task_action, id in Hloop |- *.
  destruct (ar_tasks r) as [|t ts].
  - simpl. rewrite app_nil_r. destruct (ar_suggested_reply r) as [reply|]; [|done].
    by destruct (str_truthy reply).
  - rewrite Hloop. done.
Qed.






(** The derivation reads the sender, the priority, the suggested reply and
    the tasks of a record, and nothing else. *)
Lemma determine_actions_reads (r r' : AnalysisRecord) :
  ar_sender r = ar_sender r' ->
  ar_priority r = ar_priority r' ->
  ar_suggested_reply r = ar_suggested_reply r' ->
  ar_tasks r = ar_tasks r' ->
  Agent._determine_actions r = Agent._determine_actions r'.
Proof.
  intros Hs Hp Hr Ht. rewrite !determine_actions_derived.
  unfold derived_actions, reply_actions, task_action.
  by rewrite Hs, Hp, Hr, Ht.
Qed.

(** [C8] Re-deriving the actions of a record gives the same sequence:
    the derivation is a function of the record's sender, priority,
    suggested reply and tasks; storing its result in the record's
    [actions] and deriving again gives the same list; and the [actions] of
    every record that [_structure_output] assembles are what a new run of
    the derivation on that record gives. *)
Theorem determine_actions_idempotent :
  (forall r r' : AnalysisRecord,
      ar_sender r = ar_sender r' ->
      ar_priority r = ar_priority r' ->
      ar_suggested_reply r = ar_suggested_reply r' ->
      ar_tasks r = ar_tasks r' ->
      Agent._determine_actions r = Agent._determine_actions r') /\
  (forall r : AnalysisRecord,
      Agent._determine_actions (set_actions r (Agent._determine_actions r))
      = Agent._determine_actions r) /\
  (forall message sender tool_results synthesis,
      let output := Agent._structure_output message sender tool_results synthesis in
      Agent._determine_actions output = ar_actions output).
Proof.
  split; [apply determine_actions_reads|]. split.
  - intros r. by apply determine_actions_reads.
  - intros message sender tool_results synthesis output. subst output.
    unfold Agent._structure_output. cbn [ar_actions set_actions].
    by apply determine_actions_reads.
Qed.

End ActionDerivation.

(** ** The range of the analyzers *)

Section AnalyzerRange.
Import Spec RealSkills.

Lemma priority_map_range (p : string) : priority_map p ∈ PRIORITIES.
Proof.
  unfold priority_map, PRIORITIES.
  repeat case_match; in_list.
Qed.

Lemma detect_priority_range (content : string) :
  exists p confidence reasoning,
    detect_priority_str content = PriorityResult p confidence reasoning /\
    p ∈ PRIORITIES.
Proof.
  unfold detect_priority_str.
  repeat case_match; eexists _, _, _; (split; [reflexivity|apply priority_map_range]).
Qed.

Lemma max_by_score_in (rest : list (string * nat)) (best : string * nat) :
  max_by_score best rest ∈ best :: rest.
Proof.
  revert best. induction rest as [|[c n] rest IH]; intros best; simpl.
  - in_list.
  - case_match.
    + specialize (IH (c, n)). in_list.
    + specialize (IH best). in_list.
Qed.

Lemma category_scores_keys (content_lower : string) :
  map fst (category_scores content_lower) = ["work"; "personal"; "study"; "finance"].
Proof.
  unfold category_scores. rewrite map_map.
  unfold categories. reflexivity.
Qed.

Lemma categorize_range (content : string) :
  exists c confidence reasoning,
    categorize_content_str content = CategoryResult c confidence reasoning /\
    c ∈ CATEGORIES.
Proof.
  unfold categorize_content_str.
  pose proof (category_scores_keys (Py.lower content)) as Hkeys.
  set (scores := category_scores (Py.lower content)) in *.
  assert (Hbest : fst (match scores with
                       | [] => ("other", 0)
                       | first :: rest => max_by_score first rest
                       end) ∈ CATEGORIES).
  { destruct scores as [|first rest]; [unfold CATEGORIES; in_list|].
    pose proof (max_by_score_in rest first) as Hin.
    apply (list_elem_of_fmap_2 fst) in Hin.
    change (fst <$> first :: rest) with (map fst (first :: rest)) in Hin.
    rewrite Hkeys in Hin. unfold CATEGORIES. in_list. }
  destruct (match scores with
            | [] => ("other", 0)
            | first :: rest => max_by_score first rest
            end) as [max_category max_score].
  simpl in Hbest.
  repeat case_match; simplify_eq;
    eexists _, _, _; (split; [reflexivity|]); first [done | unfold CATEGORIES; in_list].
Qed.

End AnalyzerRange.

(** ** The tool registry *)

Section ToolRegistry.
Import Spec Tools.

Lemma app_nonempty (s1 s2 : string) : s1 <> "" -> s1 +:+ s2 <> "".
Proof. destruct s1; [done|]. intros _. discriminate. Qed.

(** Binding keyword arguments fails only with a message that starts with
    the function's name. *)
Lemma bind_params_msg fname params d e :
  fname <> "" -> bind_params fname params d = inl e -> exn_msg e <> "".
Proof.
  intros Hf. induction params as [|[name dflt] params IH]; simpl; [done|].
  destruct (dict_get d name) as [v|]; [|destruct dflt as [v|]].
  - cbn. destruct (bind_params fname params d); [|done]. intros [= <-]. auto.
  - cbn. destruct (bind_params fname params d); [|done]. intros [= <-]. auto.
  - cbn. intros [= <-]. cbn. by apply app_nonempty.
Qed.

Lemma call_kwargs_msg fname params arguments e :
  fname <> "" -> call_kwargs fname params arguments = inl e -> exn_msg e <> "".
Proof.
  intros Hf. unfold call_kwargs.
  destruct arguments; try (intros [= <-]; cbn; by apply app_nonempty).
  destruct (filter _ d) as [|[k v] rest].
  - by apply bind_params_msg.
  - intros [= <-]. cbn. by apply app_nonempty.
Qed.

Lemma attribute_error_msg v attr : exn_msg (AttributeError v attr) <> "".
Proof. done. Qed.

(** The analyzers of the repository raise only on a content that is not a
    string, with CPython's message. *)
Lemma real_skill_msg {TL : TextLib} (f : pyval -> result AnalyzerResult) v e :
  f = RealSkills.summarize_content_impl \/ f = RealSkills.detect_priority_impl \/
  f = RealSkills.categorize_content_impl \/ f = RealSkills.extract_tasks_impl ->
  f v = inl e -> exn_msg e <> "".
Proof.
  intros Hf Hv.
  destruct Hf as [-> | [-> | [-> | ->]]];
    destruct v; cbn in Hv; unfold raise in Hv; simplify_eq; apply attribute_error_msg.
Qed.

Lemma real_reply_msg v sender e :
  RealSkills.suggest_reply_impl v sender = inl e -> exn_msg e <> "".
Proof. destruct v; cbn; unfold raise; intros; simplify_eq; apply attribute_error_msg. Qed.

Lemma registry_get_cases {SK : Skills} tool_name :
((tool_name ∉ TOOL_NAMES) /\ registry_get TOOLS tool_name = None) \/
  (exists spec, (tool_name, spec) ∈ TOOLS /\ registry_get TOOLS tool_name = Some spec).
Proof.
  unfold TOOLS, registry_get, TOOL_NAMES.
  repeat (case_match; [right; eexists; split; [|reflexivity];
                       match goal with E : String.eqb _ _ = true |- _ =>
                         apply String.eqb_eq in E; subst end; in_list|]).
  left. split; [|done].
  repeat match goal with E : String.eqb _ _ = false |- _ =>
           apply String.eqb_neq in E end.
  in_list.
Qed.

(** What the registered tools return and raise, over the analyzers of the
    repository. *)
Section RealRegistry.
Context {TL : TextLib}.

Lemma real_skills_result_ok v sender d :
  RealSkills.summarize_content_impl v = inr d \/
  RealSkills.suggest_reply_impl v sender = inr d \/
  RealSkills.extract_tasks_impl v = inr d \/
  RealSkills.detect_priority_impl v = inr d \/
  RealSkills.categorize_content_impl v = inr d ->
  result_ok d.
Proof.
  intros Hd.
  unfold RealSkills.summarize_content_impl, RealSkills.suggest_reply_impl,
         RealSkills.extract_tasks_impl, RealSkills.detect_priority_impl,
         RealSkills.categorize_content_impl, raise, mret, result_ret in Hd.
  destruct v; try (by destruct Hd as [?|[?|[?|[?|?]]]]).
  destruct Hd as [Hd|[Hd|[Hd|[Hd|Hd]]]]; injection Hd as <-.
  - unfold RealSkills.generate_summary_str.
    destruct (RealSkills.summary_loop _) as [key_points summary_lines].
    by split.
  - by split.
  - by split.
  - destruct (detect_priority_range s) as (p & c & r & -> & Hp).
    split; intros x; cbn; [by intros [= <-]|done].
  - destruct (categorize_range s) as (p & c & r & -> & Hp).
    split; intros x; cbn; [done|by intros [= <-]].
Qed.

Lemma real_tools_result_ok tool_name spec arguments d :
  (tool_name, spec) ∈ TOOLS (SK := RealSkills.real_skills) ->
  tool_function spec arguments = inr d -> result_ok d.
Proof.
  unfold TOOLS. rewrite !elem_of_cons, elem_of_nil.
  intros [E|[E|[E|[E|[E|[]]]]]]; injection E as -> ->; cbn [tool_function];
    unfold summarizer_tool, reply_suggester_tool, task_extractor_tool,
           priority_detector_tool, categorizer_tool;
    (destruct (call_kwargs _ _ arguments) as [e|args]; [done|]);
    cbn [mbind result_bind];
    (destruct args as [|content [|sender [|extra args]]]; try done);
    cbn [summarize_content suggest_reply extract_tasks detect_priority
         categorize_content RealSkills.real_skills];
    intros Hd.
  - apply (real_skills_result_ok content PNone). auto.
  - apply (real_skills_result_ok content sender). auto.
  - apply (real_skills_result_ok content PNone). auto.
  - apply (real_skills_result_ok content PNone). auto 6.
  - apply (real_skills_result_ok content PNone). auto 6.
Qed.

Lemma real_tools_raise_msg tool_name spec arguments e :
  (tool_name, spec) ∈ TOOLS (SK := RealSkills.real_skills) ->
  tool_function spec arguments = inl e -> exn_msg e <> "".
Proof.
  unfold TOOLS. rewrite !elem_of_cons, elem_of_nil.
  intros [E|[E|[E|[E|[E|[]]]]]]; injection E as -> ->; cbn [tool_function];
    unfold summarizer_tool, reply_suggester_tool, task_extractor_tool,
           priority_detector_tool, categorizer_tool;
    (destruct (call_kwargs _ _ arguments) as [e'|args] eqn:Hcall;
     [cbn; intros [= <-]; by eapply call_kwargs_msg, Hcall|]);
    cbn [mbind result_bind];
    (destruct args as [|content [|sender [|extra args]]];
     try (unfold raise; by intros [= <-]));
    cbn [summarize_content suggest_reply extract_tasks detect_priority
         categorize_content RealSkills.real_skills].
  - apply real_skill_msg; auto.
  - apply real_reply_msg.
  - apply real_skill_msg; auto.
  - apply real_skill_msg; auto.
  - apply real_skill_msg; auto.
Qed.

End RealRegistry.

(** [C5] [execute_tool] always returns a result. For a name that is not
    in the registry (whose names are the five of the source) the result is the error dict that names the tool. For
    a registered tool whose function raises, the result is the error dict
    whose text is [str(e)] of that exception, and otherwise it is what the
    tool returned, whatever the analyzers are. Over the analyzers of the
    repository the text of such an error is never empty. *)
Theorem execute_tool_contains_failures :
  (forall S : Skills, map fst TOOLS = TOOL_NAMES) /\
  (forall (S : Skills) tool_name arguments,
      tool_name ∉ TOOL_NAMES ->
      execute_tool tool_name arguments = ErrorResult ("Unknown tool: " +:+ tool_name)) /\
  (forall (S : Skills) tool_name,
      tool_name ∈ TOOL_NAMES ->
      exists spec, (tool_name, spec) ∈ TOOLS /\
        forall arguments,
          match tool_function spec arguments with
          | inl e => execute_tool tool_name arguments = ErrorResult (exn_msg e)
          | inr d => execute_tool tool_name arguments = d
          end) /\
  (forall (T : TextLib) tool_name spec arguments e,
      (tool_name, spec) ∈ TOOLS (SK := RealSkills.real_skills) ->
      tool_function spec arguments = inl e ->
      exn_msg e <> "" /\
      execute_tool (SK := RealSkills.real_skills) tool_name arguments
      = ErrorResult (exn_msg e)).
Proof.
  assert (Hreg : forall (S : Skills) tool_name spec arguments,
             registry_get TOOLS tool_name = Some spec ->
             match tool_function spec arguments with
             | inl e => execute_tool tool_name arguments = ErrorResult (exn_msg e)
             | inr d => execute_tool tool_name arguments = d
             end).
  { intros S tool_name spec arguments Hget. unfold execute_tool. rewrite Hget.
    by destruct (tool_function spec arguments). }
  split; [done|]. split; [|split].
  - intros S tool_name arguments Hname. unfold execute_tool.
    destruct (registry_get_cases tool_name) as [[_ ->]|(spec & Hin & _)]; [done|].
    exfalso. apply Hname. revert Hin. unfold TOOLS, TOOL_NAMES.
    rewrite !elem_of_cons, !elem_of_nil.
    intros [E|[E|[E|[E|[E|[]]]]]]; injection E as -> _; auto 10.
  - intros S tool_name Hname.
    destruct (registry_get_cases tool_name) as [[Hno _]|(spec & Hin & Hget)]; [done|].
    exists spec. split; [done|]. intros arguments. by apply Hreg.
  - intros T tool_name spec arguments e Hin Hraise.
    split; [by eapply real_tools_raise_msg|].
    destruct (registry_get_cases (SK := RealSkills.real_skills) tool_name)
      as [[Hno _]|(spec' & Hin' & Hget)].
    + exfalso. apply Hno. revert Hin. unfold TOOLS, TOOL_NAMES.
      rewrite !elem_of_cons, !elem_of_nil.
      intros [E|[E|[E|[E|[E|[]]]]]]; injection E as -> _; auto 10.
    + assert (spec' = spec) as ->.
      { revert Hin Hin'. unfold TOOLS. rewrite !elem_of_cons, !elem_of_nil.
        intros [E|[E|[E|[E|[E|[]]]]]]; injection E as -> ->;
          intros [E|[E|[E|[E|[E|[]]]]]]; by injection E as <-. }
      specialize (Hreg _ tool_name spec arguments Hget). by rewrite Hraise in Hreg.
Qed.

End ToolRegistry.

(** ** Assembly: [_structure_output] *)

Section Assembly.
Import Spec.


(** A record assembled from results that are within the enumerated values
    is within them. *)
Lemma structure_output_valid message sender tool_results synthesis :
  (forall name d, tool_results !! name = Some d -> result_ok d) ->
  valid_record (Agent._structure_output message sender tool_results synthesis).
Proof.
  intros Hok. unfold valid_record, Agent._structure_output.
  cbn [set_actions ar_priority ar_category]. split.
  - destruct (tool_results !! "priority_detector") as [d|] eqn:E;
      [|unfold PRIORITIES; in_list].
    destruct (get_priority d) as [p|] eqn:Ep; [|unfold PRIORITIES; in_list].
    by apply (Hok _ _ E).
  - destruct (tool_results !! "categorizer") as [d|] eqn:E;
      [|unfold CATEGORIES; in_list].
    destruct (get_category d) as [c|] eqn:Ec; [|unfold CATEGORIES; in_list].
    by apply (Hok _ _ E).
Qed.

End Assembly.

(** ** The agent loop: [analyze_message] *)

Section AgentLoop.
Import Spec Agent.
Context {SK : Skills} {CL : ChatClient} {JS : JsonLib}.

(** A tool call whose arguments do not parse stops the loop with the parse
    error, whatever was collected before it and whatever follows it. *)
Lemma tool_call_loop_parse_failure before bad after tool_results messages e :
  Forall (fun tc => exists v, json_loads (tc_arguments tc) = inr v) before ->
  json_loads (tc_arguments bad) = inl e ->
  tool_call_loop (before ++ bad :: after) tool_results messages = inl e.
Proof.
  intros Hbefore Hbad. revert tool_results messages.
  induction Hbefore as [|tc before [v Hv] _ IH]; intros tool_results messages.
  - cbn. by rewrite Hbad.
  - cbn. rewrite Hv. cbn. apply IH.
Qed.

(** The loop returns when all arguments parse. *)
Lemma tool_call_loop_total tool_calls tool_results messages :
  Forall (fun tc => exists v, json_loads (tc_arguments tc) = inr v) tool_calls ->
  exists tool_results' messages',
    tool_call_loop tool_calls tool_results messages = inr (tool_results', messages').
Proof.
  intros Hall. revert tool_results messages.
  induction Hall as [|tc tool_calls [v Hv] _ IH]; intros tool_results messages.
  - by eexists _, _.
  - cbn. rewrite Hv. cbn. apply IH.
Qed.

(** Every entry of the [tool_results] dict was put there by [execute_tool]. *)
Lemma tool_call_loop_results (P : AnalyzerResult -> Prop) tool_calls :
  (forall tool_name arguments, P (Tools.execute_tool tool_name arguments)) ->
  forall tool_results messages tool_results' messages',
    (forall name d, tool_results !! name = Some d -> P d) ->
    tool_call_loop tool_calls tool_results messages = inr (tool_results', messages') ->
    forall name d, tool_results' !! name = Some d -> P d.
Proof.
  intros Hexec. induction tool_calls as [|tc tool_calls IH];
    intros tool_results messages tool_results' messages' Hinv.
  - cbn. by intros [= <- <-].
  - cbn. destruct (json_loads (tc_arguments tc)) as [e|tool_args]; [done|].
    cbn. apply IH. intros name d.
    rewrite lookup_insert. case_decide; [|by apply Hinv].
    intros [= <-]. apply Hexec.
Qed.

(** The outcome is the error payload of whatever the body raises. *)
Lemma analyze_message_catches message sender e :
  analyze_message_body message sender = inl e ->
  analyze_message message sender = AnalysisError (exn_msg e) message sender.
Proof. unfold analyze_message. by intros ->. Qed.

Lemma analyze_message_returns message sender r :
  analyze_message_body message sender = inr r ->
  analyze_message message sender = Analysed r.
Proof. unfold analyze_message. by intros ->. Qed.

(** Every record that [analyze_message] returns was assembled from a
    [tool_results] dict filled by [execute_tool]. *)
Lemma analyze_message_assembled (P : AnalyzerResult -> Prop) message sender r :
  (forall tool_name arguments, P (Tools.execute_tool tool_name arguments)) ->
  analyze_message message sender = Analysed r ->
  exists tool_results synthesis,
    r = _structure_output message sender tool_results synthesis /\
    forall name d, tool_results !! name = Some d -> P d.
Proof.
  intros Hexec. unfold analyze_message.
  destruct (analyze_message_body message sender) as [e|r'] eqn:Hbody; [done|].
  cbn. intros [= ->]. revert Hbody. unfold analyze_message_body.
  destruct (chat_completions_create _) as [e|response]; cbn; [done|].
  destruct (first_choice response) as [e|message_obj]; cbn; [done|].
  destruct (cm_tool_calls message_obj) as [[|tc tool_calls]|].
  - cbn. intros [= <-]. eexists ∅, _. split; [done|]. intros name d.
    by rewrite lookup_empty.
  - destruct (tool_call_loop (tc :: tool_calls) ∅ (initial_messages message))
      as [e|[tool_results messages]] eqn:Hloop; cbn; [done|].
    destruct (chat_completions_create _) as [e|final_response]; cbn; [done|].
    destruct (first_choice final_response) as [e|final_message]; cbn; [done|].
    intros [= <-]. eexists tool_results, _. split; [done|].
    eapply tool_call_loop_results; [exact Hexec| |exact Hloop].
    intros name d. by rewrite lookup_empty.
  - cbn. intros [= <-]. eexists ∅, _. split; [done|]. intros name d.
    by rewrite lookup_empty.
Qed.

(** [C4] Whatever raises inside [analyze_message] is caught: the function
    always returns, and what it returns is a record or the payload
    [{"error": str(e), "message": message, "sender": sender}] with the
    message and the sender it was given. This is so for a planning call
    that raises, for a response without choices, for a tool call whose
    arguments do not parse, and for a synthesis call that raises (running
    a tool raises nothing: [execute_tool] returns an error result). *)
Theorem analyze_message_contains_exceptions message sender :
  (forall e, analyze_message_body message sender = inl e ->
     analyze_message message sender = AnalysisError (exn_msg e) message sender) /\
  (forall e,
     chat_completions_create (planning_request (initial_messages message)) = inl e ->
     analyze_message message sender = AnalysisError (exn_msg e) message sender) /\
  (chat_completions_create (planning_request (initial_messages message))
   = inr {| choices := [] |} ->
   analyze_message message sender
   = AnalysisError "list index out of range" message sender) /\
  (forall message_obj others before bad after e,
     chat_completions_create (planning_request (initial_messages message))
     = inr {| choices := message_obj :: others |} ->
     cm_tool_calls message_obj = Some (before ++ bad :: after) ->
     Forall (fun tc => exists v, json_loads (tc_arguments tc) = inr v) before ->
     json_loads (tc_arguments bad) = inl e ->
     analyze_message message sender = AnalysisError (exn_msg e) message sender) /\
  (forall message_obj others tool_calls tool_results messages e,
     chat_completions_create (planning_request (initial_messages message))
     = inr {| choices := message_obj :: others |} ->
     cm_tool_calls message_obj = Some tool_calls ->
     tool_calls <> [] ->
     tool_call_loop tool_calls ∅ (initial_messages message)
     = inr (tool_results, messages) ->
     chat_completions_create (synthesis_request messages) = inl e ->
     analyze_message message sender = AnalysisError (exn_msg e) message sender) /\
  ((exists r, analyze_message message sender = Analysed r) \/
   (exists error, analyze_message message sender = AnalysisError error message sender)).
Proof.
  split; [apply analyze_message_catches|].
  split; [|split; [|split; [|split]]].
  - intros e Hplan. apply analyze_message_catches.
    unfold analyze_message_body. by rewrite Hplan.
  - intros Hplan. apply (analyze_message_catches _ _ (Exn "IndexError" _)).
    unfold analyze_message_body. by rewrite Hplan.
  - intros message_obj others before bad after e Hplan Hcalls Hbefore Hbad.
    apply analyze_message_catches. unfold analyze_message_body.
    rewrite Hplan. cbn. rewrite Hcalls.
    rewrite (tool_call_loop_parse_failure before bad after _ _ e Hbefore Hbad).
    by destruct before.
  - intros message_obj others tool_calls tool_results messages e
           Hplan Hcalls Hne Hloop Hsyn.
    apply analyze_message_catches. unfold analyze_message_body.
    rewrite Hplan. cbn. rewrite Hcalls.
    destruct tool_calls as [|tc tool_calls]; [done|].
    rewrite Hloop. cbn. by rewrite Hsyn.
  - unfold analyze_message.
    destruct (analyze_message_body message sender) as [e|r]; cbn; eauto.
Qed.

(** [C6] (as amended) When the planning call requests several tool calls
    and the JSON arguments of one of them do not parse, the failure is not
    contained to that call: the loop stops there, the calls after it are
    not executed, the results collected from the calls before it are
    dropped with the loop's state, and [analyze_message] returns the error
    payload with the text of the parse error. *)
Theorem parse_failure_aborts_round message sender message_obj others
        before bad after e :
  chat_completions_create (planning_request (initial_messages message))
  = inr {| choices := message_obj :: others |} ->
  cm_tool_calls message_obj = Some (before ++ bad :: after) ->
  Forall (fun tc => exists v, json_loads (tc_arguments tc) = inr v) before ->
  json_loads (tc_arguments bad) = inl e ->
  (forall tool_results messages,
      tool_call_loop (before ++ bad :: after) tool_results messages = inl e) /\
  analyze_message message sender = AnalysisError (exn_msg e) message sender.
Proof.
  intros Hplan Hcalls Hbefore Hbad. split.
  - intros tool_results messages. by apply tool_call_loop_parse_failure.
  - apply analyze_message_catches. unfold analyze_message_body.
    rewrite Hplan. cbn. rewrite Hcalls.
    rewrite (tool_call_loop_parse_failure before bad after _ _ e Hbefore Hbad).
    by destruct before.
Qed.

End AgentLoop.

(** ** The invariant of analysis records *)

Section RecordInvariant.
Import Spec.
Context {TL : TextLib}.

Lemma execute_tool_result_ok tool_name arguments :
  result_ok (Tools.execute_tool (SK := RealSkills.real_skills) tool_name arguments).
Proof.
  unfold Tools.execute_tool.
  destruct (registry_get_cases (SK := RealSkills.real_skills) tool_name)
    as [[_ ->]|(spec & Hin & ->)]; [by split|].
  destruct (Tools.tool_function spec arguments) as [e|d] eqn:Hcall; cbn.
  - by split.
  - by eapply real_tools_result_ok.
Qed.

Lemma analyze_with_skills_real message sender :
  exists r,
    Main.analyze_with_skills (SK := RealSkills.real_skills) message sender = inr r /\
    valid_record r.
Proof.
  unfold Main.analyze_with_skills.
  cbn [summarize_content detect_priority categorize_content suggest_reply
       extract_tasks RealSkills.real_skills
       RealSkills.summarize_content_impl RealSkills.detect_priority_impl
       RealSkills.categorize_content_impl RealSkills.suggest_reply_impl
       RealSkills.extract_tasks_impl mbind result_bind mret result_ret].
  eexists. split; [reflexivity|].
  unfold valid_record. cbn [set_actions ar_priority ar_category]. split.
  - destruct (detect_priority_range message) as (p & c & r & -> & Hp). done.
  - destruct (categorize_range message) as (p & c & r & -> & Hp). done.
Qed.

End RecordInvariant.

(** [C1] Every record the pipeline produces has its priority among HIGH,
    MEDIUM, LOW and its category among work, personal, study, finance,
    other: the record [analyze_message] returns when it does not return the
    error payload (assembled by [_structure_output] from the results of
    [execute_tool], whichever tools the model asked for, with whatever
    arguments, and however the calls ended), and the record
    [analyze_with_skills] returns, which it does on every message. *)
Theorem records_within_enumerations :
  (forall (T : TextLib) (C : ChatClient) (J : JsonLib) message sender,
      match Agent.analyze_message (SK := RealSkills.real_skills) message sender with
      | Analysed r =>
          ar_priority r ∈ Spec.PRIORITIES /\ ar_category r ∈ Spec.CATEGORIES
      | AnalysisError _ _ _ => True
      end) /\
  (forall (T : TextLib) message sender,
      exists r,
        Main.analyze_with_skills (SK := RealSkills.real_skills) message sender = inr r /\
        ar_priority r ∈ Spec.PRIORITIES /\ ar_category r ∈ Spec.CATEGORIES).
Proof.
  split.
  - intros T C J message sender.
    destruct (Agent.analyze_message (SK := RealSkills.real_skills) message sender)
      as [r|] eqn:Hout; [|done].
    destruct (analyze_message_assembled (SK := RealSkills.real_skills)
                Spec.result_ok message sender r)
      as (tool_results & synthesis & -> & Hok); [|done|].
    + apply execute_tool_result_ok.
    + by apply structure_output_valid.
  - intros T message sender. apply analyze_with_skills_real.
Qed.

(** ** The approval gate *)

Section ApprovalGate.
Import Spec Main IOPrim.
Context {DT : DateTimeLib}.

Lemma lower_empty (s : string) : Py.lower s = "" <-> s = "".
Proof. destruct s; cbn; split; intros; done. Qed.

Lemma gate_accepts_spec (line : string) :
  gate_accepts line = true <->
  Py.strip line = "" \/ Py.lower (Py.strip line) = "y"
  \/ Py.lower (Py.strip line) = "yes".
Proof.
  unfold gate_accepts, approves. rewrite bool_decide_eq_true.
  rewrite !elem_of_cons, elem_of_nil.
  pose proof (lower_empty (Py.strip line)). tauto.
Qed.

(** The loop asks once per action, in order, and keeps the actions whose
    answer is a yes. *)
Lemma approval_loop_spec (decided : list (Action * string)) :
  forall approved rest (w : World),
    w_stdin w = map snd decided ++ rest ->
    approval_loop (map fst decided) approved w
    = (inr (approved ++ map fst (filter (fun d => gate_accepts (snd d) = true) decided)),
       answered (length decided) rest w).
Proof.
  induction decided as [|[action line] decided IH]; intros approved rest w Hin.
  - cbn in *. rewrite app_nil_r. unfold answered. cbn. rewrite app_nil_r.
    destruct w; cbn in *. by subst.
  - cbn [map fst snd approval_loop] in *.
    unfold mbind, io_bind, input, log_event. cbn [w_stdin]. rewrite Hin. cbn [app].
    rewrite IH with (rest := rest) by done.
    unfold answered. cbn. f_equal.
    + f_equal. unfold gate_accepts at 2. unfold filter. cbn.
      fold (gate_accepts line). rewrite decide_bool_decide.
      destruct (approves (Py.lower (Py.strip line))) eqn:E.
      * unfold gate_accepts. rewrite E. cbn. by rewrite <- app_assoc.
      * unfold gate_accepts. rewrite E. cbn. done.
    + f_equal. by rewrite <- app_assoc.
Qed.

Lemma approval_flow_spec (r : AnalysisRecord) (decided : list (Action * string))
      rest (w : World) :
  ar_actions r = map fst decided ->
  w_stdin w = map snd decided ++ rest ->
  approval_flow (Analysed r) w
  = (inr (map fst (filter (fun d => gate_accepts (snd d) = true) decided)),
     answered (length decided) rest w).
Proof.
  intros Hacts Hin. unfold approval_flow. cbn [outcome_actions default].
  rewrite Hacts. destruct decided as [|d decided].
  - cbn in *. unfold answered. cbn. rewrite app_nil_r.
    destruct w; cbn in *. by subst.
  - exact (approval_loop_spec (d :: decided) [] rest w Hin).
Qed.

(** A run in which every answer is the empty line. *)
Lemma all_empty_answers (actions : list Action) :
  let decided := map (fun a => (a, "")) actions in
  map fst decided = actions /\
  map snd decided = replicate (length actions) "" /\
  filter (fun d => gate_accepts (snd d) = true) decided = decided.
Proof.
  induction actions as [|a actions (IH1 & IH2 & IH3)]; [done|].
  cbn [map fst snd length replicate]. rewrite IH1, IH2.
  split; [done|]. split; [done|].
  rewrite filter_cons_True by done. by rewrite IH3.
Qed.

Lemma filter_sublist {A} (P : A -> Prop) `{forall x, Decision (P x)} (l : list A) :
  sublist (filter P l) l.
Proof.
  induction l as [|x l IH]; [constructor|].
  destruct (decide (P x)).
  - rewrite filter_cons_True by done. by constructor.
  - rewrite filter_cons_False by done. by constructor.
Qed.

Lemma map_fst_sublist {A B} (l1 l2 : list (A * B)) :
  sublist l1 l2 -> sublist (map fst l1) (map fst l2).
Proof. induction 1; cbn; by constructor. Qed.

End ApprovalGate.

(** [C3] (as amended) The approval gate asks once for every action, in the
    order of the list, and reads one line each time. A line counts as
    approval when, stripped, it is empty or, in any letter case, "y" or
    "yes"; every other line is a rejection. The gate returns the approved
    actions in their original order, a subsequence of the list. With only
    empty lines all N actions are approved, in order; with a rejecting first
    line and empty lines after it, the N-1 actions after the first are. *)
Theorem approval_gate_filters :
  (forall line,
      Spec.gate_accepts line = true <->
      Py.strip line = "" \/ Py.lower (Py.strip line) = "y"
      \/ Py.lower (Py.strip line) = "yes") /\
  (forall (D : DateTimeLib) r (decided : list (Action * string)) rest (w : World),
      ar_actions r = map fst decided ->
      w_stdin w = map snd decided ++ rest ->
      Main.approval_flow (Analysed r) w
      = (inr (map fst (filter (fun d => Spec.gate_accepts (snd d) = true) decided)),
         Spec.answered (length decided) rest w) /\
      sublist (map fst (filter (fun d => Spec.gate_accepts (snd d) = true) decided))
              (ar_actions r)) /\
  (forall (D : DateTimeLib) r rest (w : World),
      w_stdin w = replicate (length (ar_actions r)) "" ++ rest ->
      Main.approval_flow (Analysed r) w
      = (inr (ar_actions r), Spec.answered (length (ar_actions r)) rest w)) /\
  (forall (D : DateTimeLib) r first others line rest (w : World),
      ar_actions r = first :: others ->
      Spec.gate_accepts line = false ->
      w_stdin w = line :: replicate (length others) "" ++ rest ->
      Main.approval_flow (Analysed r) w
      = (inr others, Spec.answered (S (length others)) rest w)).
Proof.
  split; [apply gate_accepts_spec|]. split; [|split].
  - intros D r decided rest w Hacts Hin. split.
    + by apply approval_flow_spec.
    + rewrite Hacts. apply map_fst_sublist, filter_sublist.
  - intros D r rest w Hin.
    destruct (all_empty_answers (ar_actions r)) as (H1 & H2 & H3).
    rewrite (approval_flow_spec r (map (fun a => (a, "")) (ar_actions r)) rest w).
    + by rewrite H3, H1, length_map.
    + done.
    + by rewrite H2.
  - intros D r first others line rest w Hacts Hline Hin.
    destruct (all_empty_answers others) as (H1 & H2 & H3).
    rewrite (approval_flow_spec r ((first, line) :: map (fun a => (a, "")) others) rest w).
    + rewrite filter_cons_False by (cbn; by rewrite Hline).
      by rewrite H3, H1, length_cons, length_map.
    + cbn [map fst]. by rewrite H1.
    + cbn [map snd]. by rewrite H2.
Qed.

(** ** Execution and the audit log *)

Section Execution.
Import Spec Main IOPrim.
Context {DT : DateTimeLib}.

(** Two prefixes of one string are prefixes of one another. *)
Lemma startswith_comparable (s p1 p2 : string) :
  Py.startswith s p1 = true -> Py.startswith s p2 = true ->
  Py.startswith p1 p2 = true \/ Py.startswith p2 p1 = true.
Proof.
  revert p1 p2. induction s as [|c s IH]; intros [|a p1] [|b p2]; cbn; auto.
  - discriminate.
  - intros [Ha H1]%andb_true_iff [Hb H2]%andb_true_iff.
    apply Ascii.eqb_eq in Ha as ->. apply Ascii.eqb_eq in Hb as ->.
    rewrite Ascii.eqb_refl. cbn. by apply IH.
Qed.

(** A prefix of a prefix is a prefix. *)
Lemma startswith_trans (s p q : string) :
  Py.startswith s p = true -> Py.startswith p q = true ->
  Py.startswith s q = true.
Proof.
  revert p q. induction s as [|c s IH]; intros [|a p] [|b q]; cbn; try done.
  intros [Ha H1]%andb_true_iff [Hb H2]%andb_true_iff.
  apply Ascii.eqb_eq in Ha as <-. rewrite Hb. cbn. by apply (IH p).
Qed.

Lemma action_attempt_not_log (a : Action) (ev : Event) :
  is_action_attempt a ev -> is_log_event ev = false.
Proof.
  intros (path & Hpre & Hev).
  assert (Py.startswith path "vault/logs/" = false) as Hno.
  { destruct (Py.startswith path "vault/logs/") eqn:E; [|done].
    destruct (startswith_comparable _ _ _ Hpre E) as [Hc|Hc];
      by destruct a. }
  by destruct Hev as [[text ->]| ->].
Qed.

Lemma audit_attempt_is_log actions result (ev : Event) :
  is_audit_attempt actions result ev -> is_log_event ev = true.
Proof.
  intros (path & Hpre & Hev).
  assert (Py.startswith path "vault/logs/" = true) as Hyes.
  { by apply (startswith_trans path "vault/logs/execution_"). }
  by destruct Hev as [[timestamp ->]| ->].
Qed.

(** One action: one attempt to write its artifact, and never an
    exception. *)
Lemma execute_one_spec (a : Action) (result : AnalysisOutcome) (w : World) :
  exists ev,
    is_action_attempt a ev /\
    fst (execute_one a result w) = inr tt /\
    w_trace (snd (execute_one a result w)) = w_trace w ++ [ev] /\
    w_stdin (snd (execute_one a result w)) = w_stdin w.
Proof.
  unfold execute_one, try_io.
  destruct a as [description reply recipient|description task priority];
    unfold execute_send_reply, execute_create_task, mbind, io_bind, now,
           write_file, next_op, log_event;
    cbn [w_fault w_ops w_clock w_ticks w_trace w_stdin w_read];
    destruct (w_fault w (w_ops w)) as [e|]; cbn;
    eexists; (split; [|done]); eexists; (split; [|eauto]); by vm_compute.
Qed.

Lemma execute_loop_spec (actions : list Action) (result : AnalysisOutcome) :
  forall w : World,
  exists events,
    Forall2 is_action_attempt actions events /\
    fst (execute_loop actions result w) = inr tt /\
    w_trace (snd (execute_loop actions result w)) = w_trace w ++ events /\
    w_stdin (snd (execute_loop actions result w)) = w_stdin w.
Proof.
  induction actions as [|a actions IH]; intros w.
  - exists []. cbn. by rewrite app_nil_r.
  - destruct (execute_one_spec a result w) as (ev & Hev & Hok & Htrace & Hin).
    cbn [execute_loop]. unfold mbind, io_bind.
    destruct (execute_one a result w) as [[e|[]] w1]; cbn in Hok, Htrace, Hin; [done|].
    destruct (IH w1) as (events & Hevents & Hok' & Htrace' & Hin').
    exists (ev :: events). split; [by constructor|]. split; [done|].
    rewrite Htrace', Htrace, Hin', Hin. by rewrite <- app_assoc.
Qed.

Lemma log_execution_spec (actions : list Action) (result : AnalysisOutcome) (w : World) :
  exists audit,
    is_audit_attempt actions result audit /\
    w_trace (snd (log_execution actions result w)) = w_trace w ++ [audit] /\
    w_stdin (snd (log_execution actions result w)) = w_stdin w /\
    match audit with
    | EvWrite _ _ => fst (log_execution actions result w) = inr tt
    | _ => exists e, fst (log_execution actions result w) = inl e
    end.
Proof.
  unfold log_execution, mbind, io_bind, now, write_file, next_op, log_event.
  cbn [w_fault w_ops w_clock w_ticks w_trace w_stdin w_read].
  destruct (w_fault w (w_ops w)) as [e|]; cbn; eexists;
    (split; [|eauto]); eexists; (split; [|eauto]); by vm_compute.
Qed.

(** *** The batch, operation by operation *)

Lemma advanced_nil (w : World) : Spec2.advanced 0 0 [] w = w.
Proof.
  destruct w. unfold Spec2.advanced. cbn. f_equal; [lia|lia|apply app_nil_r].
Qed.

Lemma advanced_advanced t1 o1 e1 t2 o2 e2 (w : World) :
  Spec2.advanced t2 o2 e2 (Spec2.advanced t1 o1 e1 w)
  = Spec2.advanced (t1 + t2) (o1 + o2) (e1 ++ e2) w.
Proof.
  unfold Spec2.advanced. cbn. f_equal; [lia|lia|by rewrite app_assoc].
Qed.

Lemma advanced_eq t o e t' o' e' (w : World) :
  t = t' -> o = o' -> e = e' -> Spec2.advanced t o e w = Spec2.advanced t' o' e' w.
Proof. by intros -> -> ->. Qed.

(** One action: the clock is read twice, then the file is written, or the
    write fails and the failure is caught. *)
Lemma execute_one_state (a : Action) (result : AnalysisOutcome) (w : World) :
  exists ev,
    Spec2.is_artifact_event w 0 a ev /\
    execute_one a result w = (inr tt, Spec2.advanced 2 1 [ev] w).
Proof.
  unfold Spec2.is_artifact_event, Spec2.artifact_path.
  replace (w_ops w + 0) with (w_ops w) by lia.
  replace (w_ticks w + 2 * 0) with (w_ticks w) by lia.
  unfold execute_one, try_io.
  destruct a as [description reply recipient|description task priority];
    unfold execute_send_reply, execute_create_task, mbind, io_bind, now,
           write_file, next_op, log_event;
    cbn [w_fault w_ops w_clock w_ticks w_trace w_stdin w_read];
    destruct (w_fault w (w_ops w)) as [e|];
    (eexists; split; [try eexists; reflexivity|]);
    unfold mret, io_ret, Spec2.advanced; cbn; do 2 f_equal; lia.
Qed.

Lemma execute_loop_state (actions : list Action) (result : AnalysisOutcome) :
  forall w : World,
  exists events,
    length events = length actions /\
    (forall k a, actions !! k = Some a ->
       exists ev, events !! k = Some ev /\ Spec2.is_artifact_event w k a ev) /\
    execute_loop actions result w
    = (inr tt, Spec2.advanced (2 * length actions) (length actions) events w).
Proof.
  induction actions as [|a actions IH]; intros w.
  - exists []. split; [done|]. split; [done|]. cbn. by rewrite advanced_nil.
  - destruct (execute_one_state a result w) as (ev & Hev & Hone).
    cbn [execute_loop]. unfold mbind, io_bind. rewrite Hone.
    destruct (IH (Spec2.advanced 2 1 [ev] w)) as (events & Hlen & Hevents & ->).
    exists (ev :: events). split; [cbn; by rewrite Hlen|]. split.
    + intros [|k] a' Hk; cbn in Hk.
      * injection Hk as <-. by exists ev.
      * destruct (Hevents k a' Hk) as (ev' & Hk' & Hart).
        exists ev'. split; [done|].
        unfold Spec2.is_artifact_event, Spec2.artifact_path, Spec2.advanced in *.
        cbn [w_fault w_ops w_ticks w_clock] in Hart.
        replace (w_ops w + S k) with (w_ops w + 1 + k) by lia.
        replace (w_ticks w + 2 * S k) with (w_ticks w + 2 + 2 * k) by lia.
        exact Hart.
    + rewrite advanced_advanced. f_equal.
      apply advanced_eq; [cbn [length]; lia|cbn [length]; lia|done].
Qed.

(** The audit: the clock is read twice, then the entry is written, or the
    write fails and the failure is raised. *)
Lemma log_execution_state (actions : list Action) (result : AnalysisOutcome) (w : World) :
  log_execution actions result w
  = (match w_fault w (w_ops w) with
     | None => inr tt
     | Some e => inl e
     end,
     Spec2.advanced 2 1
       [Spec2.audit_event_at actions result w (w_ticks w) (w_ops w)] w).
Proof.
  unfold log_execution, mbind, io_bind, now, write_file, next_op, log_event,
         Spec2.audit_event_at, Spec2.audit_path, Spec2.audit_entry_at, audit_entry.
  cbn [w_fault w_ops w_clock w_ticks w_trace w_stdin w_read].
  destruct (w_fault w (w_ops w)) as [e|];
    unfold Spec2.advanced; cbn; do 2 f_equal; lia.
Qed.

(** The file of an action is no audit entry. *)
Lemma artifact_event_not_logged (w : World) k (a : Action) (ev : Event) :
  Spec2.is_artifact_event w k a ev ->
  is_log_event ev = false /\ Spec2.logged [ev] = [].
Proof.
  unfold Spec2.is_artifact_event, Spec2.artifact_path.
  destruct (w_fault w (w_ops w + k)) as [e|]; [intros ->|intros [text ->]];
    by destruct a.
Qed.

End Execution.

(** [C9] [execute_actions] attempts every action of the batch, in order:
    the k-th action is one write of its file, which is done unless the
    file system fails at that operation, and a failure there does not stop
    the batch. After the last action comes the audit, as the last event of
    the call: one write into the logs directory of the JSON object with
    the timestamp, the sender, priority and category of the result, the
    number of actions of the batch, and the type and description of each
    action. Unless the file system fails at that operation, the entry is
    written and the call returns, so that exactly one audit entry is on
    disk for the batch; if it fails there, no entry is written and the
    call raises that failure. The call reads nothing from standard
    input. *)
Theorem execute_actions_audits_batch (D : DateTimeLib) (actions : list Action)
        (result : AnalysisOutcome) (w : World) :
  let n := length actions in
  let audit := Spec2.audit_event actions result w in
  exists events,
    length events = n /\
    (forall k a, actions !! k = Some a ->
       exists ev, events !! k = Some ev /\ Spec2.is_artifact_event w k a ev) /\
    Main.execute_actions actions result w
    = (match w_fault w (w_ops w + n) with
       | None => inr tt
       | Some e => inl e
       end,
       Spec2.advanced (2 * n + 2) (n + 1) (events ++ [audit]) w) /\
    Spec2.logged (events ++ [audit])
    = match w_fault w (w_ops w + n) with
      | None => [(Spec2.audit_path w (w_ticks w + 2 * n),
                  Spec.audit_entry (isoformat (w_clock w (w_ticks w + 2 * n + 1)))
                                   actions result)]
      | Some _ => []
      end /\
    filter (fun ev => Spec.is_log_event ev = true) (events ++ [audit]) = [audit].
Proof.
  intros n audit. subst n audit.
  destruct (execute_loop_state actions result w) as (events & Hlen & Hevents & Hloop).
  exists events. split; [done|]. split; [done|].
  assert (Forall (fun ev => Spec.is_log_event ev = false /\ Spec2.logged [ev] = [])
                 events) as Hartifacts.
  { apply Forall_lookup. intros k ev Hk.
    destruct (lookup_lt_is_Some_2 actions k) as [a Ha].
    { rewrite <- Hlen. by eapply lookup_lt_Some. }
    destruct (Hevents k a Ha) as (ev' & Hk' & Hart).
    rewrite Hk in Hk'. injection Hk' as <-.
    by eapply artifact_event_not_logged. }
  split; [|split].
  - unfold Main.execute_actions, mbind, io_bind. rewrite Hloop, log_execution_state.
    rewrite advanced_advanced. f_equal.
  - unfold Spec2.logged. rewrite omap_app. fold (Spec2.logged events).
    assert (Spec2.logged events = []) as ->.
    { clear -Hartifacts. induction Hartifacts as [|ev events [_ Hev] _ IH]; [done|].
      change (ev :: events) with ([ev] ++ events).
      unfold Spec2.logged in *. by rewrite omap_app, Hev, IH. }
    unfold Spec2.audit_event, Spec2.audit_event_at, Spec2.audit_entry_at.
    replace (w_ticks w + 2 * length actions + 1)
      with (S (w_ticks w + 2 * length actions)) by lia.
    by destruct (w_fault w (w_ops w + length actions)).
  - rewrite filter_app.
    assert (filter (fun ev => Spec.is_log_event ev = true) events = []) as ->.
    { clear -Hartifacts. induction Hartifacts as [|ev events [Hev _] _ IH]; [done|].
      rewrite filter_cons_False; [done|]. by rewrite Hev. }
    rewrite filter_cons_True; [done|].
    unfold Spec2.audit_event, Spec2.audit_event_at.
    by destruct (w_fault w (w_ops w + length actions)).
Qed.

(** ** A failed analysis *)

(** [C10] A failed analysis leaves the world as it was: no approval prompt,
    no reply draft, no task file, no audit log entry. When
    [analyze_with_skills] raises inside [process_message_file], the
    exception is caught there and nothing else has happened (nor is the file
    moved). The error payload of [analyze_message] has no [actions], so the
    approval step neither asks nor executes, and [approval_flow] itself
    returns the empty list without asking. *)
Theorem failed_analysis_has_no_effect :
  (forall (S : Skills) (D : DateTimeLib) file_path message e (w : World),
      w_read w file_path = inr message ->
      Main.analyze_with_skills
        message (Main.extract_sender (Main.path_name file_path) message) = inl e ->
      Main.process_message_file file_path w = (inr tt, w)) /\
  (forall (D : DateTimeLib) error message sender (w : World),
      Main.outcome_actions (AnalysisError error message sender) = None /\
      Main.approval_flow (AnalysisError error message sender) w = (inr [], w) /\
      Main.approve_and_execute (AnalysisError error message sender) w = (inr tt, w)) /\
  (forall (S : Skills) (C : ChatClient) (J : JsonLib) (D : DateTimeLib)
          message sender e (w : World),
      Agent.analyze_message_body message sender = inl e ->
      Main.approve_and_execute (Agent.analyze_message message sender) w = (inr tt, w)).
Proof.
  split; [|split].
  - intros S D file_path message e w Hread Hfail.
    unfold Main.process_message_file, IOPrim.try_io, IOPrim.read_file, IOPrim.lift,
           mbind, io_bind.
    by rewrite Hread, Hfail.
  - by intros D error message sender w.
  - intros S C J D message sender e w Hbody.
    by rewrite (analyze_message_catches _ _ _ Hbody).
Qed.

(** * Scenarios *)

Section Scenarios.
Import Spec Scenario.

(** [C6], as the specification states it, fails: the planning call asks
    for the priority detector, then for the categorizer with arguments
    that are no JSON, then for the categorizer again. The outcome is the
    error payload: the priority already collected is gone and the third
    call never ran. Without the broken call the same round yields the
    record with that priority. *)
Lemma parse_failure_loses_sibling_results :
  analyze [call_priority; call_broken; call_category] urgent_text (Some "ops")
  = AnalysisError "Expecting value: line 1 column 1 (char 0)" urgent_text (Some "ops")
  /\ exists r,
      analyze [call_priority; call_category] urgent_text (Some "ops") = Analysed r /\
      ar_priority r = "HIGH" /\ ar_category r = "other".
Proof.
  split; [by vm_compute|]. eexists. split; [by vm_compute|]. by vm_compute.
Qed.

(** The amended [C6] on that round. *)
Lemma parse_failure_aborts_round_witness :
  analyze [call_priority; call_broken; call_category] urgent_text (Some "ops")
  = AnalysisError "Expecting value: line 1 column 1 (char 0)" urgent_text (Some "ops").
Proof.
  apply (parse_failure_aborts_round
           (SK := skills)
           (CL := scripted_client [call_priority; call_broken; call_category])
           (JS := scenario_json)
           urgent_text (Some "ops")
           {| cm_content := None;
              cm_tool_calls := Some [call_priority; call_broken; call_category] |}
           [] [call_priority] call_broken [call_category]
           (Exn "JSONDecodeError" "Expecting value: line 1 column 1 (char 0)")).
  - reflexivity.
  - reflexivity.
  - constructor; [|constructor]. eexists. by vm_compute.
  - by vm_compute.
Defined.



(** [C3], as the specification states it, fails: the answer "y" is no
    spelling of "yes", and the gate approves on it. *)
Lemma gate_approves_on_y :
  fst (Main.approval_flow (Analysed (record [reply_action])) (world ["y"] []))
  = inr [reply_action]
  /\ fst (Main.approval_flow (Analysed (record [reply_action])) (world [" Y "] []))
     = inr [reply_action]
  /\ Py.lower (Py.strip "y") = "y" /\ Py.lower (Py.strip " Y ") = "y".
Proof. by vm_compute. Qed.

(** The amended [C3] on three actions: a rejection, a "YES", a blank
    line; and on a reject-first run. *)
Lemma approval_gate_filters_witness :
  Main.approval_flow (Analysed (record [reply_action; task_action1; task_action2]))
                     (world ["no"; "YES"; " "; "later"] [])
  = (inr [task_action1; task_action2], answered 3 ["later"] (world ["no"; "YES"; " "; "later"] []))
  /\ Main.approval_flow (Analysed (record [reply_action; task_action1; task_action2]))
                        (world ["n"; ""; ""] [])
     = (inr [task_action1; task_action2], answered 3 [] (world ["n"; ""; ""] []))
  /\ Main.approval_flow (Analysed (record [reply_action; task_action1]))
                        (world [""; ""] [])
     = (inr [reply_action; task_action1], answered 2 [] (world [""; ""] [])).
Proof.
  destruct approval_gate_filters as (_ & Hflow & Hempty & Hfirst).
  split; [|split].
  - apply (Hflow counting_clock
                 (record [reply_action; task_action1; task_action2])
                 [(reply_action, "no"); (task_action1, "YES"); (task_action2, " ")]
                 ["later"]); reflexivity.
  - apply (Hfirst counting_clock
                  (record [reply_action; task_action1; task_action2])
                  reply_action [task_action1; task_action2] "n" []); reflexivity.
  - apply (Hempty counting_clock (record [reply_action; task_action1]) []); reflexivity.
Defined.


(** [C8] on two records that differ in their message only. *)
Lemma determine_actions_idempotent_witness :
  Agent._determine_actions (record [])
  = Agent._determine_actions (set_actions (record []) [reply_action]).
Proof.
  destruct determine_actions_idempotent as (Hreads & _).
  apply Hreads; reflexivity.
Defined.

(** [C4] on a planning call that fails in transport, on a tool call whose
    arguments are no JSON, and on a synthesis call that times out. *)
Lemma analyze_message_contains_exceptions_witness :
  Agent.analyze_message (SK := skills) (CL := offline_client) (JS := scenario_json)
                        urgent_text None
  = AnalysisError "Connection error." urgent_text None
  /\ analyze [call_priority; call_broken] urgent_text (Some "ops")
     = AnalysisError "Expecting value: line 1 column 1 (char 0)" urgent_text (Some "ops")
  /\ Agent.analyze_message (SK := skills) (CL := half_client [call_priority])
                           (JS := scenario_json) urgent_text (Some "ops")
     = AnalysisError "Request timed out." urgent_text (Some "ops").
Proof.
  split; [|split].
  - destruct (analyze_message_contains_exceptions
                (SK := skills) (CL := offline_client) (JS := scenario_json)
                urgent_text None) as (_ & Hplan & _).
    apply (Hplan (Exn "APIConnectionError" "Connection error.")). reflexivity.
  - destruct (analyze_message_contains_exceptions
                (SK := skills) (CL := scripted_client [call_priority; call_broken])
                (JS := scenario_json) urgent_text (Some "ops"))
      as (_ & _ & _ & Hparse & _).
    apply (Hparse {| cm_content := None;
                     cm_tool_calls := Some [call_priority; call_broken] |}
                  [] [call_priority] call_broken []
                  (Exn "JSONDecodeError" "Expecting value: line 1 column 1 (char 0)")).
    + reflexivity.
    + reflexivity.
    + constructor; [|constructor]. eexists. by vm_compute.
    + by vm_compute.
  - destruct (analyze_message_contains_exceptions
                (SK := skills) (CL := half_client [call_priority])
                (JS := scenario_json) urgent_text (Some "ops"))
      as (_ & _ & _ & _ & Hsyn & _).
    eapply (Hsyn {| cm_content := None; cm_tool_calls := Some [call_priority] |}
                 [] [call_priority] _ _ (Exn "APITimeoutError" "Request timed out.")).
    + reflexivity.
    + reflexivity.
    + discriminate.
    + by vm_compute.
    + reflexivity.
Defined.

(** [C5] on a name that is not registered, and on the priority detector
    called with a keyword it does not have. *)
Lemma execute_tool_contains_failures_witness :
  Tools.execute_tool (SK := skills) "translator" (PDict [("content", PStr "hello")])
  = ErrorResult "Unknown tool: translator"
  /\ Tools.execute_tool (SK := skills) "priority_detector" (PDict [("text", PStr "hello")])
     = ErrorResult "priority_detector_tool() got an unexpected keyword argument 'text'"
  /\ Tools.execute_tool (SK := skills) "categorizer" (PDict [("content", PInt 7)])
     = ErrorResult "'int' object has no attribute 'lower'".
Proof.
  destruct execute_tool_contains_failures as (_ & Hunknown & _ & Hraise).
  split; [|split].
  - apply (Hunknown skills). unfold TOOL_NAMES.
    rewrite !elem_of_cons, elem_of_nil.
    intros Hin; repeat (destruct Hin as [Hin|Hin]; [discriminate Hin|]); exact Hin.
  - eapply (Hraise no_regex "priority_detector" _
                   (PDict [("text", PStr "hello")])
                   (TypeError "priority_detector_tool() got an unexpected keyword argument 'text'")).
    + unfold Tools.TOOLS. do 3 apply list_elem_of_further. apply list_elem_of_here.
    + reflexivity.
  - eapply (Hraise no_regex "categorizer" _
                   (PDict [("content", PInt 7)])
                   (AttributeError (PInt 7) "lower")).
    + unfold Tools.TOOLS. do 4 apply list_elem_of_further. apply list_elem_of_here.
    + reflexivity.
Defined.

(** [C9] on a batch of two whose first write fails: the reply draft is not
    written, the task file is, and the one audit entry names both. *)
Lemma execute_actions_audits_batch_witness :
  Spec2.logged (w_trace (snd (Main.execute_actions [reply_action; task_action1]
                                (Analysed (record [])) (world [] [0]))))
  = [("vault/logs/execution_4.json",
      {| log_timestamp := "5";
         log_sender := Some "Jane Doe";
         log_priority := Some "HIGH";
         log_category := Some "work";
         log_actions_executed := 2;
         log_actions :=
           [{| la_type := "send_reply"; la_description := "Send suggested reply" |};
            {| la_type := "create_task";
               la_description := "Create task: review the report" |}] |})].
Proof.
  destruct (execute_actions_audits_batch
              counting_clock [reply_action; task_action1] (Analysed (record []))
              (world [] [0])) as (events & _ & _ & Hcall & Hlogged & _).
  rewrite Hcall. exact Hlogged.
Defined.

(** [C10] on a message file whose analysis raises, and on the error
    payload of an agent that cannot reach its model. *)
Lemma failed_analysis_has_no_effect_witness :
  Main.process_message_file (SK := failing_skills)
                            "vault/inbox/note_from_jane_doe.txt" (world ["y"; "y"] [])
  = (inr tt, world ["y"; "y"] [])
  /\ Main.approve_and_execute
       (Agent.analyze_message (SK := skills) (CL := offline_client) (JS := scenario_json)
                              urgent_text None)
       (world ["y"; "y"] [])
     = (inr tt, world ["y"; "y"] []).
Proof.
  destruct failed_analysis_has_no_effect as (Hfile & _ & Hagent).
  split.
  - apply (Hfile failing_skills counting_clock
                 "vault/inbox/note_from_jane_doe.txt"
                 "Please review the report by tomorrow."
                 (Exn "RuntimeError" "summarizer unavailable")); reflexivity.
  - apply (Hagent skills offline_client scenario_json counting_clock
                  urgent_text None (Exn "APIConnectionError" "Connection error.")).
    reflexivity.
Defined.

End Scenarios.

(** * Further properties of the code *)

(** ** The analyzers *)

Section PriorityDetector.
Import RealSkills.

Lemma lower_char_idem (c : ascii) : Py.lower_char (Py.lower_char c) = Py.lower_char c.
Proof.
  destruct c as [[] [] [] [] [] [] [] []]; reflexivity.
Qed.

Lemma lower_idem (s : string) : Py.lower (Py.lower s) = Py.lower s.
Proof. induction s as [|c s IH]; [done|]. cbn. by rewrite lower_char_idem, IH. Qed.

(** [X1] The structured priority is decided by the two indicator counts of the
    lowered text alone: HIGH when the urgent indicators outnumber the low
    ones, LOW when the low ones outnumber the urgent ones, MEDIUM on a tie.
    The time-sensitive words, which only turn "normal" into
    "normal_urgent", never change it. *)
Theorem priority_label_by_counts (content : string) :
  let urgent := count_present urgent_indicators (Py.lower content) in
  let low := count_present low_indicators (Py.lower content) in
  get_priority (detect_priority_str content)
  = Some (if (low <? urgent)%nat then "HIGH"
          else if (urgent <? low)%nat then "LOW" else "MEDIUM").
Proof.
  unfold detect_priority_str.
  destruct (_ <? _)%nat; [|destruct (_ <? _)%nat];
    destruct (2 <? _)%nat; reflexivity.
Qed.

Lemma count_present_le (l : list string) (text : string) :
  count_present l text <= length l.
Proof. unfold count_present. apply length_filter. Qed.

(** [X2] The confidence of the priority detector lies between 0.6 and 1. *)
Theorem priority_confidence_bounds (content : string) :
  exists p confidence reasoning,
    detect_priority_str content = PriorityResult p confidence reasoning /\
    (0.6 <=? confidence)%float = true /\ (confidence <=? 1.0)%float = true.
Proof.
  unfold detect_priority_str.
  pose proof (count_present_le urgent_indicators (Py.lower content)) as Hu.
  pose proof (count_present_le low_indicators (Py.lower content)) as Hl.
  set (u := count_present urgent_indicators (Py.lower content)) in *.
  set (l := count_present low_indicators (Py.lower content)) in *.
  set (t := length (filter _ (Py.split_ws content))).
  clearbody u l t. cbn [length urgent_indicators low_indicators] in Hu, Hl.
  destruct (2 <? t)%nat;
    (destruct u as [|[|[|[|[|[|[|[|[|[|[|[|[|[|[|[|u]]]]]]]]]]]]]]]]; [..|lia]);
    (destruct l as [|[|[|[|[|[|[|[|[|[|l]]]]]]]]]]; [..|lia]);
    eexists _, _, _; (split; [reflexivity|]); by vm_compute.
Qed.

(** *** Letter case *)

Lemma is_space_lower_char (c : ascii) : Py.is_space (Py.lower_char c) = Py.is_space c.
Proof.
  destruct c as [[] [] [] [] [] [] [] []]; reflexivity.
Qed.

Lemma rev_app_lower (s1 s2 : string) :
  String.rev_app (Py.lower s1) (Py.lower s2) = Py.lower (String.rev_app s1 s2).
Proof.
  revert s2. induction s1 as [|c s1 IH]; intros s2; [done|].
  cbn. by rewrite <- IH.
Qed.

Lemma rev_lower (s : string) : String.rev (Py.lower s) = Py.lower (String.rev s).
Proof. apply (rev_app_lower s ""). Qed.

Lemma split_ws_go_lower (s : string) (cur : option string) :
  Py.split_ws_go (Py.lower <$> cur) (Py.lower s) = map Py.lower (Py.split_ws_go cur s).
Proof.
  revert cur. induction s as [|c s IH]; intros cur.
  - destruct cur as [cur|]; cbn; [|done]. by rewrite rev_lower.
  - cbn [Py.lower Py.split_ws_go]. rewrite is_space_lower_char.
    destruct (Py.is_space c).
    + rewrite map_app. rewrite <- (IH None).
      destruct cur as [cur|]; cbn; [|done]. by rewrite rev_lower.
    + rewrite <- IH. by destruct cur.
Qed.

(** The words of the lowered text are the lowered words of the text. *)
Lemma split_ws_lower (s : string) :
  Py.split_ws (Py.lower s) = map Py.lower (Py.split_ws s).
Proof. apply (split_ws_go_lower s None). Qed.

Lemma time_sensitive_count_lower (words : list string) :
  length (filter (fun word => Py.lower word ∈ time_sensitive_words) words)
  = length (filter (fun word => word ∈ time_sensitive_words) (map Py.lower words)).
Proof.
  induction words as [|x l IH]; [done|]. cbn [map].
  destruct (decide (Py.lower x ∈ time_sensitive_words)).
  - rewrite !filter_cons_True by done. cbn. by rewrite IH.
  - by rewrite !filter_cons_False by done.
Qed.

(** [X3] The three analyzers that work on the lowered text are blind to letter
    case: two texts that differ in the case of their letters only get the
    same priority result, the same category result and the same reply
    suggestions, confidence and reasoning included. *)
Theorem analyzers_ignore_letter_case (content content' : string) (sender : pyval) :
  Py.lower content = Py.lower content' ->
  detect_priority_str content = detect_priority_str content' /\
  categorize_content_str content = categorize_content_str content' /\
  suggest_reply_str content sender = suggest_reply_str content' sender.
Proof.
  intros Hlower.
  assert (map Py.lower (Py.split_ws content) = map Py.lower (Py.split_ws content'))
    as Hwords by (by rewrite <- !split_ws_lower, Hlower).
  split; [|split].
  - unfold detect_priority_str. rewrite Hlower.
    rewrite !time_sensitive_count_lower.
    by rewrite Hwords.
  - unfold categorize_content_str. rewrite Hlower.
    assert (length (Py.split_ws content) = length (Py.split_ws content')) as ->; [|done].
    by rewrite <- (length_map Py.lower), Hwords, length_map.
  - unfold suggest_reply_str. by rewrite Hlower.
Qed.

End PriorityDetector.

Section Categorizer.
Import RealSkills.

(** [max] returns the first entry whose score is maximal. *)
Lemma max_by_score_first_max (rest : list (string * nat)) :
  forall best, exists before after,
    best :: rest = before ++ max_by_score best rest :: after /\
    Forall (fun p => snd p < snd (max_by_score best rest)) before /\
    Forall (fun p => snd p <= snd (max_by_score best rest)) after.
Proof.
  induction rest as [|[c n] rest IH]; intros best.
  - exists [], []. by repeat split.
  - cbn [max_by_score]. destruct (snd best <? n)%nat eqn:E.
    + apply Nat.ltb_lt in E.
      destruct (IH (c, n)) as (before & after & Heq & Hb & Ha).
      exists (best :: before), after. split; [cbn; by rewrite <- Heq|].
      split; [|done]. constructor; [|done].
      assert (n <= snd (max_by_score (c, n) rest)); [|lia].
      destruct before as [|b before].
      * cbn in Heq. injection Heq as Hm _. rewrite <- Hm. cbn. lia.
      * cbn in Heq. injection Heq as Hm _. apply Forall_cons in Hb as [Hb _].
        rewrite <- Hm in Hb. cbn in Hb. lia.
    + apply Nat.ltb_ge in E.
      destruct (IH best) as (before & after & Heq & Hb & Ha).
      destruct before as [|b before]; cbn in Heq.
      * injection Heq as Hm <-. exists [], ((c, n) :: rest).
        split; [cbn; by rewrite <- Hm|]. split; [done|].
        constructor; [cbn; rewrite <- Hm; lia|done].
      * injection Heq as Hbest Hrest. subst b.
        exists (best :: (c, n) :: before), after.
        split; [cbn [app]; by do 2 f_equal|]. split; [|done].
        apply Forall_cons in Hb as [Hb1 Hb2].
        constructor; [done|]. constructor; [cbn; lia|done].
Qed.

(** [X4] A category other than "other" is the first of work, personal, study,
    finance whose keyword score is the largest, and that score is not
    zero; a text in which no keyword occurs is "other" with confidence
    0.3. *)
Theorem category_is_first_maximum (content : string) :
  (forall c, get_category (categorize_content_str content) = Some c ->
     c = "other" \/
     exists before n after,
       category_scores (Py.lower content) = before ++ (c, n) :: after /\
       0 < n /\
       Forall (fun p => snd p < n) before /\
       Forall (fun p => snd p <= n) after) /\
  (Forall (fun p => snd p = 0) (category_scores (Py.lower content)) ->
   exists reasoning,
     categorize_content_str content = CategoryResult "other" 0.3%float reasoning).
Proof.
  unfold categorize_content_str.
  destruct (category_scores (Py.lower content)) as [|first rest] eqn:Hscores; [done|].
  destruct (max_by_score_first_max rest first) as (before & after & Heq & Hb & Ha).
  destruct (max_by_score first rest) as [max_category max_score].
  cbn [snd] in Hb, Ha. split.
  - intros c. destruct (max_score =? 0)%nat eqn:E0; [intros [= <-]; by left|].
    apply Nat.eqb_neq in E0.
    assert (c = max_category -> c = "other" \/
            exists before n after,
              first :: rest = before ++ (c, n) :: after /\ 0 < n /\
              Forall (fun p => snd p < n) before /\
              Forall (fun p => snd p <= n) after) as Hmax.
    { intros ->. right. exists before, max_score, after. repeat split; [done|lia|done..]. }
    destruct (PrimFloat.ltb _ 0.2); [destruct (PrimFloat.ltb _ _)|];
      intros [= <-]; auto.
  - intros Hzero. rewrite Heq in Hzero.
    apply Forall_app in Hzero as [_ Hzero]. apply Forall_cons in Hzero as [Hzero _].
    cbn in Hzero. subst max_score. cbn. by eexists.
Qed.

End Categorizer.

Section ReplySuggester.
Import RealSkills.

Lemma reply_message_type_range (content_lower : string) :
  reply_message_type content_lower
  ∈ ["greeting"; "request"; "problem"; "urgent"; "question";
     "meeting"; "appreciation"; "compliment"; "general"].
Proof.
  unfold reply_message_type.
  repeat match goal with
         | |- context [any_in ?l ?t] => destruct (any_in l t)
         end; in_list.
Qed.

(** There is always a first suggestion, and it is not empty. *)
Lemma suggest_reply_first (content : string) (sender : pyval) :
  exists message_type first rest raw,
    suggest_reply_str content sender = ReplyResult message_type (first :: rest) sender raw /\
    str_truthy first = true.
Proof.
  unfold suggest_reply_str.
  pose proof (reply_message_type_range (Py.lower content)) as Htype.
  set (message_type := reply_message_type (Py.lower content)) in *.
  clearbody message_type.
  rewrite !elem_of_cons, elem_of_nil in Htype.
  destruct Htype as [->|[->|[->|[->|[->|[->|[->|[->|[->|[]]]]]]]]]];
    by eexists _, _, _, _.
Qed.

(** [X5] The reply suggester always returns exactly three suggestions, the
    first three templates of the detected message type, and the first of
    them is not empty: a message analysed by it always has a suggested
    reply. *)
Theorem suggest_reply_three (content : string) (sender : pyval) :
  exists first second third,
    suggest_reply_str content sender
    = ReplyResult (reply_message_type (Py.lower content)) [first; second; third] sender
                  (reply_suggestions (reply_message_type (Py.lower content))) /\
    str_truthy first = true /\
    [first; second; third]
      `prefix_of` reply_suggestions (reply_message_type (Py.lower content)).
Proof.
  unfold suggest_reply_str.
  pose proof (reply_message_type_range (Py.lower content)) as Htype.
  set (message_type := reply_message_type (Py.lower content)) in *.
  clearbody message_type.
  rewrite !elem_of_cons, elem_of_nil in Htype.
  destruct Htype as [->|[->|[->|[->|[->|[->|[->|[->|[->|[]]]]]]]]]];
    (eexists _, _, _; split; [reflexivity|]; split; [reflexivity|]);
    eexists; reflexivity.
Qed.

End ReplySuggester.

Section TaskExtractor.
Import RealSkills.
Context {TL : TextLib}.

Lemma slice_to_length (n : nat) (s : string) : String.length (Py.slice_to n s) <= n.
Proof.
  revert s. induction n as [|n IH]; intros [|c s]; cbn; try lia.
  specialize (IH s). lia.
Qed.

Lemma slice_to_prefix (n : nat) (s : string) : Py.startswith s (Py.slice_to n s) = true.
Proof.
  revert s. induction n as [|n IH]; intros [|c s]; cbn; try done.
  by rewrite Ascii.eqb_refl, IH.
Qed.

(** [X6] What the task extractor returns: the count is the number of tasks; the
    i-th descriptor has index i (from 0), the i-th raw task as its
    description, the first 100 characters of it as its title, and one of
    the priorities urgent, high, normal. *)
Theorem extracted_tasks_structure (content : string) :
  exists tasks raw_tasks,
    extract_tasks_str content = TasksResult tasks (length raw_tasks) raw_tasks /\
    length tasks = length raw_tasks /\
    forall i raw, raw_tasks !! i = Some raw ->
      exists priority,
        tasks !! i = Some (TaskDesc {| td_title := Py.slice_to 100 raw;
                                       td_description := raw;
                                       td_priority := priority;
                                       td_index := i |}) /\
        priority ∈ ["urgent"; "high"; "normal"] /\
        String.length (Py.slice_to 100 raw) <= 100 /\
        Py.startswith raw (Py.slice_to 100 raw) = true.
Proof.
  unfold extract_tasks_str.
  set (raw_tasks := task_sentences _ _). clearbody raw_tasks.
  exists (imap structure_task raw_tasks), raw_tasks.
  rewrite length_imap. split; [done|]. split; [done|].
  intros i raw Hraw. rewrite list_lookup_imap, Hraw. cbn [fmap option_fmap option_map].
  unfold structure_task. eexists. split; [reflexivity|].
  split; [|split; [apply slice_to_length|apply slice_to_prefix]].
  destruct (any_in _ _); [in_list|]. destruct (any_in _ _); in_list.
Qed.

(** [X7] The pass over the sentences keeps the tasks found in the lines, in
    their order, and adds behind them only texts that are not yet in the
    list, each once. *)
Theorem task_sentences_adds_new_only (sentences potential_tasks : list string) :
  exists added,
    task_sentences potential_tasks sentences = potential_tasks ++ added /\
    NoDup added /\
    Forall (fun task => task ∉ potential_tasks) added.
Proof.
  revert potential_tasks.
  induction sentences as [|sentence sentences IH]; intros potential_tasks.
  - exists []. cbn. rewrite app_nil_r. repeat split; constructor.
  - unfold task_sentences in *. cbn [foldl].
    destruct (10 <? String.length (Py.strip sentence))%nat; [|apply IH].
    destruct (any_in task_indicators (Py.lower (Py.strip sentence))
              && re_search "(by|before|tomorrow|today|due)" (Py.strip sentence));
      [|apply IH].
    case_bool_decide as Hin; [apply IH|].
    destruct (IH (potential_tasks ++ [re_sub "^[-*•]\s*" "" (Py.strip sentence)]))
      as (added & -> & Hnodup & Hnew).
    eexists (_ :: added). split; [by rewrite <- app_assoc|].
    split.
    + constructor; [|done]. intros Hadded.
      rewrite Forall_forall in Hnew. apply (Hnew _ Hadded).
      apply elem_of_app. right. by apply list_elem_of_singleton.
    + constructor; [done|].
      eapply Forall_impl; [exact Hnew|]. intros task Htask Hpt.
      apply Htask, elem_of_app. by left.
Qed.

End TaskExtractor.

Section Summarizer.
Import RealSkills.
Context {TL : TextLib}.

Lemma common_words_short (w : string) : w ∈ common_words -> String.length w <= 4.
Proof. unfold common_words. rewrite !elem_of_cons, elem_of_nil. intuition (subst; cbn; lia). Qed.

(** [X8] The keywords of a summary are the first five words of more than four
    characters, in the order in which the set of lowered words is iterated.
    The list of common words removes nothing: none of them has more than
    four characters. *)
Theorem summary_keywords (content : string) :
  exists summary key_points keywords,
    generate_summary_str content = SummaryResult summary key_points keywords /\
    keywords = take 5 (filter (fun w => 4 < String.length w)
                              (set_order (Py.split_ws (Py.lower content)))) /\
    length keywords <= 5 /\
    Forall (fun w => 4 < String.length w /\ w ∉ common_words) keywords.
Proof.
  unfold generate_summary_str. destruct (summary_loop _) as [key_points summary_lines].
  eexists _, _, _. split; [reflexivity|].
  set (words := set_order _). clearbody words.
  assert (filter (fun w => (4 < String.length w)%nat ∧ w ∉ common_words) words
          = filter (fun w => 4 < String.length w) words) as ->.
  { apply list_filter_iff. intros w. split; [tauto|].
    intros Hlen. split; [done|]. intros Hc%common_words_short. lia. }
  split; [done|]. split; [apply firstn_le_length|].
  apply Forall_forall. intros w Hw.
  apply elem_of_take in Hw as (i & Hw & _).
  apply list_elem_of_lookup_2 in Hw. apply list_elem_of_filter in Hw as [Hlen _].
  split; [done|]. intros Hc%common_words_short. lia.
Qed.

End Summarizer.

(** ** The direct path, with the analyzers of the repository *)

Section DirectPath.
Import RealSkills.
Context {TL : TextLib}.

Lemma map_imap_title {B} (f : string -> B) (g : nat -> string -> Task)
      (raw_tasks : list string) :
  (forall i raw, Main.task_title (g i raw) = Py.slice_to 100 raw) ->
  map (fun task => f (Main.task_title task)) (imap g raw_tasks)
  = map (fun raw => f (Py.slice_to 100 raw)) raw_tasks.
Proof.
  revert g. induction raw_tasks as [|raw raw_tasks IH]; intros g Hg; [done|].
  cbn [imap map]. rewrite Hg. f_equal. apply IH. intros i raw'. apply Hg.
Qed.

(** The direct path always returns, with an action to decide on. *)
Lemma direct_analysis_proposes (message sender : string) :
  exists r action actions,
    Main.analyze_with_skills (SK := real_skills) message sender = inr r /\
    ar_actions r = action :: actions.
Proof.
  unfold Main.analyze_with_skills.
  cbn [summarize_content detect_priority categorize_content suggest_reply
       extract_tasks real_skills summarize_content_impl detect_priority_impl
       categorize_content_impl suggest_reply_impl extract_tasks_impl
       mbind result_bind mret result_ret].
  destruct (suggest_reply_first message (PStr sender))
    as (message_type & first & rest & raw & -> & Hfirst).
  eexists _, _, _. split; [reflexivity|].
  cbn [set_actions ar_actions ar_suggested_reply ar_tasks ar_priority
       get_suggestions get_tasks default].
  rewrite Hfirst.
  rewrite (foldl_append_map
             (fun task => CreateTask ("Create task: " +:+ Main.task_title task)
                                     (TaskText (Main.task_title task))
                                     (default "MEDIUM"
                                        (get_priority (detect_priority_str message))))).
  reflexivity.
Qed.

(** [X9] Analysing a message with the analyzers of the repository always
    proposes a reply to the sender first, and then one task per extracted
    task, named by the first 100 characters of the task and carrying the
    priority of the message, not that of the task. The list of actions is
    never empty. *)
Theorem direct_analysis_actions (message sender : string) :
  exists r reply tasks raw_tasks,
    Main.analyze_with_skills (SK := real_skills) message sender = inr r /\
    extract_tasks_str message = TasksResult tasks (length raw_tasks) raw_tasks /\
    ar_suggested_reply r = Some reply /\
    ar_actions r
    = SendReply "Send suggested reply" reply sender
      :: map (fun raw => CreateTask ("Create task: " +:+ Py.slice_to 100 raw)
                                    (TaskText (Py.slice_to 100 raw))
                                    (ar_priority r))
             raw_tasks.
Proof.
  unfold Main.analyze_with_skills.
  cbn [summarize_content detect_priority categorize_content suggest_reply
       extract_tasks real_skills summarize_content_impl detect_priority_impl
       categorize_content_impl suggest_reply_impl extract_tasks_impl
       mbind result_bind mret result_ret].
  destruct (suggest_reply_first message (PStr sender))
    as (message_type & first & rest & raw & -> & Hfirst).
  unfold extract_tasks_str.
  set (raw_tasks := task_sentences _ _). clearbody raw_tasks.
  eexists _, first, _, raw_tasks. split; [reflexivity|].
  rewrite length_imap. split; [reflexivity|].
  cbn [set_actions ar_actions ar_suggested_reply ar_tasks ar_priority
       get_suggestions get_tasks default].
  split; [done|]. rewrite Hfirst.
  rewrite (foldl_append_map
             (fun task => CreateTask ("Create task: " +:+ Main.task_title task)
                                     (TaskText (Main.task_title task))
                                     (default "MEDIUM"
                                        (get_priority (detect_priority_str message))))).
  cbn [app]. f_equal. unfold id.
  exact (map_imap_title
           (fun title => CreateTask ("Create task: " +:+ title) (TaskText title)
                           (default "MEDIUM" (get_priority (detect_priority_str message))))
           structure_task raw_tasks (fun _ _ => eq_refl)).
Qed.

(** [X10] The reply suggester looks for its keywords anywhere in the text, and
    for the greetings first: a message in which the letters "hi" occur,
    be it inside a word, is answered as a greeting, whatever else it
    says. *)
Theorem greeting_reply_on_any_hi (message sender : string) :
  Py.contains "hi" (Py.lower message) = true ->
  exists r rest,
    Main.analyze_with_skills (SK := real_skills) message sender = inr r /\
    ar_suggested_reply r = Some "Hello! How can I help you today?" /\
    ar_actions r
    = SendReply "Send suggested reply" "Hello! How can I help you today?" sender :: rest.
Proof.
  intros Hhi. unfold Main.analyze_with_skills.
  cbn [summarize_content detect_priority categorize_content suggest_reply
       extract_tasks real_skills summarize_content_impl detect_priority_impl
       categorize_content_impl suggest_reply_impl extract_tasks_impl
       mbind result_bind mret result_ret].
  assert (reply_message_type (Py.lower message) = "greeting") as Htype.
  { unfold reply_message_type, any_in. cbn [existsb]. by rewrite Hhi. }
  unfold suggest_reply_str. rewrite Htype.
  eexists _, _. split; [reflexivity|].
  cbn [set_actions ar_actions ar_suggested_reply ar_tasks ar_priority
       get_suggestions get_tasks default reply_suggestions String.eqb Ascii.eqb
       Bool.eqb take].
  split; [reflexivity|].
  rewrite (foldl_append_map
             (fun task => CreateTask ("Create task: " +:+ Main.task_title task)
                                     (TaskText (Main.task_title task))
                                     (default "MEDIUM"
                                        (get_priority (detect_priority_str message))))).
  reflexivity.
Qed.

End DirectPath.

(** ** The tool registry *)

Section ToolCalls.
Import Spec Spec2 Tools RealSkills.
Context {TL : TextLib}.

Lemma call_kwargs_dict fname params d :
  (forallb (fun kv => has_param params (fst kv)) d = true /\
   call_kwargs fname params (PDict d) = bind_params fname params d) \/
  (forallb (fun kv => has_param params (fst kv)) d = false /\
   exists e, call_kwargs fname params (PDict d) = inl e).
Proof.
  unfold call_kwargs.
  destruct (filter _ d) as [|[k v] rest] eqn:Hfilter.
  - left. split; [|done]. apply forallb_forall. intros kv Hkv%list_elem_of_In.
    destruct (has_param params (fst kv)) eqn:E; [done|].
    assert (kv ∈ filter (fun kv => has_param params (fst kv) = false) d) as Hin
      by (by apply list_elem_of_filter).
    rewrite Hfilter in Hin. by apply elem_of_nil in Hin.
  - right. split; [|by eexists].
    assert ((k, v) ∈ filter (fun kv => has_param params (fst kv) = false) d) as Hin
      by (rewrite Hfilter; left).
    apply list_elem_of_filter in Hin as [Hk Hin%list_elem_of_In].
    destruct (forallb _ d) eqn:E; [|done].
    rewrite forallb_forall in E. specialize (E _ Hin). cbn in *. congruence.
Qed.

Lemma allowed_content (d : list (string * pyval)) :
  forallb (fun kv => has_param [("content", None)] (fst kv)) d
  = forallb (fun kv => bool_decide (fst kv ∈ ["content"])) d.
Proof.
  induction d as [|[k v] d IH]; [done|]. cbn [forallb fst]. rewrite IH. f_equal.
  unfold has_param. cbn [existsb fst]. rewrite orb_false_r.
  destruct (String.eqb_spec "content" k) as [<-|Hne].
  - symmetry. apply bool_decide_eq_true. left.
  - symmetry. apply bool_decide_eq_false. rewrite list_elem_of_singleton. congruence.
Qed.

Lemma allowed_content_sender (d : list (string * pyval)) :
  forallb (fun kv => has_param [("content", None); ("sender", Some PNone)] (fst kv)) d
  = forallb (fun kv => bool_decide (fst kv ∈ ["content"; "sender"])) d.
Proof.
  induction d as [|[k v] d IH]; [done|]. cbn [forallb fst]. rewrite IH. f_equal.
  unfold has_param. cbn [existsb fst]. rewrite orb_false_r.
  destruct (String.eqb_spec "content" k) as [<-|Hne];
    [symmetry; apply bool_decide_eq_true; left|].
  destruct (String.eqb_spec "sender" k) as [<-|Hne'].
  - symmetry. apply bool_decide_eq_true. right. left.
  - symmetry. apply bool_decide_eq_false. rewrite !elem_of_cons, elem_of_nil.
    intuition congruence.
Qed.

(** [X11] Over the analyzers of the repository a tool call runs its analyzer
    exactly when its arguments are well formed: a JSON object whose only
    key is [content] (for the reply suggester also [sender], of any type)
    and whose [content] is a string. The result is then what the analyzer
    returns for that content, and no error dict; every other call to a
    registered tool is answered with an error dict. *)
Theorem tool_call_runs_iff_well_formed (tool_name : string) (arguments : pyval) :
  tool_name ∈ TOOL_NAMES ->
  is_error (execute_tool (SK := real_skills) tool_name arguments)
  = negb (well_formed_call tool_name arguments) /\
  (forall d content,
      arguments = PDict d ->
      well_formed_call tool_name arguments = true ->
      dict_get d "content" = Some (PStr content) ->
      execute_tool (SK := real_skills) tool_name arguments
      = analyzer_result tool_name content (default PNone (dict_get d "sender"))).
Proof.
  unfold TOOL_NAMES. rewrite !elem_of_cons, elem_of_nil.
  intros [->|[->|[->|[->|[->|[]]]]]];
    unfold execute_tool, well_formed_call, analyzer_result;
    cbn [registry_get TOOLS String.eqb Ascii.eqb Bool.eqb allowed_keys tool_function];
    unfold summarizer_tool, reply_suggester_tool, task_extractor_tool,
           priority_detector_tool, categorizer_tool;
    (destruct arguments as [| | | | | |d]; try (split; [done|by intros]));
    [destruct (call_kwargs_dict "summarizer_tool" [("content", None)] d)
       as [[Hkeys ->]|[Hkeys [e ->]]]; rewrite allowed_content in Hkeys
    |destruct (call_kwargs_dict "reply_suggester_tool"
                 [("content", None); ("sender", Some PNone)] d)
       as [[Hkeys ->]|[Hkeys [e ->]]]; rewrite allowed_content_sender in Hkeys
    |destruct (call_kwargs_dict "task_extractor_tool" [("content", None)] d)
       as [[Hkeys ->]|[Hkeys [e ->]]]; rewrite allowed_content in Hkeys
    |destruct (call_kwargs_dict "priority_detector_tool" [("content", None)] d)
       as [[Hkeys ->]|[Hkeys [e ->]]]; rewrite allowed_content in Hkeys
    |destruct (call_kwargs_dict "categorizer_tool" [("content", None)] d)
       as [[Hkeys ->]|[Hkeys [e ->]]]; rewrite allowed_content in Hkeys];
    rewrite Hkeys; cbn [andb negb mbind result_bind try_except is_error];
    try (split; [done|by intros]);
    cbn [bind_params];
    (destruct (dict_get d "content") as [[| | | |content| |]|] eqn:Hcontent;
     cbn [mbind result_bind mret result_ret];
     try (destruct (dict_get d "sender") eqn:Hsender;
          cbn [mbind result_bind mret result_ret]);
     cbn; (split; [try done|intros ? ? [= <-] ?; try done])).
  all: try (rewrite Hcontent; by intros [= <-]).
  all: try (unfold generate_summary_str; by destruct (summary_loop _)).
  all: try (by destruct (detect_priority_range content) as (? & ? & ? & -> & _)).
  all: try by destruct (categorize_range content) as (? & ? & ? & -> & _).
  all: rewrite Hcontent, Hsender; by intros [= <-].
Qed.

End ToolCalls.

Section ToolCatalogue.
Import Spec Tools.
Context {SK : Skills}.

(** [X12] The catalogue offered to the model and the registry [execute_tool]
    dispatches on agree: the definitions are those of the five registered
    tools, in the order of the registry, each with the description, the
    parameters and the required parameters of its registry entry; every
    required parameter is a declared one, and [content] is required by
    every tool. *)
Theorem advertised_tools_are_registered :
  map def_name get_tool_definitions = TOOL_NAMES /\
  forall def, def ∈ get_tool_definitions ->
    exists spec,
      registry_get TOOLS (def_name def) = Some spec /\
      def_description def = tool_description spec /\
      def_properties def = tool_properties spec /\
      def_required def = tool_required spec /\
      "content" ∈ def_required def /\
      def_required def ⊆ map prop_name (def_properties def).
Proof.
  split; [done|]. intros def.
  unfold get_tool_definitions, TOOLS. cbn [foldl app].
  rewrite !elem_of_cons, elem_of_nil.
  intros [->|[->|[->|[->|[->|[]]]]]];
    (eexists; split; [reflexivity|]); cbn;
    (repeat split; [left|]);
    intros x; rewrite !elem_of_cons, !elem_of_nil; tauto.
Qed.

End ToolCatalogue.

(** ** The agent loop *)

Section AgentRound.
Import Spec Spec2 Agent.
Context {SK : Skills} {CL : ChatClient} {JS : JsonLib}.

Lemma tool_call_loop_round (calls : list (ToolCall * pyval)) :
  Forall (fun call => json_loads (tc_arguments (fst call)) = inr (snd call)) calls ->
  forall tool_results messages,
    tool_call_loop (map fst calls) tool_results messages
    = inr (round_results calls tool_results, messages ++ round_transcript calls).
Proof.
  induction 1 as [|[tc arguments] calls Hparse _ IH]; intros tool_results messages.
  - cbn. by rewrite app_nil_r.
  - cbn [map fst tool_call_loop]. cbn in Hparse. rewrite Hparse.
    cbn [mbind result_bind]. rewrite IH.
    unfold round_results, round_transcript. cbn [foldl map concat].
    by rewrite <- !app_assoc.
Qed.

Lemma round_results_last (after : list (ToolCall * pyval)) :
  forall tool_results name d,
    tool_results !! name = Some d ->
    Forall (fun call => tc_name (fst call) <> name) after ->
    round_results after tool_results !! name = Some d.
Proof.
  induction after as [|[tc arguments] after IH]; intros tool_results name d Hd Hafter;
    [done|].
  apply Forall_cons in Hafter as [Hne Hafter]. cbn in Hne.
  unfold round_results. cbn [foldl]. apply IH; [|done].
  by rewrite lookup_insert_ne.
Qed.

Lemma round_results_app (before after : list (ToolCall * pyval)) tool_results :
  round_results (before ++ after) tool_results
  = round_results after (round_results before tool_results).
Proof. unfold round_results. by rewrite foldl_app. Qed.

(** [X13] A round of tool calls whose arguments all parse runs every call in
    order: it adds to the transcript, per call, the assistant message
    with that call and the tool message with the call's id and the
    result's JSON text, two messages per call, and it files each result
    under the name of its tool. *)
Theorem tool_round_transcript (calls : list (ToolCall * pyval))
        (tool_results : gmap string AnalyzerResult) (messages : list ChatMessage) :
  Forall (fun call => json_loads (tc_arguments (fst call)) = inr (snd call)) calls ->
  tool_call_loop (map fst calls) tool_results messages
  = inr (round_results calls tool_results, messages ++ round_transcript calls) /\
  length (round_transcript calls) = 2 * length calls /\
  (forall i tc arguments,
      calls !! i = Some (tc, arguments) ->
      round_transcript calls !! (2 * i) = Some (MsgAssistant [tc]) /\
      round_transcript calls !! (2 * i + 1)
      = Some (MsgTool (tc_id tc)
                      (json_dumps (Tools.execute_tool (tc_name tc) arguments)))).
Proof.
  intros Hparse. split; [by apply tool_call_loop_round|].
  clear Hparse. unfold round_transcript. split.
  - induction calls as [|[tc arguments] calls IH]; [done|].
    cbn [map concat length app]. rewrite IH. lia.
  - induction calls as [|[tc0 arguments0] calls IH]; intros i tc arguments Hi; [done|].
    destruct i as [|i].
    + cbn in Hi. by injection Hi as -> ->.
    + cbn in Hi. cbn [map concat app].
      replace (2 * S i) with (S (S (2 * i))) by lia. cbn [lookup list_lookup].
      replace (S (S (2 * i + 1))) with (S (S (2 * i)) + 1) by lia.
      replace (S (S (2 * i)) + 1) with (S (S (2 * i + 1))) by lia.
      by apply IH.
Qed.

(** [X14] When the model calls a tool more than once in a round, the result of
    the last of these calls is the one kept under the tool's name, and so
    the one the record is assembled from. *)
Theorem last_tool_call_wins (before after : list (ToolCall * pyval))
        (tc : ToolCall) (arguments : pyval)
        (tool_results : gmap string AnalyzerResult) (messages : list ChatMessage) :
  Forall (fun call => json_loads (tc_arguments (fst call)) = inr (snd call))
         (before ++ (tc, arguments) :: after) ->
  Forall (fun call => tc_name (fst call) <> tc_name tc) after ->
  exists tool_results' messages',
    tool_call_loop (map fst (before ++ (tc, arguments) :: after)) tool_results messages
    = inr (tool_results', messages') /\
    tool_results' !! tc_name tc = Some (Tools.execute_tool (tc_name tc) arguments).
Proof.
  intros Hparse Hafter. eexists _, _. split; [by apply tool_call_loop_round|].
  rewrite round_results_app.
  change ((tc, arguments) :: after) with ([(tc, arguments)] ++ after).
  rewrite round_results_app. apply round_results_last; [|done].
  unfold round_results at 1. cbn [foldl]. by rewrite lookup_insert_eq.
Qed.

(** [X15] The successful run of [analyze_message] with tool calls: the planning
    call answers with a non-empty list of calls whose arguments parse, and
    the synthesis call, made without a tool catalogue on the transcript
    grown by the round, answers with a message. The outcome is the record
    assembled from the results of the round and the text of the synthesis
    message. *)
Theorem agent_round_assembles (message : string) (sender : option string)
        (message_obj : ChatCompletionMessage) (others : list ChatCompletionMessage)
        (calls : list (ToolCall * pyval))
        (final_message : ChatCompletionMessage)
        (final_others : list ChatCompletionMessage) :
  chat_completions_create (planning_request (initial_messages message))
  = inr {| choices := message_obj :: others |} ->
  cm_tool_calls message_obj = Some (map fst calls) ->
  calls <> [] ->
  Forall (fun call => json_loads (tc_arguments (fst call)) = inr (snd call)) calls ->
  chat_completions_create
    (synthesis_request (initial_messages message ++ round_transcript calls))
  = inr {| choices := final_message :: final_others |} ->
  req_tools (synthesis_request (initial_messages message ++ round_transcript calls))
  = None /\
  analyze_message message sender
  = Analysed (_structure_output message sender (round_results calls ∅)
                                (cm_content final_message)).
Proof.
  intros Hplan Hcalls Hne Hparse Hsyn. split; [done|].
  unfold analyze_message, analyze_message_body. rewrite Hplan.
  cbn [mbind result_bind first_choice choices mret result_ret]. rewrite Hcalls.
  destruct calls as [|call calls]; [done|]. cbn [map].
  change (tc_name (fst call) :: _) with (map fst (call :: calls)).
  change (fst call :: map fst calls) with (map fst (call :: calls)).
  rewrite (tool_call_loop_round (call :: calls) Hparse).
  cbn [mbind result_bind]. rewrite Hsyn. done.
Qed.

(** [X16] When the model asks for no tool (no list of calls, or an empty one),
    [analyze_message] makes no second call and returns the record of
    defaults: the text of the planning answer as analysis, no summary,
    MEDIUM, other, no suggested reply, no tasks, and so no actions; the
    sender is "Unknown" when none, or an empty one, was given. *)
Theorem no_tool_calls_gives_defaults (message : string) (sender : option string)
        (message_obj : ChatCompletionMessage) (others : list ChatCompletionMessage) :
  chat_completions_create (planning_request (initial_messages message))
  = inr {| choices := message_obj :: others |} ->
  cm_tool_calls message_obj = None \/ cm_tool_calls message_obj = Some [] ->
  analyze_message message sender
  = Analysed {| ar_message := message;
                ar_sender := if opt_truthy sender then default "" sender else "Unknown";
                ar_analysis := cm_content message_obj;
                ar_summary := None;
                ar_priority := "MEDIUM";
                ar_category := "other";
                ar_suggested_reply := None;
                ar_tasks := [];
                ar_actions := [] |}.
Proof.
  intros Hplan Hcalls.
  unfold analyze_message, analyze_message_body. rewrite Hplan.
  cbn [mbind result_bind first_choice choices mret result_ret].
  assert (_structure_output message sender ∅ (cm_content message_obj)
          = {| ar_message := message;
               ar_sender := if opt_truthy sender then default "" sender else "Unknown";
               ar_analysis := cm_content message_obj;
               ar_summary := None;
               ar_priority := "MEDIUM";
               ar_category := "other";
               ar_suggested_reply := None;
               ar_tasks := [];
               ar_actions := [] |}) as Hrecord.
  { unfold _structure_output. rewrite !lookup_empty.
    unfold _determine_actions, set_actions. cbn.
    destruct sender as [s|]; [|done]. cbn. by destruct (str_truthy s). }
  destruct Hcalls as [-> | ->]; cbn; by rewrite Hrecord.
Qed.

End AgentRound.

(** ** The sender of a message file *)

Section Sender.
Import Main.

Lemma split_go_nonempty (sep : string) (s : string) :
  forall cur skip, exists piece pieces, Py.split_go sep cur s skip = piece :: pieces.
Proof.
  induction s as [|c s IH]; intros cur skip; [by eexists _, _|].
  cbn [Py.split_go]. destruct skip as [|k]; [|apply IH].
  destruct (Py.startswith _ _); [by eexists _, _|apply IH].
Qed.

(** A text in which the separator occurs splits into two pieces at
    least. *)
Lemma contains_split (sep : string) (s : string) :
  sep <> "" ->
  forall cur, Py.contains sep s = true ->
    exists first second rest, Py.split_go sep cur s 0 = first :: second :: rest.
Proof.
  intros Hsep. induction s as [|c s IH]; intros cur.
  - destruct sep; [done|]. by cbn.
  - cbn [Py.contains Py.split_go].
    destruct (Py.startswith (String c s) sep).
    + intros _.
      destruct (split_go_nonempty sep s "" (String.length sep - 1))
        as (piece & pieces & ->).
      by eexists _, _, _.
    + cbn [orb]. apply IH.
Qed.

Lemma colon_lower_char (c : ascii) :
  Ascii.eqb ":" (Py.lower_char c) = Ascii.eqb ":" c.
Proof.
  destruct c as [[] [] [] [] [] [] [] []]; reflexivity.
Qed.

(** A line that starts with "from:", in any letter case, splits at that
    colon. *)
Lemma from_line_split (line : string) :
  Py.startswith (Py.lower line) "from:" = true ->
  Py.split1 line ":" = [Py.slice_to 4 line; Py.string_drop 5 line].
Proof.
  destruct line as [|c1 [|c2 [|c3 [|c4 [|c5 rest]]]]]; try (by cbn);
    try (cbn; rewrite ?andb_false_r; by intros).
  cbn [Py.lower Py.startswith].
  rewrite !andb_true_iff.
  intros (H1 & H2 & H3 & H4 & H5 & _).
  apply Ascii.eqb_eq in H1, H2, H3, H4, H5.
  unfold Py.split1. cbn [Py.split1_go Py.startswith].
  rewrite <- (colon_lower_char c1), <- (colon_lower_char c2),
    <- (colon_lower_char c3), <- (colon_lower_char c4), <- (colon_lower_char c5).
  rewrite <- H1, <- H2, <- H3, <- H4, <- H5. by cbn.
Qed.

(** [X17] [extract_sender] case by case. When the file name contains "_from_",
    the sender is read from the piece after its first occurrence (and
    there is such a piece), whatever the content says. Otherwise the first
    of the first five lines of the content that starts with "from:", in
    any letter case, gives the sender: the rest of that line after the
    colon, stripped. Without such a line the sender is "Unknown". *)
Theorem extract_sender_cases (filename content : string) :
  (Py.contains "_from_" filename = true ->
   exists first second rest,
     Py.split filename "_from_" = first :: second :: rest /\
     extract_sender filename content
     = Py.title (Py.replace (Py.replace second ".txt" "") "_" " ")) /\
  (Py.contains "_from_" filename = false ->
   forall before line after,
     take 5 (Py.split content Py.LF) = before ++ line :: after ->
     Forall (fun l => Py.startswith (Py.lower l) "from:" = false) before ->
     Py.startswith (Py.lower line) "from:" = true ->
     extract_sender filename content = Py.strip (Py.string_drop 5 line)) /\
  (Py.contains "_from_" filename = false ->
   Forall (fun l => Py.startswith (Py.lower l) "from:" = false)
          (take 5 (Py.split content Py.LF)) ->
   extract_sender filename content = "Unknown").
Proof.
  unfold extract_sender. split; [|split].
  - intros Hname. rewrite Hname.
    destruct (contains_split "_from_" filename ltac:(done) "" Hname)
      as (first & second & rest & Hsplit).
    unfold Py.split. rewrite Hsplit. by eexists _, _, _.
  - intros Hname before line after Hlines Hbefore Hline. rewrite Hname, Hlines.
    rewrite filter_app.
    assert (filter (fun l => Py.startswith (Py.lower l) "from:") before = []) as ->.
    { clear -Hbefore. induction Hbefore as [|l before Hl _ IH]; [done|].
      rewrite filter_cons_False; [done|]. rewrite Hl. by intros ?. }
    rewrite filter_cons_True by (by rewrite Hline). cbn [app].
    by rewrite (from_line_split line Hline).
  - intros Hname Hlines. rewrite Hname.
    assert (filter (fun l => Py.startswith (Py.lower l) "from:")
                   (take 5 (Py.split content Py.LF)) = []) as ->; [|done].
    induction Hlines as [|l lines Hl _ IH]; [done|].
    rewrite filter_cons_False; [done|]. rewrite Hl. by intros ?.
Qed.

End Sender.

Section WhatsAppFiles.
Import Main.

Lemma string_app_cons (c : ascii) (s1 s2 : string) :
  String c s1 +:+ s2 = String c (s1 +:+ s2).
Proof. done. Qed.

Lemma string_app_nil_r (s : string) : s +:+ "" = s.
Proof. induction s as [|c s IH]; [done|]. by rewrite string_app_cons, IH. Qed.

Lemma string_app_assoc (s1 s2 s3 : string) : (s1 +:+ s2) +:+ s3 = s1 +:+ (s2 +:+ s3).
Proof. induction s1 as [|c s1 IH]; [done|]. by rewrite !string_app_cons, IH. Qed.

Lemma rev_app_app (s1 s2 : string) : String.rev_app s1 s2 = String.rev s1 +:+ s2.
Proof.
  unfold String.rev. revert s2. induction s1 as [|c s1 IH]; intros s2; [done|].
  cbn [String.rev_app]. rewrite IH, (IH (String c "")).
  by rewrite string_app_assoc.
Qed.

Lemma startswith_app (p s : string) : Py.startswith (p +:+ s) p = true.
Proof.
  induction p as [|c p IH]; [done|].
  rewrite string_app_cons. cbn [Py.startswith]. by rewrite Ascii.eqb_refl, IH.
Qed.

Lemma startswith_shorter (s p q : string) :
  Py.startswith s (p +:+ q) = true -> Py.startswith s p = true.
Proof.
  revert s. induction p as [|c p IH]; intros s; [done|].
  rewrite string_app_cons. destruct s as [|b s]; cbn [Py.startswith]; [done|].
  intros [-> Hs]%andb_true_iff. cbn. by apply IH.
Qed.

(** The first piece of a split starts with what had been read of it. *)
Lemma split_go_first_piece (s : string) :
  forall cur, exists piece pieces,
    Py.split_go Py.LF cur s 0 = piece :: pieces /\
    Py.startswith piece (String.rev cur) = true.
Proof.
  induction s as [|c s IH]; intros cur.
  - eexists _, _. split; [done|]. cbn.
    rewrite <- (string_app_nil_r (String.rev cur)) at 1. apply startswith_app.
  - cbn [Py.split_go]. destruct (Py.startswith _ _).
    + eexists _, _. split; [done|].
      rewrite <- (string_app_nil_r (String.rev cur)) at 1. apply startswith_app.
    + destruct (IH (String c cur)) as (piece & pieces & -> & Hpiece).
      eexists _, _. split; [done|].
      unfold String.rev in Hpiece. cbn [String.rev_app] in Hpiece.
      rewrite rev_app_app in Hpiece. by apply startswith_shorter in Hpiece.
Qed.

(** Splitting into lines passes over a text without a line feed, and cuts
    at a line feed. *)
Lemma split_go_line (p s : string) :
  forall cur, Py.contains Py.LF p = false ->
    Py.split_go Py.LF cur (p +:+ s) 0 = Py.split_go Py.LF (String.rev_app p cur) s 0.
Proof.
  induction p as [|c p IH]; intros cur; [done|].
  rewrite string_app_cons. cbn [Py.contains Py.split_go Py.startswith Py.LF].
  rewrite andb_true_r. intros [Hc Hp]%orb_false_iff. rewrite Hc.
  cbn [String.rev_app]. by apply IH.
Qed.

Lemma split_go_lf (s cur : string) :
  Py.split_go Py.LF cur (Py.LF +:+ s) 0 = String.rev cur :: Py.split_go Py.LF "" s 0.
Proof. done. Qed.

(** [X18] A message captured by the WhatsApp watcher is attributed to "Unknown":
    the file the watcher writes names its sender on a "**Sender**:" line,
    which [extract_sender] does not read, and none of the first five lines
    of the file starts with "from:", whatever the sender's name and the
    message are. Only a name that puts "_from_" into the file name is read
    from there. *)
Theorem whatsapp_sender_unknown (sender detailed_timestamp message_text : string)
        (time : N) :
  Py.contains "_from_" (WhatsApp.output_filename sender time) = false ->
  extract_sender (WhatsApp.output_filename sender time)
                 (WhatsApp.file_text sender detailed_timestamp message_text)
  = "Unknown".
Proof.
  intros Hname. unfold extract_sender. rewrite Hname.
  unfold WhatsApp.file_text, Py.split.
  rewrite split_go_line by done. rewrite !split_go_lf.
  rewrite split_go_line by done. rewrite !split_go_lf.
  rewrite split_go_line by done.
  destruct (split_go_first_piece
              (sender +:+ Py.LF +:+ Py.LF +:+ "**Timestamp**: " +:+ detailed_timestamp
               +:+ Py.LF +:+ Py.LF +:+ "**Message**:" +:+ Py.LF +:+ "```" +:+ Py.LF
               +:+ message_text +:+ Py.LF +:+ "```" +:+ Py.LF)
              (String.rev_app "**Sender**: " ""))
    as (piece & pieces & -> & Hpiece).
  cbn [take].
  assert (Py.startswith (Py.lower piece) "from:" = false) as Hnot.
  { destruct piece as [|c piece]; [done|].
    vm_compute String.rev in Hpiece. cbn [Py.startswith] in Hpiece.
    apply andb_true_iff in Hpiece as [Hc _]. apply Ascii.eqb_eq in Hc as <-.
    done. }
  rewrite !filter_cons_False; [done|..]; try (by vm_compute).
  rewrite Hnot. by intros ?.
Qed.

End WhatsAppFiles.

(** ** Processing a message file *)

Section Processing.
Import Spec Spec2 Main IOPrim.
Context {SK : Skills} {DT : DateTimeLib}.

(** When standard input ends before every action has been answered, the
    gate raises [EOFError] at the first question it cannot read an answer
    to, having asked one question per line read and that one. *)
Lemma approval_loop_eof (actions : list Action) :
  forall approved (w : World),
    length (w_stdin w) < length actions ->
    approval_loop actions approved w
    = (inl (Exn "EOFError" "EOF when reading a line"),
       answered (S (length (w_stdin w))) [] w).
Proof.
  induction actions as [|action actions IH]; intros approved w Hlen; [cbn in Hlen; lia|].
  cbn [approval_loop]. unfold mbind, io_bind, input, log_event. cbn [w_stdin].
  destruct (w_stdin w) as [|line rest] eqn:Hin.
  - by unfold answered.
  - cbn in Hlen. rewrite IH by (cbn; lia).
    unfold answered. cbn. f_equal. f_equal. by rewrite <- app_assoc.
Qed.

(** The gate only asks: whatever is on standard input, all it adds to
    the trace are its questions. *)
Lemma approval_loop_effects (actions : list Action) :
  forall approved (w : World), exists n,
    w_trace (snd (approval_loop actions approved w))
    = w_trace w ++ replicate n (EvPrompt approval_prompt).
Proof.
  induction actions as [|action actions IH]; intros approved w.
  - exists 0. cbn. by rewrite app_nil_r.
  - cbn [approval_loop]. unfold mbind, io_bind, input, log_event. cbn [w_stdin].
    destruct (w_stdin w) as [|line rest] eqn:Hin.
    + by exists 1.
    + match goal with |- context [approval_loop actions ?a ?w'] =>
        destruct (IH a w') as (n & ->) end.
      exists (S n). cbn. by rewrite <- app_assoc.
Qed.

Lemma action_attempt_not_move (a : Action) (ev : Event) :
  is_action_attempt a ev -> is_move ev = false.
Proof. intros (path & _ & [[text ->]| ->]); done. Qed.

Lemma audit_attempt_not_move actions result (ev : Event) :
  is_audit_attempt actions result ev -> is_move ev = false.
Proof. intros (path & _ & [[timestamp ->]| ->]); done. Qed.

(** What the approval step does: it asks, writes the artifacts of the
    approved actions and the audit entry, and moves nothing; it returns
    normally unless input ran out or the audit entry could not be
    written. *)
Lemma approve_and_execute_effects (result : AnalysisOutcome) (w : World) :
  exists effects,
    w_trace (snd (approve_and_execute result w)) = w_trace w ++ effects /\
    Forall (fun ev => is_move ev = false) effects /\
    (fst (approve_and_execute result w) = inr tt ->
     Forall (fun ev => is_log_event ev && is_failed_write ev = false) effects).
Proof.
  unfold approve_and_execute.
  destruct (outcome_actions result) as [[|action actions]|] eqn:Hactions;
    try (exists []; cbn; rewrite app_nil_r; by repeat split).
  unfold approval_flow, mbind, io_bind. rewrite Hactions. cbn [default]. unfold id.
  destruct (approval_loop_effects (action :: actions) [] w) as (n & Hasked).
  assert (Forall (fun ev => is_move ev = false)
                 (replicate n (EvPrompt approval_prompt))) as Hprompts1
    by (by apply Forall_replicate).
  assert (Forall (fun ev => is_log_event ev && is_failed_write ev = false)
                 (replicate n (EvPrompt approval_prompt))) as Hprompts2
    by (by apply Forall_replicate).
  destruct (approval_loop (action :: actions) [] w) as [[e|approved] w1];
    cbn [fst snd] in *.
  { exists (replicate n (EvPrompt approval_prompt)). by repeat split. }
  destruct approved as [|a approved].
  { exists (replicate n (EvPrompt approval_prompt)). by repeat split. }
  destruct (execute_loop_spec (a :: approved) result w1)
    as (events & Hevents & Hok & Htrace & _).
  unfold execute_actions, mbind, io_bind.
  destruct (execute_loop (a :: approved) result w1) as [[e|[]] w2];
    cbn [fst snd] in *; [done|].
  destruct (log_execution_spec (a :: approved) result w2)
    as (audit & Haudit & Htrace' & _ & Hres).
  exists (replicate n (EvPrompt approval_prompt) ++ events ++ [audit]).
  split; [by rewrite Htrace', Htrace, Hasked, <- !app_assoc|]. split.
  - apply Forall_app. split; [done|]. apply Forall_app. split.
    + clear -Hevents. induction Hevents as [|? ? ? ? Hev _ IH]; constructor; [|done].
      by eapply action_attempt_not_move.
    + constructor; [|done]. by eapply audit_attempt_not_move.
  - intros Hreturn. apply Forall_app. split; [done|]. apply Forall_app. split.
    + clear -Hevents. induction Hevents as [|? ? ? ? Hev _ IH]; constructor; [|done].
      by rewrite (action_attempt_not_log _ _ Hev).
    + constructor; [|done].
      destruct audit; cbn; rewrite ?andb_false_r; try done.
      destruct Hres as [e He]. rewrite He in Hreturn. done.
Qed.

(** [X19] [process_message_file] never raises, and it moves the file at most
    once, as the last thing it does, into the processed directory under
    its own name (the move may fail). Before that it only asks and writes.
    When the audit entry cannot be written the file is not moved, though
    the artifacts of the approved actions have been written. *)
Theorem message_file_moved_last (file_path : string) (w : World) :
  let processed_path := path_join VAULT_PROCESSED (path_name file_path) in
  exists effects tail,
    fst (process_message_file file_path w) = inr tt /\
    w_trace (snd (process_message_file file_path w)) = w_trace w ++ effects ++ tail /\
    Forall (fun ev => is_move ev = false) effects /\
    (tail = [] \/ tail = [EvRename file_path processed_path]
     \/ tail = [EvRenameFailed file_path processed_path]) /\
    (Exists (fun ev => is_log_event ev && is_failed_write ev = true) effects ->
     tail = []).
Proof.
  intros processed_path. subst processed_path.
  unfold process_message_file, try_io, mbind, io_bind, read_file, lift.
  destruct (w_read w file_path) as [e|message];
    [exists [], []; cbn; rewrite app_nil_r; repeat split; auto|].
  destruct (analyze_with_skills message _) as [e|result];
    [exists [], []; cbn; rewrite app_nil_r; repeat split; auto|].
  destruct (approve_and_execute_effects (Analysed result) w)
    as (effects & Htrace & Hmoves & Hreturn).
  destruct (approve_and_execute (Analysed result) w) as [[e|[]] w1];
    cbn [fst snd] in *.
  { exists effects, []. rewrite app_nil_r. repeat split; auto. }
  specialize (Hreturn eq_refl).
  assert (Exists (fun ev => is_log_event ev && is_failed_write ev = true) effects
          -> False) as Hnone.
  { intros Hex. apply Exists_exists in Hex as (ev & Hev & Htrue).
    rewrite Forall_forall in Hreturn. specialize (Hreturn ev Hev). congruence. }
  unfold rename, next_op, log_event. cbn [w_fault w_ops w_trace].
  destruct (w_fault w1 (w_ops w1)) as [e|]; cbn [fst snd w_trace];
    eexists effects, [_]; rewrite Htrace, <- app_assoc;
    (repeat split; [done|auto|by intros ?%Hnone]).
Qed.

(** With an action to decide on, the first thing the approval step does
    is to ask. *)
Lemma approve_and_execute_asks (result : AnalysisOutcome) (w : World) a actions :
  outcome_actions result = Some (a :: actions) ->
  exists rest,
    w_trace (snd (approve_and_execute result w))
    = w_trace w ++ EvPrompt approval_prompt :: rest.
Proof.
  intros Hactions. unfold approve_and_execute, approval_flow, mbind, io_bind.
  rewrite Hactions. cbn [default]. unfold id. cbn [approval_loop].
  unfold mbind, io_bind, input, log_event. cbn [w_stdin].
  destruct (w_stdin w) as [|line stdin]; [by exists []|].
  match goal with |- context [approval_loop actions ?ap ?w1] =>
    destruct (approval_loop_effects actions ap w1) as (n & Hasked);
    destruct (approval_loop actions ap w1) as [[e|approved] w2] end;
    cbn [fst snd w_trace] in *.
  { eexists. rewrite Hasked, <- app_assoc. reflexivity. }
  destruct approved as [|a' approved].
  { eexists. cbn. rewrite Hasked, <- app_assoc. reflexivity. }
  destruct (execute_loop_spec (a' :: approved) result w2)
    as (events & _ & Hok & Htrace & _).
  unfold execute_actions, mbind, io_bind.
  destruct (execute_loop (a' :: approved) result w2) as [[e|[]] w3];
    cbn [fst snd] in *; [done|].
  destruct (log_execution_spec (a' :: approved) result w3)
    as (audit & _ & Htrace' & _).
  eexists. rewrite Htrace', Htrace, Hasked, <- !app_assoc. reflexivity.
Qed.

(** [X20] When standard input ends before the gate has an answer for every
    proposed action, nothing is executed: no artifact, no audit entry,
    and the message file stays where it is. The trace shows the questions
    only. *)
Theorem approval_eof_executes_nothing (file_path message : string)
        (r : AnalysisRecord) (w : World) :
  w_read w file_path = inr message ->
  analyze_with_skills message (extract_sender (path_name file_path) message) = inr r ->
  length (w_stdin w) < length (ar_actions r) ->
  approval_flow (Analysed r) w
  = (inl (Exn "EOFError" "EOF when reading a line"),
     answered (S (length (w_stdin w))) [] w) /\
  process_message_file file_path w
  = (inr tt, answered (S (length (w_stdin w))) [] w).
Proof.
  intros Hread Hanalysis Hlen.
  assert (approval_flow (Analysed r) w
          = (inl (Exn "EOFError" "EOF when reading a line"),
             answered (S (length (w_stdin w))) [] w)) as Hflow.
  { unfold approval_flow. cbn [outcome_actions default].
    destruct (ar_actions r) as [|a actions] eqn:Hactions; [cbn in Hlen; lia|].
    by apply approval_loop_eof. }
  split; [done|].
  unfold process_message_file, try_io, mbind, io_bind, read_file, lift.
  rewrite Hread, Hanalysis.
  unfold approve_and_execute, mbind, io_bind. cbn [outcome_actions].
  destruct (ar_actions r) as [|a actions] eqn:Hactions; [cbn in Hlen; lia|].
  by rewrite Hflow.
Qed.

Lemma zip_decided (actions : list Action) :
  forall lines : list string,
    length lines = length actions ->
    map fst (zip actions lines) = actions /\
    map snd (zip actions lines) = lines /\
    length (zip actions lines) = length lines.
Proof.
  induction actions as [|a actions IH]; intros [|line lines] Hlen; try done.
  cbn in Hlen. destruct (IH lines) as (H1 & H2 & H3); [lia|].
  cbn. by rewrite H1, H2, H3.
Qed.

Lemma all_rejected (decided : list (Action * string)) :
  Forall (fun line => gate_accepts line = false) (map snd decided) ->
  filter (fun d => gate_accepts (snd d) = true) decided = [].
Proof.
  induction decided as [|[a line] decided IH]; [done|].
  cbn [map snd]. intros [Hline Hrest]%Forall_cons.
  rewrite filter_cons_False by (cbn; by rewrite Hline). by apply IH.
Qed.

(** [X21] A message all of whose proposed actions are declined is still
    archived: the gate asks once per action, nothing is written, not
    even an audit entry, and the file is moved into the processed
    directory. *)
Theorem declined_message_is_archived (file_path message : string)
        (r : AnalysisRecord) (lines rest : list string) (w : World) :
  w_read w file_path = inr message ->
  analyze_with_skills message (extract_sender (path_name file_path) message) = inr r ->
  length lines = length (ar_actions r) ->
  Forall (fun line => gate_accepts line = false) lines ->
  w_stdin w = lines ++ rest ->
  w_fault w (w_ops w) = None ->
  process_message_file file_path w
  = (inr tt,
     log_event (EvRename file_path (path_join VAULT_PROCESSED (path_name file_path)))
               (next_op (answered (length lines) rest w))).
Proof.
  intros Hread Hanalysis Hlen Hno Hin Hfault.
  destruct (zip_decided (ar_actions r) lines Hlen) as (Hfst & Hsnd & Hzip).
  pose proof (approval_flow_spec r (zip (ar_actions r) lines) rest w
                (eq_sym Hfst)) as Hflow.
  rewrite Hsnd, Hzip in Hflow. specialize (Hflow Hin).
  rewrite all_rejected in Hflow by (by rewrite Hsnd).
  unfold process_message_file, try_io, mbind, io_bind, read_file, lift.
  rewrite Hread, Hanalysis.
  unfold approve_and_execute, mbind, io_bind. cbn [outcome_actions].
  destruct (ar_actions r) as [|a actions] eqn:Hactions.
  - destruct lines; [|done]. cbn in Hin. unfold rename, mret, io_ret.
    rewrite Hfault. unfold answered, log_event, next_op. cbn.
    rewrite app_nil_r. by rewrite Hin.
  - rewrite Hflow. cbn [map]. unfold rename, answered.
    unfold mret, io_ret. cbn [w_fault w_ops]. by rewrite Hfault.
Qed.

End Processing.

Section AlwaysAsks.
Import Spec Spec2 Main IOPrim.
Context {TL : TextLib} {DT : DateTimeLib}.

(** [X22] With the analyzers of the repository every message file that can be
    read leads to a question at the approval gate, whatever the message
    says: the sender is always proposed a reply. Nothing is written and
    the file is not moved before that question has been answered. *)
Theorem every_message_is_asked_about (file_path message : string) (w : World) :
  w_read w file_path = inr message ->
  exists rest,
    w_trace (snd (process_message_file (SK := RealSkills.real_skills) file_path w))
    = w_trace w ++ EvPrompt approval_prompt :: rest.
Proof.
  intros Hread.
  unfold process_message_file, try_io, mbind, io_bind, read_file, lift.
  rewrite Hread.
  destruct (direct_analysis_proposes message (extract_sender (path_name file_path) message))
    as (r & action & actions & -> & Hactions).
  destruct (approve_and_execute_asks (Analysed r) w _ _ (f_equal Some Hactions))
    as (rest & Htrace).
  destruct (approve_and_execute (Analysed r) w) as [[e|[]] w1]; cbn [fst snd] in *.
  { by exists rest. }
  unfold rename, next_op, log_event. cbn [w_fault w_ops w_trace].
  destruct (w_fault w1 (w_ops w1)) as [e|]; cbn [fst snd w_trace];
    eexists; rewrite Htrace, <- app_assoc; reflexivity.
Qed.

End AlwaysAsks.

(** ** The folder watcher *)

Section Watching.
Import Spec Spec2 Main IOPrim Watcher.
Context {SK : Skills} {DT : DateTimeLib}.

Lemma moved_app (events1 events2 : list Event) :
  moved (events1 ++ events2) = moved events1 ++ moved events2.
Proof. unfold moved. apply omap_app. Qed.

Lemma moved_none (events : list Event) :
  Forall (fun ev => is_move ev = false) events -> moved events = [].
Proof.
  induction 1 as [|ev events Hev _ IH]; [done|].
  destruct ev; try done; exact IH.
Qed.

(** Processing a file moves that file or nothing. *)
Lemma process_message_file_moved (file_path : string) (w : World) :
  exists events,
    fst (process_message_file file_path w) = inr tt /\
    w_trace (snd (process_message_file file_path w)) = w_trace w ++ events /\
    (moved events = [] \/ moved events = [file_path]).
Proof.
  unfold process_message_file, try_io, mbind, io_bind, read_file, lift.
  destruct (w_read w file_path) as [e|message];
    [exists []; cbn; rewrite app_nil_r; auto|].
  destruct (analyze_with_skills message _) as [e|result];
    [exists []; cbn; rewrite app_nil_r; auto|].
  destruct (approve_and_execute_effects (Analysed result) w)
    as (effects & Htrace & Hmoves & _).
  destruct (approve_and_execute (Analysed result) w) as [[e|[]] w1];
    cbn [fst snd] in *.
  { exists effects. rewrite (moved_none effects Hmoves). auto. }
  unfold rename, next_op, log_event. cbn [w_fault w_ops w_trace].
  destruct (w_fault w1 (w_ops w1)) as [e|]; cbn [fst snd w_trace];
    eexists (effects ++ [_]); rewrite Htrace, <- app_assoc;
    (split; [done|]; split; [done|]);
    rewrite moved_app, (moved_none effects Hmoves); by right.
Qed.

Lemma watch_poll_spec (inbox_files : list string) :
  forall (processed_files : gset string) (w : World),
  exists events processed_files',
    fst (watch_poll inbox_files processed_files w) = inr processed_files' /\
    (forall p, p ∈ processed_files' <-> p ∈ processed_files \/ p ∈ inbox_files) /\
    w_trace (snd (watch_poll inbox_files processed_files w)) = w_trace w ++ events /\
    NoDup (moved events) /\
    Forall (fun p => p ∈ inbox_files /\ p ∉ processed_files) (moved events).
Proof.
  induction inbox_files as [|file_path rest IH]; intros processed_files w.
  - exists [], processed_files. cbn. rewrite app_nil_r.
    repeat split; auto; try constructor.
    + intros [?|[]%elem_of_nil]. done.
  - cbn [watch_poll]. case_bool_decide as Hnew.
    + unfold mbind, io_bind.
      destruct (process_message_file_moved file_path w) as (events1 & Hok & Htrace & Hmoved).
      destruct (process_message_file file_path w) as [[e|[]] w1];
        cbn [fst snd] in *; [done|].
      destruct (IH (processed_files ∪ {[file_path]}) w1)
        as (events2 & processed_files' & Hfst & Hset & Htrace2 & Hnodup & Hall).
      exists (events1 ++ events2), processed_files'.
      split; [done|]. split; [|split; [|split]].
      * intros p. rewrite Hset, elem_of_union, elem_of_singleton, elem_of_cons. tauto.
      * by rewrite Htrace2, Htrace, <- app_assoc.
      * rewrite moved_app. apply NoDup_app. split; [|split; [|done]].
        -- destruct Hmoved as [-> | ->]; [constructor|apply NoDup_singleton].
        -- intros p Hp Hp2. rewrite Forall_forall in Hall.
           destruct (Hall p Hp2) as [_ Hnot]. apply Hnot.
           destruct Hmoved as [Hm|Hm]; rewrite Hm in Hp; [by apply elem_of_nil in Hp|].
           apply list_elem_of_singleton in Hp as ->.
           apply elem_of_union. right. by apply elem_of_singleton.
      * rewrite moved_app. apply Forall_app. split.
        -- destruct Hmoved as [-> | ->]; [constructor|].
           constructor; [|constructor]. split; [left|done].
        -- eapply Forall_impl; [exact Hall|]. intros p [Hin Hnot]. split; [by right|].
           intros Hp. apply Hnot, elem_of_union. by left.
    + destruct (IH processed_files w)
        as (events & processed_files' & Hfst & Hset & Htrace & Hnodup & Hall).
      exists events, processed_files'. split; [done|]. split; [|split; [done|split; [done|]]].
      * intros p. rewrite Hset, elem_of_cons.
        assert (file_path ∈ processed_files) by (by destruct (decide (file_path ∈ processed_files))).
        split; [tauto|]. intros [?|[->|?]]; auto.
      * eapply Forall_impl; [exact Hall|]. intros p [Hin Hnot]. split; [by right|done].
Qed.

Lemma watch_rounds_spec (listings : list (list string)) :
  forall (processed_files : gset string) (w : World),
  exists events processed_files',
    fst (watch_rounds listings processed_files w) = inr processed_files' /\
    (forall p, p ∈ processed_files' <->
               p ∈ processed_files \/ exists files, files ∈ listings /\ p ∈ files) /\
    w_trace (snd (watch_rounds listings processed_files w)) = w_trace w ++ events /\
    NoDup (moved events) /\
    Forall (fun p => p ∈ processed_files' /\ p ∉ processed_files) (moved events).
Proof.
  induction listings as [|inbox_files later IH]; intros processed_files w.
  - exists [], processed_files. cbn. rewrite app_nil_r.
    repeat split; auto; try constructor.
    intros [?|(files & []%elem_of_nil & _)]. done.
  - cbn [watch_rounds]. unfold mbind, io_bind.
    destruct (watch_poll_spec inbox_files processed_files w)
      as (events1 & processed1 & Hfst1 & Hset1 & Htrace1 & Hnodup1 & Hall1).
    destruct (watch_poll inbox_files processed_files w) as [[e|processed1'] w1];
      cbn [fst snd] in *; [done|].
    injection Hfst1 as ->.
    destruct (IH processed1 w1)
      as (events2 & processed2 & Hfst2 & Hset2 & Htrace2 & Hnodup2 & Hall2).
    exists (events1 ++ events2), processed2.
    split; [done|]. split; [|split; [|split]].
    + intros p. rewrite Hset2, Hset1. split.
      * intros [[?|Hp]|(files & Hfiles & Hp)]; auto.
        -- right. exists inbox_files. split; [left|done].
        -- right. exists files. split; [by right|done].
      * intros [?|(files & Hfiles & Hp)]; auto.
        apply elem_of_cons in Hfiles as [->|Hfiles]; auto.
        right. by exists files.
    + by rewrite Htrace2, Htrace1, <- app_assoc.
    + rewrite moved_app. apply NoDup_app. split; [done|]. split; [|done].
      intros p Hp1 Hp2. rewrite Forall_forall in Hall1, Hall2.
      destruct (Hall1 p Hp1) as [Hin _]. destruct (Hall2 p Hp2) as [_ Hnot].
      apply Hnot, Hset1. by right.
    + rewrite moved_app. apply Forall_app. split.
      * eapply Forall_impl; [exact Hall1|]. intros p [Hin Hnot]. split; [|done].
        apply Hset2. left. apply Hset1. by right.
      * eapply Forall_impl; [exact Hall2|]. intros p [Hin Hnot]. split; [done|].
        intros Hp. apply Hnot, Hset1. by left.
Qed.

(** [X23] The folder watcher never raises on a message. After any number of
    rounds the set of files it has seen is the union of the listings, and
    no file has been moved, or tried to be moved, more than once: a file
    that was listed again, because its processing failed or its move did,
    is not processed again in the same run. A round whose files have all
    been seen does nothing. *)
Theorem watch_folder_moves_once :
  (forall (listings : list (list string)) (w : World),
      exists events processed_files,
        fst (watch_folder listings w) = inr processed_files /\
        (forall p, p ∈ processed_files <-> exists files, files ∈ listings /\ p ∈ files) /\
        w_trace (snd (watch_folder listings w)) = w_trace w ++ events /\
        NoDup (moved events) /\
        Forall (fun p => p ∈ processed_files) (moved events)) /\
  (forall (inbox_files : list string) (processed_files : gset string) (w : World),
      Forall (fun p => p ∈ processed_files) inbox_files ->
      watch_poll inbox_files processed_files w = (inr processed_files, w)).
Proof.
  split.
  - intros listings w. unfold watch_folder.
    destruct (watch_rounds_spec listings ∅ w)
      as (events & processed_files & Hfst & Hset & Htrace & Hnodup & Hall).
    exists events, processed_files. split; [done|]. split; [|split; [done|split; [done|]]].
    + intros p. rewrite Hset. split; [|auto].
      intros [[]%elem_of_empty|?]. done.
    + eapply Forall_impl; [exact Hall|]. by intros p [? _].
  - intros inbox_files processed_files w Hseen.
    induction Hseen as [|file_path rest Hin _ IH]; [done|].
    cbn [watch_poll]. rewrite bool_decide_eq_false_2; [done|]. by intros ?.
Qed.

End Watching.

(** ** The names of the artifacts *)

Section TaskFiles.
Import Spec Spec2 Main IOPrim.
Context {DT : DateTimeLib}.

(** [X24] The name of a task file is made of the second at which it is written
    and of nothing else: the tasks of a batch that are written within the
    same second all go to the same path, each write replacing the file of
    the one before. *)
Theorem same_second_tasks_share_file (actions : list Action)
        (result : AnalysisOutcome) (stamp : string) :
  Forall (fun a => a_type a = "create_task") actions ->
  forall w : World,
    (forall k, strftime (w_clock w k) "%Y%m%d_%H%M%S" = stamp) ->
    (forall k, w_fault w k = None) ->
    exists events,
      w_trace (snd (execute_loop actions result w)) = w_trace w ++ events /\
      length events = length actions /\
      Forall (fun ev => exists text,
                  ev = EvWrite ("vault/actions/task_" +:+ stamp +:+ ".txt")
                               (TextFile text))
             events.
Proof.
  induction 1 as [|action actions Htype _ IH]; intros w Hclock Hfault.
  - exists []. cbn. rewrite app_nil_r. by repeat split.
  - destruct action as [|description task priority]; [done|].
    cbn [execute_loop]. unfold mbind at 1, io_bind at 1.
    unfold execute_one, try_io, execute_create_task, mbind, io_bind, now,
           write_file, next_op, log_event.
    cbn [w_fault w_ops w_clock w_ticks w_trace w_stdin w_read].
    rewrite Hfault, !Hclock.
    match goal with |- context [execute_loop actions result ?w1] =>
      destruct (IH w1 Hclock Hfault) as (events & -> & Hlen & Hall) end.
    cbn [w_trace]. eexists (_ :: events). rewrite <- app_assoc.
    split; [reflexivity|]. split; [cbn; by rewrite Hlen|].
    constructor; [|done]. by eexists.
Qed.

End TaskFiles.

(** ** Safe file names *)

Section SafeFilename.
Import Spec2 Utils.

Lemma string_length_app (s1 s2 : string) :
  String.length (s1 +:+ s2) = String.length s1 + String.length s2.
Proof.
  induction s1 as [|c s1 IH]; [done|].
  rewrite string_app_cons. cbn [String.length]. by rewrite IH.
Qed.

Lemma chars_app (s1 s2 : string) :
  list_ascii_of_string (s1 +:+ s2) = list_ascii_of_string s1 ++ list_ascii_of_string s2.
Proof.
  induction s1 as [|c s1 IH]; [done|].
  rewrite string_app_cons. cbn [list_ascii_of_string app]. by rewrite IH.
Qed.

Lemma slice_to_length_min (n : nat) (s : string) :
  String.length (Py.slice_to n s) = Nat.min n (String.length s).
Proof.
  revert s. induction n as [|n IH]; intros [|c s]; cbn; try done. by rewrite IH.
Qed.

Lemma slice_to_chars (n : nat) (s : string) (x : ascii) :
  x ∈ list_ascii_of_string (Py.slice_to n s) -> x ∈ list_ascii_of_string s.
Proof.
  revert s. induction n as [|n IH]; intros [|c s]; cbn; try (by intros ?%elem_of_nil).
  rewrite !elem_of_cons. intros [->|Hx]; auto.
Qed.

(** Replacing one character by an underscore, character by character. *)
Lemma replace_char_step (c a : ascii) (s : string) :
  Py.replace (String a s) (String c "") "_"
  = String (if Ascii.eqb c a then "_"%char else a) (Py.replace s (String c "") "_").
Proof.
  unfold Py.replace. cbn [Py.replace_go Py.startswith]. rewrite andb_true_r.
  by destruct (Ascii.eqb c a).
Qed.

Lemma replace_char_length (c : ascii) (s : string) :
  String.length (Py.replace s (String c "") "_") = String.length s.
Proof.
  induction s as [|a s IH]; [done|]. rewrite replace_char_step. cbn. by rewrite IH.
Qed.

Lemma replace_char_chars (c : ascii) (s : string) (x : ascii) :
  x ∈ list_ascii_of_string (Py.replace s (String c "") "_") ->
  x = "_"%char \/ (x ∈ list_ascii_of_string s /\ x <> c).
Proof.
  induction s as [|a s IH]; [by intros ?%elem_of_nil|].
  rewrite replace_char_step. cbn [list_ascii_of_string]. rewrite !elem_of_cons.
  intros [->|Hx].
  - destruct (Ascii.eqb_spec c a) as [->|Hne]; [by left|]. right. split; [by left|].
    congruence.
  - destruct (IH Hx) as [->|[Hin Hne]]; auto.
Qed.

Lemma replace_char_absent (c : ascii) (s : string) :
  c ∉ list_ascii_of_string s -> Py.replace s (String c "") "_" = s.
Proof.
  induction s as [|a s IH]; [done|].
  cbn [list_ascii_of_string]. rewrite not_elem_of_cons. intros [Hne Hs].
  rewrite replace_char_step, (IH Hs).
  destruct (Ascii.eqb_spec c a); [done|done].
Qed.

Lemma replace_chars_length (chars : list ascii) :
  forall s,
    String.length (foldl (fun s c => Py.replace s (String c "") "_") s chars)
    = String.length s.
Proof.
  induction chars as [|c chars IH]; intros s; [done|].
  cbn [foldl]. by rewrite IH, replace_char_length.
Qed.

Lemma replace_chars_chars (chars : list ascii) :
  forall s x,
    x ∈ list_ascii_of_string (foldl (fun s c => Py.replace s (String c "") "_") s chars) ->
    x = "_"%char \/ (x ∈ list_ascii_of_string s /\ x ∉ chars).
Proof.
  induction chars as [|c chars IH]; intros s x Hx.
  - right. split; [done|apply not_elem_of_nil].
  - cbn [foldl] in Hx. destruct (IH _ _ Hx) as [->|[Hin Hnot]]; [by left|].
    destruct (replace_char_chars c s x Hin) as [->|[Hin' Hne]]; [by left|].
    right. split; [done|]. rewrite not_elem_of_cons. done.
Qed.

Lemma replace_chars_absent (chars : list ascii) :
  forall s,
    Forall (fun c => c ∉ list_ascii_of_string s) chars ->
    foldl (fun s c => Py.replace s (String c "") "_") s chars = s.
Proof.
  induction chars as [|c chars IH]; intros s Habsent; [done|].
  apply Forall_cons in Habsent as [Hc Hchars].
  cbn [foldl]. rewrite (replace_char_absent c s Hc). by apply IH.
Qed.

Lemma free_of_swap (chars s : string) :
  free_of chars s ->
  Forall (fun c => c ∉ list_ascii_of_string s) (list_ascii_of_string chars).
Proof.
  unfold free_of. rewrite !Forall_forall. intros Hfree c Hc Hs. by apply (Hfree c Hs).
Qed.

Lemma safe_filename_unchanged (filename : string) :
  free_of invalid_chars filename -> String.length filename <= 200 ->
  safe_filename filename = filename.
Proof.
  intros Hfree Hlen. unfold safe_filename.
  rewrite (replace_chars_absent _ _ (free_of_swap _ _ Hfree)).
  apply Nat.ltb_ge in Hlen. by rewrite Hlen.
Qed.

Lemma safe_filename_bounds (filename : string) :
  String.length (safe_filename filename) <= 200 /\
  free_of invalid_chars (safe_filename filename).
Proof.
  unfold safe_filename.
  set (replaced := foldl _ filename _).
  assert (free_of invalid_chars replaced) as Hfree.
  { unfold free_of. apply Forall_forall. intros x Hx.
    destruct (replace_chars_chars _ _ _ Hx) as [->|[_ Hnot]]; [|done].
    vm_compute list_ascii_of_string. rewrite !elem_of_cons, elem_of_nil.
    intuition discriminate. }
  destruct (200 <? String.length replaced)%nat eqn:Hlong.
  - split.
    + rewrite string_length_app, slice_to_length_min.
      change (String.length "...") with 3. lia.
    + unfold free_of in *. rewrite chars_app. apply Forall_app. split.
      * apply Forall_forall. intros x Hx%slice_to_chars.
        rewrite Forall_forall in Hfree. by apply Hfree.
      * vm_compute list_ascii_of_string. repeat constructor;
          rewrite !elem_of_cons, elem_of_nil; intuition discriminate.
  - apply Nat.ltb_ge in Hlong. done.
Qed.

(** [X25] A safe file name has at most 200 characters and none of the
    characters the function replaces; a name that is short enough and has
    none of them is returned as it is, and so the function applied twice
    gives what it gives applied once. *)
Theorem safe_filename_is_safe (filename : string) :
  String.length (safe_filename filename) <= 200 /\
  free_of invalid_chars (safe_filename filename) /\
  (free_of invalid_chars filename -> String.length filename <= 200 ->
   safe_filename filename = filename) /\
  safe_filename (safe_filename filename) = safe_filename filename.
Proof.
  destruct (safe_filename_bounds filename) as [Hlen Hfree].
  split; [done|]. split; [done|]. split; [apply safe_filename_unchanged|].
  by apply safe_filename_unchanged.
Qed.

End SafeFilename.

(** ** Configuration *)

Section Configuration.
Import Spec Config.
Context {SK : Skills}.

(** [X26] Building the agent fails, with the [ValueError] of [validate_config],
    exactly when neither the caller nor the environment gives a key (an
    empty key counts as none). A built agent has a key that is not empty,
    the caller's if there is one and the environment's otherwise; its
    client is given the same key, and it offers the five registered
    tools. *)
Theorem agent_needs_api_key (OPENROUTER_API_KEY OPENROUTER_MODEL : string)
        (api_key model : option string) :
  match FTEAgent_init OPENROUTER_API_KEY OPENROUTER_MODEL api_key model with
  | inr agent =>
      str_truthy (agent_api_key agent) = true /\
      agent_api_key agent
      = (if opt_truthy api_key then default "" api_key else OPENROUTER_API_KEY) /\
      client_api_key agent = agent_api_key agent /\
      map Tools.def_name (agent_tools agent) = TOOL_NAMES
  | inl e =>
      opt_truthy api_key = false /\ OPENROUTER_API_KEY = "" /\
      validate_config OPENROUTER_API_KEY = inl e /\
      exn_class e = "ValueError"
  end.
Proof.
  unfold FTEAgent_init, validate_config, or_else, opt_truthy.
  destruct api_key as [key|]; cbn [default].
  - destruct (str_truthy key) eqn:Hkey; cbn; [by rewrite Hkey|].
    destruct OPENROUTER_API_KEY; by cbn.
  - destruct OPENROUTER_API_KEY; by cbn.
Qed.

End Configuration.

(** * Scenarios for the further properties *)

Section MoreScenarios.
Import Spec Spec2 Scenario Scenario2.

(** Letter case: a shouted and a quiet version of one message. *)
Lemma analyzers_ignore_letter_case_witness :
  RealSkills.detect_priority_str "URGENT: call the bank TODAY"
  = RealSkills.detect_priority_str "urgent: call the bank today"
  /\ RealSkills.categorize_content_str "URGENT: call the bank TODAY"
     = RealSkills.categorize_content_str "urgent: call the bank today"
  /\ RealSkills.suggest_reply_str "URGENT: call the bank TODAY" PNone
     = RealSkills.suggest_reply_str "urgent: call the bank today" PNone.
Proof.
  apply (analyzers_ignore_letter_case
           "URGENT: call the bank TODAY" "urgent: call the bank today" PNone).
  reflexivity.
Defined.

(** The categorizer on a text without any keyword, and on one about an
    invoice. *)
Lemma category_is_first_maximum_witness :
  (exists reasoning,
      RealSkills.categorize_content_str "hello there"
      = CategoryResult "other" 0.3%float reasoning)
  /\ ("finance" = "other" \/
      exists before n after,
        RealSkills.category_scores (Py.lower "Invoice payment")
        = before ++ ("finance", n) :: after /\
        0 < n /\
        Forall (fun p => snd p < n) before /\
        Forall (fun p => snd p <= n) after).
Proof.
  split.
  - apply (category_is_first_maximum "hello there"). vm_compute.
    repeat constructor.
  - apply (category_is_first_maximum "Invoice payment"). by vm_compute.
Defined.

(** The task extractor on a one-line request. *)
Lemma extracted_tasks_structure_witness :
  exists tasks,
    RealSkills.extract_tasks_str (TL := no_regex) "Please review the report"
    = TasksResult tasks 1 ["Please review the report"] /\
    exists priority,
      tasks !! 0 = Some (TaskDesc {| td_title := "Please review the report";
                                    td_description := "Please review the report";
                                    td_priority := priority;
                                    td_index := 0 |}).
Proof.
  destruct (extracted_tasks_structure (TL := no_regex) "Please review the report")
    as (tasks & raw_tasks & Heq & _ & Htasks).
  assert (raw_tasks = ["Please review the report"]) as ->.
  { vm_compute in Heq. by injection Heq. }
  exists tasks. split; [exact Heq|].
  destruct (Htasks 0 "Please review the report" eq_refl) as (priority & H0 & _).
  exists priority. exact H0.
Defined.

(** A complaint that has the word "this" in it. *)
Lemma greeting_reply_on_any_hi_witness :
  exists r rest,
    Main.analyze_with_skills (SK := skills) "Fix this immediately" "Bob" = inr r /\
    ar_suggested_reply r = Some "Hello! How can I help you today?" /\
    ar_actions r
    = SendReply "Send suggested reply" "Hello! How can I help you today?" "Bob" :: rest.
Proof.
  apply (greeting_reply_on_any_hi (TL := no_regex) "Fix this immediately" "Bob").
  reflexivity.
Defined.

(** A well-formed call of the priority detector, and one with a key it
    does not accept. *)
Lemma tool_call_runs_iff_well_formed_witness :
  Tools.execute_tool (SK := skills) "priority_detector" urgent_arguments
  = RealSkills.detect_priority_str urgent_text
  /\ is_error (Tools.execute_tool (SK := skills) "priority_detector"
                 (PDict [("text", PStr "hello")])) = true.
Proof.
  split.
  - destruct (tool_call_runs_iff_well_formed (TL := no_regex)
                "priority_detector" urgent_arguments) as [_ Hrun].
    + unfold TOOL_NAMES. do 3 apply list_elem_of_further. apply list_elem_of_here.
    + apply (Hrun [("content", PStr urgent_text)] urgent_text); reflexivity.
  - destruct (tool_call_runs_iff_well_formed (TL := no_regex)
                "priority_detector" (PDict [("text", PStr "hello")])) as [Herror _].
    + unfold TOOL_NAMES. do 3 apply list_elem_of_further. apply list_elem_of_here.
    + exact Herror.
Defined.

(** The catalogue entry of the reply suggester. *)
Lemma advertised_tools_are_registered_witness :
  exists spec,
    Tools.registry_get (Tools.TOOLS (SK := skills)) "reply_suggester" = Some spec /\
    Tools.tool_required spec = ["content"].
Proof.
  destruct (advertised_tools_are_registered (SK := skills)) as [_ Hdefs].
  destruct (Hdefs {| Tools.def_name := "reply_suggester";
                     Tools.def_description := "Suggest appropriate replies to the message";
                     Tools.def_properties :=
                       [Tools.content_property "The message text";
                        {| Tools.prop_name := "sender"; Tools.prop_type := "string";
                           Tools.prop_description := "Optional sender name" |}];
                     Tools.def_required := ["content"] |})
    as (spec & Hget & _ & _ & Hrequired & _).
  - unfold Tools.get_tool_definitions. cbn.
    apply list_elem_of_further, list_elem_of_here.
  - exists spec. split; [exact Hget|]. symmetry. exact Hrequired.
Defined.

(** A round of two tool calls. *)
Lemma tool_round_transcript_witness :
  Agent.tool_call_loop (SK := skills) (JS := scenario_json)
                       [call_priority; call_category] ∅ []
  = inr (round_results (SK := skills) round_calls ∅,
         [] ++ round_transcript (SK := skills) (JS := scenario_json) round_calls).
Proof.
  apply (tool_round_transcript (SK := skills) (JS := scenario_json) round_calls ∅ []).
  repeat constructor.
Defined.

(** The categorizer called twice, and the priority detector after it. *)
Lemma last_tool_call_wins_witness :
  exists tool_results messages,
    Agent.tool_call_loop (SK := skills) (JS := scenario_json)
                         [call_category; call_category; call_priority] ∅ []
    = inr (tool_results, messages) /\
    tool_results !! "categorizer"
    = Some (Tools.execute_tool (SK := skills) "categorizer" urgent_arguments).
Proof.
  apply (last_tool_call_wins (SK := skills) (JS := scenario_json)
           [(call_category, urgent_arguments)] [(call_priority, urgent_arguments)]
           call_category urgent_arguments ∅ []).
  - repeat constructor.
  - repeat constructor. discriminate.
Defined.

(** A round of two calls and its synthesis. *)
Lemma agent_round_assembles_witness :
  analyze [call_priority; call_category] urgent_text (Some "ops")
  = Analysed (Agent._structure_output urgent_text (Some "ops")
                (round_results (SK := skills) round_calls ∅) (Some "Handled.")).
Proof.
  apply (agent_round_assembles
           (SK := skills) (CL := scripted_client [call_priority; call_category])
           (JS := scenario_json) urgent_text (Some "ops")
           {| cm_content := None;
              cm_tool_calls := Some [call_priority; call_category] |} []
           round_calls
           {| cm_content := Some "Handled."; cm_tool_calls := None |} []).
  - reflexivity.
  - reflexivity.
  - discriminate.
  - repeat constructor.
  - reflexivity.
Defined.

(** A planning answer with an empty list of tool calls. *)
Lemma no_tool_calls_gives_defaults_witness :
  analyze [] "hello" None
  = Analysed {| ar_message := "hello";
                ar_sender := "Unknown";
                ar_analysis := None;
                ar_summary := None;
                ar_priority := "MEDIUM";
                ar_category := "other";
                ar_suggested_reply := None;
                ar_tasks := [];
                ar_actions := [] |}.
Proof.
  apply (no_tool_calls_gives_defaults
           (SK := skills) (CL := scripted_client []) (JS := scenario_json)
           "hello" None {| cm_content := None; cm_tool_calls := Some [] |} []).
  - reflexivity.
  - right. reflexivity.
Defined.

(** The sender from the file name, from a header, and unknown. *)
Lemma extract_sender_cases_witness :
  Main.extract_sender "note_from_jane_doe.txt" "From: Bob" = "Jane Doe"
  /\ Main.extract_sender "note.txt" ("Hi" +:+ Py.LF +:+ "FROM:  Bob ") = "Bob"
  /\ Main.extract_sender "note.txt" "Greetings from: Bob" = "Unknown".
Proof.
  split; [|split].
  - destruct (extract_sender_cases "note_from_jane_doe.txt" "From: Bob")
      as (Hname & _ & _).
    destruct (Hname eq_refl) as (first & second & rest & Hsplit & ->).
    vm_compute in Hsplit. by injection Hsplit as _ <- _.
  - destruct (extract_sender_cases "note.txt" ("Hi" +:+ Py.LF +:+ "FROM:  Bob "))
      as (_ & Hheader & _).
    rewrite (Hheader eq_refl ["Hi"] "FROM:  Bob " []); [reflexivity|reflexivity| |reflexivity].
    repeat constructor.
  - destruct (extract_sender_cases "note.txt" "Greetings from: Bob")
      as (_ & _ & Hnone).
    apply Hnone; [reflexivity|]. vm_compute. repeat constructor.
Defined.

(** A message from a contact of the WhatsApp watcher. *)
Lemma whatsapp_sender_unknown_witness :
  Main.extract_sender
    (WhatsApp.output_filename "Jane Doe" 1700000000)
    (WhatsApp.file_text "Jane Doe" "2023-11-14 22:13:20" "From: me, see you at 5")
  = "Unknown".
Proof.
  apply (whatsapp_sender_unknown "Jane Doe" "2023-11-14 22:13:20"
                                 "From: me, see you at 5" 1700000000).
  by vm_compute.
Defined.

(** The request file, both proposals approved, when the audit entry cannot
    be written: the third file operation fails. The file is not moved. *)
Lemma message_file_moved_last_witness :
  moved (w_trace (snd (Main.process_message_file (SK := skills) request_path
                         (request_world ["y"; "y"] [2]))))
  = [].
Proof.
  destruct (message_file_moved_last (SK := skills) (DT := counting_clock) request_path
              (request_world ["y"; "y"] [2]))
    as (effects & tail & _ & Htrace & Hmoves & Htail & Hfail).
  rewrite Htrace. cbn [w_trace request_world app].
  rewrite moved_app, (moved_none effects Hmoves). cbn [app].
  rewrite Hfail; [reflexivity|].
  cbn [w_trace request_world app] in Htrace.
  destruct Htail as [->|[->| ->]].
  - rewrite app_nil_r in Htrace. rewrite <- Htrace. vm_compute.
    do 4 apply Exists_cons_tl. apply Exists_cons_hd. reflexivity.
  - apply (f_equal last) in Htrace. rewrite last_snoc in Htrace.
    vm_compute in Htrace. discriminate Htrace.
  - apply (f_equal last) in Htrace. rewrite last_snoc in Htrace.
    vm_compute in Htrace. discriminate Htrace.
Defined.

(** Two proposed actions and one line of input. *)
Lemma approval_eof_executes_nothing_witness :
  Main.process_message_file (SK := skills) request_path (request_world ["y"] [])
  = (inr tt, answered 2 [] (request_world ["y"] [])).
Proof.
  destruct (direct_analysis_proposes (TL := no_regex) request_text "Jane Doe")
    as (r & action & actions & Hr & _).
  destruct (approval_eof_executes_nothing
              (SK := skills) (DT := counting_clock) request_path request_text r
              (request_world ["y"] [])) as [_ Hfile].
  - reflexivity.
  - exact Hr.
  - vm_compute in Hr. injection Hr as <-. vm_compute. lia.
  - exact Hfile.
Defined.

(** A request with one task in it: a reply and a task are proposed, and
    both are declined. *)
Lemma declined_message_is_archived_witness :
  (exists r first second,
      Main.analyze_with_skills (SK := skills) request_text "Jane Doe" = inr r /\
      ar_actions r = [first; second])
  /\ w_trace (snd (Main.process_message_file (SK := skills) request_path
                     (request_world ["n"; "no"] [])))
     = [EvPrompt Main.approval_prompt; EvPrompt Main.approval_prompt;
        EvRename request_path "vault/processed/request_from_jane_doe.txt"].
Proof.
  destruct (direct_analysis_proposes (TL := no_regex) request_text "Jane Doe")
    as (r & action & actions & Hr & _).
  split.
  - vm_compute in Hr. injection Hr as <-. by eexists _, _, _.
  - rewrite (declined_message_is_archived
               (SK := skills) (DT := counting_clock) request_path request_text r
               ["n"; "no"] [] (request_world ["n"; "no"] [])).
    + reflexivity.
    + reflexivity.
    + exact Hr.
    + vm_compute in Hr. injection Hr as <-. reflexivity.
    + repeat constructor.
    + reflexivity.
    + reflexivity.
Defined.

(** The request file, with nobody to answer. *)
Lemma every_message_is_asked_about_witness :
  exists rest,
    w_trace (snd (Main.process_message_file (SK := skills) request_path (request_world [] [])))
    = [] ++ EvPrompt Main.approval_prompt :: rest.
Proof.
  apply (every_message_is_asked_about (TL := no_regex) (DT := counting_clock)
           request_path request_text (request_world [] [])).
  reflexivity.
Defined.

(** A second round over a file already seen. *)
Lemma watch_folder_moves_once_witness :
  Watcher.watch_poll (SK := skills) [request_path] {[request_path]} (request_world [] [])
  = (inr {[request_path]}, request_world [] []).
Proof.
  destruct (watch_folder_moves_once (SK := skills) (DT := counting_clock)) as [_ Hseen].
  apply Hseen. constructor; [|constructor]. by apply elem_of_singleton.
Defined.

(** Two tasks written while the clock stands still. *)
Lemma same_second_tasks_share_file_witness :
  exists events,
    w_trace (snd (Main.execute_loop [task_action1; task_action2]
                    (Analysed (record [])) (frozen_world [])))
    = [] ++ events /\
    length events = 2 /\
    Forall (fun ev => exists text,
                ev = EvWrite "vault/actions/task_20240305_101500.txt" (TextFile text))
           events.
Proof.
  apply (same_second_tasks_share_file
           (DT := frozen_clock) [task_action1; task_action2] (Analysed (record []))
           "20240305_101500").
  - repeat constructor.
  - reflexivity.
  - reflexivity.
Defined.

(** A name that is already safe. *)
Lemma safe_filename_is_safe_witness :
  Utils.safe_filename "report_2024.txt" = "report_2024.txt".
Proof.
  destruct (safe_filename_is_safe "report_2024.txt") as (_ & _ & Hsame & _).
  apply Hsame.
  - unfold free_of. vm_compute list_ascii_of_string.
    repeat constructor; rewrite !elem_of_cons, elem_of_nil; intuition discriminate.
  - vm_compute. lia.
Defined.

End MoreScenarios.
